(** * AttoDRY: the ctypes facade of PyAttoDRY.py over the vendor driver

    The class [AttoDRY] of [src/PyAttoDRY.py] forwards each of its methods to
    one function of the module [adryLib] (the binding of the vendor DLL).
    This development embeds

    - the values the methods receive and return (Python objects),
    - the marshaling done with [ctypes] ([c_int], [c_uint16], [c_float],
      [c_char_p], [create_string_buffer], UTF-8 encoding and decoding),
    - every method of the class as a program over three effects: reading
      and writing attributes of [self], asking the host for a buffer, and
      calling an entry point of [adryLib],
    - an interpreter of these programs against an arbitrary driver, which
      records the calls that reach the driver, in order.

    The driver itself is not part of the repository sources: it is a
    parameter of the interpreter. A call into the driver always comes back;
    a driver that raises or never returns is outside the model. *)

From Stdlib Require Import ZArith Lia List Bool.
From Stdlib Require Import Floats.SpecFloat.
From Stdlib Require Strings.Byte.
From stdpp Require Import base gmap strings list.

Local Open Scope Z_scope.

(** ** Python values *)

(** A Python [str] is a sequence of code points. *)
Definition pystr := list Z.

Abbreviation byte := Byte.byte.

(** The Python objects that reach the facade. A [float] is given by the 64
    bits of its IEEE 754 binary64 value (sign, 11 bits of biased exponent,
    52 bits of fraction), so that a NaN keeps its sign and payload; an [int]
    is unbounded. *)
Inductive pyval :=
| PyNone
| PyBool (b : bool)
| PyInt (z : Z)
| PyFloat (d : Z)
| PyStr (s : pystr)
| PyBytes (b : list byte).

(** Truth value of an object, as tested by [if]. *)
Definition truthy (v : pyval) : bool :=
  match v with
  | PyNone => false
  | PyBool b => b
  | PyInt z => negb (z =? 0)
  | PyFloat d => negb (Z.land d 9223372036854775807 =? 0)
  | PyStr s => negb (length s =? 0)%nat
  | PyBytes b => negb (length b =? 0)%nat
  end.

(** [bool] is a subclass of [int]: where ctypes expects an integer, [True]
    and [False] count as 1 and 0. *)
Definition as_int (v : pyval) : option Z :=
  match v with
  | PyInt z => Some z
  | PyBool b => Some (Z.b2z b)
  | _ => None
  end.

(** Exceptions. The first group is what the marshaling code of the facade can
    raise (Python built-ins). The second group is the error taxonomy of the
    specification; no method of [PyAttoDRY.py] constructs any of them. *)
Inductive exn :=
| TypeError
| AttributeError
| ValueError
| OverflowError
| MemoryError
| UnicodeEncodeError
| UnicodeDecodeError
| NotInitialized
| NotConnected
| DriverStartFailure
| ConnectionFailure
| UnsupportedForVariant
| DriverError.

Inductive result (A : Type) :=
| Returns (a : A)
| Raises (e : exn).
Arguments Returns {A} a.
Arguments Raises {A} e.

(** ** Bytes *)

Definition Z_of_byte (b : byte) : Z := Z.of_N (Byte.to_N b).

Definition byte_of_Z (z : Z) : byte :=
  match Byte.of_N (Z.to_N (Z.land z 255)) with
  | Some b => b
  | None => Byte.x00
  end.

Definition is_nul (b : byte) : bool := Z_of_byte b =? 0.

(** The bytes of a C string: everything before the first NUL. This is what
    [c_char_p(b).value] and the [.value] of a character array return. *)
Fixpoint c_string (b : list byte) : list byte :=
  match b with
  | [] => []
  | x :: r => if is_nul x then [] else x :: c_string r
  end.

(** ** Integer cells of ctypes *)

(** [ctypes.c_uint16(v).value]: an integer is stored without overflow check,
    as its low 16 bits; anything else is refused. *)
Definition c_uint16 (v : pyval) : result Z :=
  match as_int v with
  | Some z => Returns (Z.land z 65535)
  | None => Raises TypeError
  end.

(** The 32 bits stored by [ctypes.c_int(v)]. *)
Definition c_int (v : pyval) : result Z :=
  match as_int v with
  | Some z => Returns (Z.land z 4294967295)
  | None => Raises TypeError
  end.

(** [.value] of a [c_int] whose storage holds the word [w]: the signed
    reading of its low 32 bits. *)
Definition c_int_value (w : Z) : Z :=
  let u := Z.land w 4294967295 in
  if Z.testbit u 31 then u - 4294967296 else u.

(** [.value] of a character array created with content [buffer], after the
    callee has left [written] in it: the array keeps its size, and the value
    stops at the first NUL. *)
Definition array_value (buffer written : list byte) : list byte :=
  c_string (take (length buffer) written).

(** ** Floating-point cells of ctypes *)

(** A C [double] converted to a C [float]: rounding to nearest, ties to
    even, to binary32 (24 bits of precision, infinities at exponent 128);
    what falls beyond the largest binary32 number becomes an infinity. *)
Definition to_single (x : spec_float) : spec_float :=
  match x with
  | S754_finite s m e => binary_round 24 128 s m e
  | _ => x
  end.

(** A C [float] widened to a C [double]: exact, renormalised to binary64. *)
Definition to_double (x : spec_float) : spec_float :=
  match x with
  | S754_finite s m e => binary_round 53 1024 s m e
  | _ => x
  end.

Definition sign_bit (s : bool) : Z := Z.shiftl (Z.b2z s) 31.

(** The 32 bits of a binary32 number: sign, 8 bits of biased exponent,
    23 bits of fraction. *)
Definition bits_of_single (x : spec_float) : Z :=
  match x with
  | S754_zero s => sign_bit s
  | S754_infinity s => Z.lor (sign_bit s) 2139095040
  | S754_nan => 2143289344
  | S754_finite s m e =>
      if Z.pos m <? 8388608
      then Z.lor (sign_bit s) (Z.pos m)
      else Z.lor (sign_bit s)
             (Z.lor (Z.shiftl (e + 150) 23) (Z.land (Z.pos m) 8388607))
  end.

Definition single_of_bits (w : Z) : spec_float :=
  let s := Z.testbit w 31 in
  let ex := Z.land (Z.shiftr w 23) 255 in
  let fr := Z.land w 8388607 in
  if ex =? 0 then
    match fr with
    | Z.pos m => S754_finite s m (-149)
    | _ => S754_zero s
    end
  else if ex =? 255 then
    if fr =? 0 then S754_infinity s else S754_nan
  else
    match Z.lor fr 8388608 with
    | Z.pos m => S754_finite s m (ex - 150)
    | _ => S754_nan
    end.

Definition sign_bit64 (s : bool) : Z := Z.shiftl (Z.b2z s) 63.

(** The 64 bits of a binary64 number: sign, 11 bits of biased exponent,
    52 bits of fraction. *)
Definition bits_of_double (x : spec_float) : Z :=
  match x with
  | S754_zero s => sign_bit64 s
  | S754_infinity s => Z.lor (sign_bit64 s) 9218868437227405312
  | S754_nan => 9221120237041090560
  | S754_finite s m e =>
      if Z.pos m <? 4503599627370496
      then Z.lor (sign_bit64 s) (Z.pos m)
      else Z.lor (sign_bit64 s)
             (Z.lor (Z.shiftl (e + 1075) 52)
                (Z.land (Z.pos m) 4503599627370495))
  end.

Definition double_of_bits (d : Z) : spec_float :=
  let s := Z.testbit d 63 in
  let ex := Z.land (Z.shiftr d 52) 2047 in
  let fr := Z.land d 4503599627370495 in
  if ex =? 0 then
    match fr with
    | Z.pos m => S754_finite s m (-1074)
    | _ => S754_zero s
    end
  else if ex =? 2047 then
    if fr =? 0 then S754_infinity s else S754_nan
  else
    match Z.lor fr 4503599627370496 with
    | Z.pos m => S754_finite s m (ex - 1075)
    | _ => S754_nan
    end.

(** A NaN converted between [double] and [float], as the conversion
    instructions of x86-64 and AArch64 do it: the sign is kept, the fraction
    keeps its leading 23 bits (narrowing) or is extended with zeros
    (widening), and the quiet bit, the first bit of the fraction, is set. *)
Definition narrow_nan (d : Z) : Z :=
  Z.lor (sign_bit (Z.testbit d 63))
    (Z.lor (Z.shiftl 255 23)
       (Z.lor 4194304 (Z.shiftr (Z.land d 4503599627370495) 29))).

Definition widen_nan (w : Z) : Z :=
  Z.lor (sign_bit64 (Z.testbit w 31))
    (Z.lor (Z.shiftl 2047 52)
       (Z.shiftl (Z.lor 4194304 (Z.land w 8388607)) 29)).

(** The 32 bits of the C [float] a C [double] is cast to. *)
Definition narrow (d : Z) : Z :=
  match double_of_bits d with
  | S754_nan => narrow_nan d
  | x => bits_of_single (to_single x)
  end.

(** The 32 bits stored by [ctypes.c_float(v)]. The setter converts [v] with
    [PyFloat_AsDouble] (a [float], or an [int] that fits a [double]) and
    casts the [double] to [float]. *)
Definition c_float (v : pyval) : result Z :=
  match v with
  | PyFloat d => Returns (narrow d)
  | PyInt _ | PyBool _ =>
      match as_int v with
      | Some z =>
          match binary_normalize 53 1024 z 0 false with
          | S754_infinity _ => Raises OverflowError
          | x => Returns (bits_of_single (to_single x))
          end
      | None => Raises TypeError
      end
  | _ => Raises TypeError
  end.

(** [.value] of a [c_float] whose storage holds the word [w]: the 64 bits of
    the Python [float] that the C [float] is widened to. *)
Definition c_float_value (w : Z) : Z :=
  match single_of_bits w with
  | S754_nan => widen_nan w
  | x => bits_of_double (to_double x)
  end.

(** ** UTF-8 *)

Definition is_surrogate (c : Z) : bool := (55296 <=? c) && (c <=? 57343).

(** The trailing byte that carries bits [6k .. 6k+5] of [c]. *)
Definition trail (c : Z) (k : Z) : byte :=
  byte_of_Z (Z.lor 128 (Z.land (Z.shiftr c (6 * k)) 63)).

Definition utf8_encode_cp (c : Z) : option (list byte) :=
  if c <? 0 then None
  else if c <? 128 then Some [byte_of_Z c]
  else if c <? 2048 then
    Some [byte_of_Z (Z.lor 192 (Z.shiftr c 6)); trail c 0]
  else if c <? 65536 then
    if is_surrogate c then None
    else Some [byte_of_Z (Z.lor 224 (Z.shiftr c 12)); trail c 1; trail c 0]
  else if c <? 1114112 then
    Some [byte_of_Z (Z.lor 240 (Z.shiftr c 18));
          trail c 2; trail c 1; trail c 0]
  else None.

(** [s.encode("utf-8")]: fails on a lone surrogate. *)
Fixpoint utf8_encode (s : pystr) : option (list byte) :=
  match s with
  | [] => Some []
  | c :: r =>
      match utf8_encode_cp c, utf8_encode r with
      | Some b, Some br => Some (b ++ br)
      | _, _ => None
      end
  end.

(** The six payload bits of a trailing byte [10xxxxxx]. *)
Definition payload (b : byte) : option Z :=
  let z := Z_of_byte b in
  if Z.land z 192 =? 128 then Some (Z.land z 63) else None.

Definition push (acc : Z) (p : Z) : Z := Z.lor (Z.shiftl acc 6) p.

(** [b.decode("utf-8")], strict: no overlong form, no surrogate, nothing
    above U+10FFFF, no truncated sequence. *)
Fixpoint utf8_decode (b : list byte) : option pystr :=
  match b with
  | [] => Some []
  | b0 :: r =>
      let z := Z_of_byte b0 in
      if z <? 128 then cons z <$> utf8_decode r
      else if (194 <=? z) && (z <=? 223) then
        match r with
        | b1 :: r1 =>
            match payload b1 with
            | Some p1 => cons (push (Z.land z 31) p1) <$> utf8_decode r1
            | None => None
            end
        | _ => None
        end
      else if (224 <=? z) && (z <=? 239) then
        match r with
        | b1 :: b2 :: r2 =>
            match payload b1, payload b2 with
            | Some p1, Some p2 =>
                let c := push (push (Z.land z 15) p1) p2 in
                if (2048 <=? c) && negb (is_surrogate c)
                then cons c <$> utf8_decode r2 else None
            | _, _ => None
            end
        | _ => None
        end
      else if (240 <=? z) && (z <=? 244) then
        match r with
        | b1 :: b2 :: b3 :: r3 =>
            match payload b1, payload b2, payload b3 with
            | Some p1, Some p2, Some p3 =>
                let c := push (push (push (Z.land z 7) p1) p2) p3 in
                if (65536 <=? c) && (c <? 1114112)
                then cons c <$> utf8_decode r3 else None
            | _, _, _ => None
            end
        | _ => None
        end
      else None
  end.


(** ** The driver boundary *)

(** The device variants, with the numbers the driver knows them by. *)
Inductive Devices := ATTODRY1100 | ATTODRY2100 | ATTODRY800.

Definition Devices_value (d : Devices) : Z :=
  match d with
  | ATTODRY1100 => 0
  | ATTODRY2100 => 1
  | ATTODRY800 => 2
  end.

(** The functions of [adryLib], by name, grouped by C signature. The names are
    the ones [PyAttoDRY.py] calls. *)
Module adryLib.

(** Entry points without argument or result. *)
Inductive command :=
| end_ | Disconnect | Cancel | Confirm | toggleMagneticFieldControl
| togglePersistentMode | toggleSampleTemperatureControl
| toggleFullTemperatureControl | goToBaseTemperature | lowerError
| querySampleHeaterMaximumPower | querySampleHeaterResistance
| querySampleHeaterWireResistance | startSampleExchange | stopLogging
| sweepFieldToZero | togglePump | toggleStartUpShutdown
| queryReservoirTsetColdSample | queryReservoirTsetWarmSample
| queryReservoirTsetWarmMagnet | toggleCryostatInValve
| toggleCryostatOutValve | toggleDumpInValve | toggleDumpOutValve
| toggleExchangeHeaterControl | toggleHeliumValve | toggleInnerVolumeValve
| toggleOuterVolumeValve | togglePumpValve | toggleSampleSpace800Valve
| togglePump800Valve | toggleBreakVac800Valve.

(** Entry points that receive the address of one 4-byte cell ([int*] or
    [float*]) and leave their answer in it. *)
Inductive reader :=
| getAttodryErrorStatus | isControllingField | isControllingTemperature
| isPersistentModeSet | isDeviceInitialised | isDeviceConnected
| get4KStageTemperature | getMagneticField | getMagneticFieldSetPoint
| getSampleTemperature | getUserTemperature | getDerivativeGain
| getIntegralGain | getProportionalGain | getSampleHeaterMaximumPower
| getSampleHeaterPower | getSampleHeaterResistance
| getSampleHeaterWireResistance | getVtiHeaterPower | getVtiTemperature
| isGoingToBaseTemperature | isPumping | isSampleExchangeInProgress
| isSampleHeaterOn | isSampleReadyToExchange | isSystemRunning
| isZeroingField | getReservoirTsetColdSample | getReservoirTsetWarmSample
| getReservoirTsetWarmMagnet | getCryostatInPressure | getCryostatInValve
| getCryostatOutPressure | getCryostatOutValve | getDumpInValve
| getDumpOutValve | getDumpPressure | getReservoirHeaterPower
| getReservoirTemperature | get40KStageTemperature | getHeliumValve
| getInnerVolumeValve | getOuterVolumeValve | getPressure | getPumpValve
| getTurbopumpFrequency | isExchangeHeaterOn | getPump800Valve
| getSampleSpace800Valve | getPressure800 | GetTurbopumpFrequ800.

(** Entry points that receive one [float] by value. *)
Inductive setter :=
| setUserMagneticField | setUserTemperature | setDerivativeGain
| setIntegralGain | setProportionalGain | setSampleHeaterMaximumPower
| setSampleHeaterWireResistance | setSampleHeaterPower
| setSampleHeaterResistance | setVTIHeaterPower | setReservoirTsetWarmMagnet
| setReservoirTsetColdSample | setReservoirTsetWarmSample.

(** Modelled from the spec: [adryLib] is not among the sources, and the
    facade only ever calls [getAttodryErrorMessage]. The specification lists
    the action message as a diagnostic read of its own, next to the error
    message; [getActionMessage] is the entry point for it. Both fill a
    character buffer of a given length. *)
Inductive message := getAttodryErrorMessage | getActionMessage.

(** Entry points that receive one path. *)
Inductive transfer :=
| downloadSampleTemperatureSensorCalibrationCurve
| uploadSampleTemperatureCalibrationCurve.

(** The ctypes object behind a 4-byte cell that is passed by reference:
    [c_int()] or [c_float()]. The library receives an address only; the type
    is recorded with the call so that a trace tells which kind of cell the
    facade handed over. *)
Inductive cell_type := int_cell | float_cell.

(** One call into the library, with the native arguments it receives. A
    4-byte cell is given by its ctypes type and the 32-bit word it holds on
    entry, a [float] argument by its 32 bits, a C string by its bytes. *)
Inductive call :=
| call_begin (Device : Z)
| call_Connect (COMPort : list byte)
| call_command (f : command)
| call_reader (f : reader) (ty : cell_type) (cell : Z)
| call_setter (f : setter) (value : Z)
| call_message (f : message) (buffer : list byte) (length : Z)
| call_transfer (f : transfer) (path : list byte)
| call_downloadTemperatureSensorCalibrationCurve (n : Z) (path : list byte)
| call_uploadTemperatureCalibrationCurve (n : Z) (path : list byte)
| call_startLogging (path : list byte) (time_selection append : Z).

(** What a call leaves behind for the caller: the new content of the cell
    or of the buffer that was passed by reference. *)
Definition reply (c : call) : Type :=
  match c with
  | call_reader _ _ _ => Z
  | call_message _ _ _ => list byte
  | _ => unit
  end.

(** A driver inside its host process: some state, the effect of each call
    on it, and the number of bytes the process can still obtain for one
    buffer. *)
Record Driver := {
  dstate : Type;
  handle : ∀ c : call, dstate → reply c * dstate;
  heap : Z
}.

(** Whether a buffer of [n] bytes can be allocated. The length of a
    diagnostic buffer is chosen by the caller and the code puts no upper
    limit on it. A request below 2 GiB (a length that still fits the C [int]
    passed along with the buffer) is taken to succeed on every host; from
    2 GiB on the host decides, and what it refuses is a [MemoryError]. *)
Definition fits (drv : Driver) (n : Z) : bool :=
  n <? Z.max 2147483648 (heap drv).

End adryLib.

(** ** Programs of the facade *)

(** A method body: it returns, raises, reads or writes an attribute of
    [self], asks for a zeroed buffer, or calls the driver and goes on with
    what the driver left. *)
Inductive prog (A : Type) : Type :=
| Ret (a : A)
| Raise (e : exn)
| GetAttr (name : string) (k : pyval → prog A)
| SetAttr (name : string) (v : pyval) (k : prog A)
| Alloc (n : Z) (k : list byte → prog A)
| Invoke (c : adryLib.call) (k : adryLib.reply c → prog A).
Arguments Ret {A} a.
Arguments Raise {A} e.
Arguments GetAttr {A} name k.
Arguments SetAttr {A} name v k.
Arguments Alloc {A} n k.
Arguments Invoke {A} c k.

Fixpoint bind {A B : Type} (p : prog A) (f : A → prog B) : prog B :=
  match p with
  | Ret a => f a
  | Raise e => Raise e
  | GetAttr name k => GetAttr name (λ v, bind (k v) f)
  | SetAttr name v k => SetAttr name v (bind k f)
  | Alloc n k => Alloc n (λ b, bind (k b) f)
  | Invoke c k => Invoke c (λ r, bind (k r) f)
  end.

#[export] Instance prog_ret : MRet prog := @Ret.
#[export] Instance prog_bind : MBind prog := λ A B f p, bind p f.

Definition lift {A : Type} (r : result A) : prog A :=
  match r with
  | Returns a => Ret a
  | Raises e => Raise e
  end.

(** [ctypes.create_string_buffer(init)]. An integer asks for that many NUL
    bytes: it must fit an index ([OverflowError] otherwise), be non-negative
    ([ValueError]) and be granted by the host ([MemoryError]). A [bytes]
    object asks for a copy of itself and a final NUL. *)
Definition create_string_buffer (init : pyval) : prog (list byte) :=
  match init with
  | PyBytes b =>
      Alloc (Z.of_nat (length b) + 1) (λ _, Ret (b ++ [Byte.x00]))
  | _ =>
      match as_int init with
      | Some n =>
          if (n <? -9223372036854775808) || (9223372036854775808 <=? n)
          then Raise OverflowError
          else if n <? 0 then Raise ValueError
          else Alloc n Ret
      | None => Raise TypeError
      end
  end.

(** The state of a run: the attributes of [self], the driver, and the calls
    that reached the driver so far, oldest first. *)
Record run_state (D : Type) (A : Type) := {
  outcome : result A;
  object : gmap string pyval;
  driver : D;
  calls : list adryLib.call
}.
Arguments outcome {D A} r.
Arguments object {D A} r.
Arguments driver {D A} r.
Arguments calls {D A} r.

Section Run.
Variable drv : adryLib.Driver.

Fixpoint run {A : Type} (p : prog A) (self : gmap string pyval)
    (d : adryLib.dstate drv) : run_state (adryLib.dstate drv) A :=
  match p with
  | Ret a =>
      {| outcome := Returns a; object := self; driver := d; calls := [] |}
  | Raise e =>
      {| outcome := Raises e; object := self; driver := d; calls := [] |}
  | GetAttr name k =>
      match self !! name with
      | Some v => run (k v) self d
      | None =>
          {| outcome := Raises AttributeError; object := self;
             driver := d; calls := [] |}
      end
  | SetAttr name v k => run k (<[name := v]> self) d
  | Alloc n k =>
      if adryLib.fits drv n
      then run (k (replicate (Z.to_nat n) Byte.x00)) self d
      else {| outcome := Raises MemoryError; object := self;
              driver := d; calls := [] |}
  | Invoke c k =>
      let '(r, d') := adryLib.handle drv c d in
      let s := run (k r) self d' in
      {| outcome := outcome s; object := object s; driver := driver s;
         calls := c :: calls s |}
  end.
End Run.

(** ** The class [AttoDRY] *)

Module AttoDRY.

(** [s.encode("utf-8")]: only a [str] has the method. *)
Definition encode (v : pyval) : prog (list byte) :=
  match v with
  | PyStr s =>
      match utf8_encode s with
      | Some b => Ret b
      | None => Raise UnicodeEncodeError
      end
  | _ => Raise AttributeError
  end.

(** [b.decode("utf-8")] *)
Definition decode (b : list byte) : prog pyval :=
  match utf8_decode b with
  | Some s => Ret (PyStr s)
  | None => Raise UnicodeDecodeError
  end.

(** The three shapes most methods have. [ctypes.c_int()] and
    [ctypes.c_float()] start with all 32 bits clear. *)
Definition forward (f : adryLib.command) : prog pyval :=
  Invoke (adryLib.call_command f) (λ _, Ret PyNone).

Definition read_c_int (f : adryLib.reader) : prog pyval :=
  Invoke (adryLib.call_reader f adryLib.int_cell 0)
    (λ w, Ret (PyInt (c_int_value w))).

Definition read_c_float (f : adryLib.reader) : prog pyval :=
  Invoke (adryLib.call_reader f adryLib.float_cell 0)
    (λ w, Ret (PyFloat (c_float_value w))).

Definition write_c_float (f : adryLib.setter) (v : pyval) : prog pyval :=
  x ← lift (c_float v);
  Invoke (adryLib.call_setter f x) (λ _, Ret PyNone).

Definition __init__ (setup_version com_port : pyval) : prog pyval :=
  SetAttr "setup_version" setup_version
    (SetAttr "com_port" com_port (Ret PyNone)).

Definition begin : prog pyval :=
  GetAttr "setup_version" (λ setup_version,
    c ← lift (c_uint16 setup_version);
    Invoke (adryLib.call_begin c) (λ _, Ret PyNone)).

Definition Connect : prog pyval :=
  GetAttr "com_port" (λ com_port,
    COMPort ← encode com_port;
    Invoke (adryLib.call_Connect (c_string COMPort)) (λ _, Ret PyNone)).

Definition Disconnect : prog pyval := forward adryLib.Disconnect.

Definition Cancel : prog pyval := forward adryLib.Cancel.

Definition Confirm : prog pyval := forward adryLib.Confirm.

Definition getActionMessage (length : option pyval) : prog pyval :=
  let length := default (PyInt 500) length in
  ActionMessage ← create_string_buffer length;
  c_length ← lift (c_int length);
  Invoke (adryLib.call_message adryLib.getAttodryErrorMessage
            ActionMessage (c_int_value c_length))
    (λ written, decode (array_value ActionMessage written)).

Definition getAttodryErrorMessage (length : option pyval) : prog pyval :=
  let length := default (PyInt 500) length in
  ErrorStatus ← create_string_buffer length;
  c_length ← lift (c_int length);
  Invoke (adryLib.call_message adryLib.getAttodryErrorMessage
            ErrorStatus (c_int_value c_length))
    (λ written, decode (array_value ErrorStatus written)).

Definition getAttodryErrorStatus : prog pyval :=
  read_c_int adryLib.getAttodryErrorStatus.

Definition isControllingField : prog pyval :=
  read_c_int adryLib.isControllingField.

Definition isControllingTemperature : prog pyval :=
  read_c_int adryLib.isControllingTemperature.

Definition isPersistentModeSet : prog pyval :=
  read_c_int adryLib.isPersistentModeSet.

Definition isDeviceInitialised : prog pyval :=
  read_c_int adryLib.isDeviceInitialised.

Definition isDeviceConnected : prog pyval :=
  read_c_int adryLib.isDeviceConnected.

Definition end_ : prog pyval :=
  connected ← isDeviceConnected;
  _ ← (if truthy connected then Disconnect else Ret PyNone);
  Invoke (adryLib.call_command adryLib.end_) (λ _, Ret PyNone).

Definition toggleMagneticFieldControl : prog pyval :=
  forward adryLib.toggleMagneticFieldControl.

Definition togglePersistentMode : prog pyval :=
  forward adryLib.togglePersistentMode.

Definition toggleSampleTemperatureControl : prog pyval :=
  forward adryLib.toggleSampleTemperatureControl.

Definition toggleFullTemperatureControl : prog pyval :=
  forward adryLib.toggleFullTemperatureControl.

Definition goToBaseTemperature : prog pyval :=
  forward adryLib.goToBaseTemperature.

Definition get4KStageTemperature : prog pyval :=
  read_c_float adryLib.get4KStageTemperature.

Definition getMagneticField : prog pyval :=
  read_c_float adryLib.getMagneticField.

Definition getMagneticFieldSetPoint : prog pyval :=
  read_c_float adryLib.getMagneticFieldSetPoint.

Definition getSampleTemperature : prog pyval :=
  read_c_float adryLib.getSampleTemperature.

Definition getUserTemperature : prog pyval :=
  read_c_float adryLib.getUserTemperature.

Definition setUserMagneticField (magnetic_field : pyval) : prog pyval :=
  write_c_float adryLib.setUserMagneticField magnetic_field.

Definition setUserTemperature (temperature : pyval) : prog pyval :=
  write_c_float adryLib.setUserTemperature temperature.

Definition downloadSampleTemperatureSensorCalibrationCurve
    (savepath : pyval) : prog pyval :=
  Savepath ← encode savepath;
  Invoke (adryLib.call_transfer
            adryLib.downloadSampleTemperatureSensorCalibrationCurve
            (c_string Savepath))
    (λ _, Ret PyNone).

Definition downloadTemperatureSensorCalibrationCurve
    (user_curve_number savepath : pyval) : prog pyval :=
  Savepath ← encode savepath;
  n ← lift (c_int user_curve_number);
  Invoke (adryLib.call_downloadTemperatureSensorCalibrationCurve
            (c_int_value n) (c_string Savepath))
    (λ _, Ret PyNone).

Definition getDerivativeGain : prog pyval :=
  read_c_float adryLib.getDerivativeGain.

Definition getIntegralGain : prog pyval :=
  read_c_float adryLib.getIntegralGain.

Definition getProportionalGain : prog pyval :=
  read_c_float adryLib.getProportionalGain.

Definition getSampleHeaterMaximumPower : prog pyval :=
  read_c_float adryLib.getSampleHeaterMaximumPower.

Definition getSampleHeaterPower : prog pyval :=
  read_c_float adryLib.getSampleHeaterPower.

Definition getSampleHeaterResistance : prog pyval :=
  read_c_float adryLib.getSampleHeaterResistance.

Definition getSampleHeaterWireResistance : prog pyval :=
  read_c_float adryLib.getSampleHeaterWireResistance.

Definition getVtiHeaterPower : prog pyval :=
  read_c_float adryLib.getVtiHeaterPower.

Definition getVtiTemperature : prog pyval :=
  read_c_float adryLib.getVtiTemperature.

Definition isGoingToBaseTemperature : prog pyval :=
  read_c_int adryLib.isGoingToBaseTemperature.

Definition isPumping : prog pyval := read_c_int adryLib.isPumping.

Definition isSampleExchangeInProgress : prog pyval :=
  read_c_int adryLib.isSampleExchangeInProgress.

Definition isSampleHeaterOn : prog pyval :=
  read_c_int adryLib.isSampleHeaterOn.

Definition isSampleReadyToExchange : prog pyval :=
  read_c_int adryLib.isSampleReadyToExchange.

Definition isSystemRunning : prog pyval := read_c_int adryLib.isSystemRunning.

Definition isZeroingField : prog pyval := read_c_int adryLib.isZeroingField.

Definition lowerError : prog pyval := forward adryLib.lowerError.

Definition querySampleHeaterMaximumPower : prog pyval :=
  forward adryLib.querySampleHeaterMaximumPower.

Definition querySampleHeaterResistance : prog pyval :=
  forward adryLib.querySampleHeaterResistance.

Definition querySampleHeaterWireResistance : prog pyval :=
  forward adryLib.querySampleHeaterWireResistance.

Definition setDerivativeGain (derivative_gain : pyval) : prog pyval :=
  write_c_float adryLib.setDerivativeGain derivative_gain.

Definition setIntegralGain (integral_gain : pyval) : prog pyval :=
  write_c_float adryLib.setIntegralGain integral_gain.

Definition setProportionalGain (proportional_gain : pyval) : prog pyval :=
  write_c_float adryLib.setProportionalGain proportional_gain.

Definition setSampleHeaterMaximumPower (maximum_power : pyval) : prog pyval :=
  write_c_float adryLib.setSampleHeaterMaximumPower maximum_power.

Definition setSampleHeaterWireResistance
    (wire_resistance : pyval) : prog pyval :=
  write_c_float adryLib.setSampleHeaterWireResistance wire_resistance.

Definition setSampleHeaterPower (heater_power_w : pyval) : prog pyval :=
  write_c_float adryLib.setSampleHeaterPower heater_power_w.

Definition setSampleHeaterResistance (heater_resistance : pyval) : prog pyval :=
  write_c_float adryLib.setSampleHeaterResistance heater_resistance.

Definition startLogging (savepath time_selection append : pyval) : prog pyval :=
  Savepath ← encode savepath;
  t ← lift (c_int time_selection);
  a ← lift (c_int append);
  Invoke (adryLib.call_startLogging
            (c_string Savepath) (c_int_value t) (c_int_value a))
    (λ _, Ret PyNone).

Definition startSampleExchange : prog pyval :=
  forward adryLib.startSampleExchange.

Definition stopLogging : prog pyval := forward adryLib.stopLogging.

Definition sweepFieldToZero : prog pyval := forward adryLib.sweepFieldToZero.

Definition togglePump : prog pyval := forward adryLib.togglePump.

Definition toggleStartUpShutdown : prog pyval :=
  forward adryLib.toggleStartUpShutdown.

Definition uploadSampleTemperatureCalibrationCurve
    (loadpath : pyval) : prog pyval :=
  Loadpath ← encode loadpath;
  Invoke (adryLib.call_transfer
            adryLib.uploadSampleTemperatureCalibrationCurve
            (c_string Loadpath))
    (λ _, Ret PyNone).

Definition uploadTemperatureCalibrationCurve
    (loadpath user_curve_number : pyval) : prog pyval :=
  Loadpath ← encode loadpath;
  n ← lift (c_int user_curve_number);
  Invoke (adryLib.call_uploadTemperatureCalibrationCurve
            (c_int_value n) (c_string Loadpath))
    (λ _, Ret PyNone).

Definition setVTIHeaterPower (vti_heater_power_w : pyval) : prog pyval :=
  write_c_float adryLib.setVTIHeaterPower vti_heater_power_w.

Definition queryReservoirTsetColdSample : prog pyval :=
  forward adryLib.queryReservoirTsetColdSample.

Definition getReservoirTsetColdSample : prog pyval :=
  read_c_float adryLib.getReservoirTsetColdSample.

Definition setReservoirTsetWarmMagnet
    (reservoir_tset_warm_magnet_w : pyval) : prog pyval :=
  write_c_float adryLib.setReservoirTsetWarmMagnet reservoir_tset_warm_magnet_w.

Definition setReservoirTsetColdSample
    (set_reservoir_tset_cold_sample_k : pyval) : prog pyval :=
  write_c_float adryLib.setReservoirTsetColdSample
    set_reservoir_tset_cold_sample_k.

Definition setReservoirTsetWarmSample
    (ReservoirTsetWarmSampleW : pyval) : prog pyval :=
  write_c_float adryLib.setReservoirTsetWarmSample ReservoirTsetWarmSampleW.

Definition queryReservoirTsetWarmSample : prog pyval :=
  forward adryLib.queryReservoirTsetWarmSample.

Definition queryReservoirTsetWarmMagnet : prog pyval :=
  forward adryLib.queryReservoirTsetWarmMagnet.

Definition getReservoirTsetWarmSample : prog pyval :=
  read_c_float adryLib.getReservoirTsetWarmSample.

Definition getReservoirTsetWarmMagnet : prog pyval :=
  read_c_float adryLib.getReservoirTsetWarmMagnet.

Definition getCryostatInPressure : prog pyval :=
  read_c_float adryLib.getCryostatInPressure.

Definition getCryostatInValve : prog pyval :=
  read_c_int adryLib.getCryostatInValve.

Definition getCryostatOutPressure : prog pyval :=
  read_c_float adryLib.getCryostatOutPressure.

Definition getCryostatOutValve : prog pyval :=
  read_c_int adryLib.getCryostatOutValve.

Definition getDumpInValve : prog pyval := read_c_int adryLib.getDumpInValve.

Definition getDumpOutValve : prog pyval := read_c_int adryLib.getDumpOutValve.

Definition getDumpPressure : prog pyval :=
  read_c_float adryLib.getDumpPressure.

Definition getReservoirHeaterPower : prog pyval :=
  read_c_float adryLib.getReservoirHeaterPower.

Definition getReservoirTemperature : prog pyval :=
  read_c_float adryLib.getReservoirTemperature.

Definition toggleCryostatInValve : prog pyval :=
  forward adryLib.toggleCryostatInValve.

Definition toggleCryostatOutValve : prog pyval :=
  forward adryLib.toggleCryostatOutValve.

Definition toggleDumpInValve : prog pyval := forward adryLib.toggleDumpInValve.

Definition toggleDumpOutValve : prog pyval :=
  forward adryLib.toggleDumpOutValve.

Definition get40KStageTemperature : prog pyval :=
  read_c_float adryLib.get40KStageTemperature.

Definition getHeliumValve : prog pyval := read_c_int adryLib.getHeliumValve.

Definition getInnerVolumeValve : prog pyval :=
  read_c_int adryLib.getInnerVolumeValve.

Definition getOuterVolumeValve : prog pyval :=
  read_c_int adryLib.getOuterVolumeValve.

Definition getPressure : prog pyval := read_c_float adryLib.getPressure.

Definition getPumpValve : prog pyval := read_c_int adryLib.getPumpValve.

Definition getTurbopumpFrequency : prog pyval :=
  read_c_float adryLib.getTurbopumpFrequency.

Definition isExchangeHeaterOn : prog pyval :=
  read_c_int adryLib.isExchangeHeaterOn.

Definition toggleExchangeHeaterControl : prog pyval :=
  forward adryLib.toggleExchangeHeaterControl.

Definition toggleHeliumValve : prog pyval := forward adryLib.toggleHeliumValve.

Definition toggleInnerVolumeValve : prog pyval :=
  forward adryLib.toggleInnerVolumeValve.

Definition toggleOuterVolumeValve : prog pyval :=
  forward adryLib.toggleOuterVolumeValve.

Definition togglePumpValve : prog pyval := forward adryLib.togglePumpValve.

Definition getBreakVac800Valve : prog pyval :=
  read_c_int adryLib.getTurbopumpFrequency.

Definition toggleSampleSpace800Valve : prog pyval :=
  forward adryLib.toggleSampleSpace800Valve.

Definition getPump800Valve : prog pyval := read_c_int adryLib.getPump800Valve.

Definition getSampleSpace800Valve : prog pyval :=
  read_c_int adryLib.getSampleSpace800Valve.

Definition togglePump800Valve : prog pyval :=
  forward adryLib.togglePump800Valve.

Definition toggleBreakVac800Valve : prog pyval :=
  forward adryLib.toggleBreakVac800Valve.

Definition getPressure800 : prog pyval := read_c_float adryLib.getPressure800.

Definition GetTurbopumpFrequ800 : prog pyval :=
  read_c_float adryLib.GetTurbopumpFrequ800.

(** One call of a method by a client, with its arguments. *)
Inductive invocation :=
| do_begin
| do_Connect
| do_Disconnect
| do_end
| do_Cancel
| do_Confirm
| do_getActionMessage (length : option pyval)
| do_getAttodryErrorMessage (length : option pyval)
| do_getAttodryErrorStatus
| do_isControllingField
| do_isControllingTemperature
| do_isPersistentModeSet
| do_isDeviceInitialised
| do_isDeviceConnected
| do_toggleMagneticFieldControl
| do_togglePersistentMode
| do_toggleSampleTemperatureControl
| do_toggleFullTemperatureControl
| do_goToBaseTemperature
| do_get4KStageTemperature
| do_getMagneticField
| do_getMagneticFieldSetPoint
| do_getSampleTemperature
| do_getUserTemperature
| do_setUserMagneticField (magnetic_field : pyval)
| do_setUserTemperature (temperature : pyval)
| do_downloadSampleTemperatureSensorCalibrationCurve (savepath : pyval)
| do_downloadTemperatureSensorCalibrationCurve
    (user_curve_number savepath : pyval)
| do_getDerivativeGain
| do_getIntegralGain
| do_getProportionalGain
| do_getSampleHeaterMaximumPower
| do_getSampleHeaterPower
| do_getSampleHeaterResistance
| do_getSampleHeaterWireResistance
| do_getVtiHeaterPower
| do_getVtiTemperature
| do_isGoingToBaseTemperature
| do_isPumping
| do_isSampleExchangeInProgress
| do_isSampleHeaterOn
| do_isSampleReadyToExchange
| do_isSystemRunning
| do_isZeroingField
| do_lowerError
| do_querySampleHeaterMaximumPower
| do_querySampleHeaterResistance
| do_querySampleHeaterWireResistance
| do_setDerivativeGain (derivative_gain : pyval)
| do_setIntegralGain (integral_gain : pyval)
| do_setProportionalGain (proportional_gain : pyval)
| do_setSampleHeaterMaximumPower (maximum_power : pyval)
| do_setSampleHeaterWireResistance (wire_resistance : pyval)
| do_setSampleHeaterPower (heater_power_w : pyval)
| do_setSampleHeaterResistance (heater_resistance : pyval)
| do_startLogging (savepath time_selection append : pyval)
| do_startSampleExchange
| do_stopLogging
| do_sweepFieldToZero
| do_togglePump
| do_toggleStartUpShutdown
| do_uploadSampleTemperatureCalibrationCurve (loadpath : pyval)
| do_uploadTemperatureCalibrationCurve (loadpath user_curve_number : pyval)
| do_setVTIHeaterPower (vti_heater_power_w : pyval)
| do_queryReservoirTsetColdSample
| do_getReservoirTsetColdSample
| do_setReservoirTsetWarmMagnet (reservoir_tset_warm_magnet_w : pyval)
| do_setReservoirTsetColdSample (set_reservoir_tset_cold_sample_k : pyval)
| do_setReservoirTsetWarmSample (ReservoirTsetWarmSampleW : pyval)
| do_queryReservoirTsetWarmSample
| do_queryReservoirTsetWarmMagnet
| do_getReservoirTsetWarmSample
| do_getReservoirTsetWarmMagnet
| do_getCryostatInPressure
| do_getCryostatInValve
| do_getCryostatOutPressure
| do_getCryostatOutValve
| do_getDumpInValve
| do_getDumpOutValve
| do_getDumpPressure
| do_getReservoirHeaterPower
| do_getReservoirTemperature
| do_toggleCryostatInValve
| do_toggleCryostatOutValve
| do_toggleDumpInValve
| do_toggleDumpOutValve
| do_get40KStageTemperature
| do_getHeliumValve
| do_getInnerVolumeValve
| do_getOuterVolumeValve
| do_getPressure
| do_getPumpValve
| do_getTurbopumpFrequency
| do_isExchangeHeaterOn
| do_toggleExchangeHeaterControl
| do_toggleHeliumValve
| do_toggleInnerVolumeValve
| do_toggleOuterVolumeValve
| do_togglePumpValve
| do_getBreakVac800Valve
| do_toggleSampleSpace800Valve
| do_getPump800Valve
| do_getSampleSpace800Valve
| do_togglePump800Valve
| do_toggleBreakVac800Valve
| do_getPressure800
| do_GetTurbopumpFrequ800.

Definition invoke (i : invocation) : prog pyval :=
  match i with
  | do_begin => begin
  | do_Connect => Connect
  | do_Disconnect => Disconnect
  | do_end => end_
  | do_Cancel => Cancel
  | do_Confirm => Confirm
  | do_getActionMessage length => getActionMessage length
  | do_getAttodryErrorMessage length => getAttodryErrorMessage length
  | do_getAttodryErrorStatus => getAttodryErrorStatus
  | do_isControllingField => isControllingField
  | do_isControllingTemperature => isControllingTemperature
  | do_isPersistentModeSet => isPersistentModeSet
  | do_isDeviceInitialised => isDeviceInitialised
  | do_isDeviceConnected => isDeviceConnected
  | do_toggleMagneticFieldControl => toggleMagneticFieldControl
  | do_togglePersistentMode => togglePersistentMode
  | do_toggleSampleTemperatureControl => toggleSampleTemperatureControl
  | do_toggleFullTemperatureControl => toggleFullTemperatureControl
  | do_goToBaseTemperature => goToBaseTemperature
  | do_get4KStageTemperature => get4KStageTemperature
  | do_getMagneticField => getMagneticField
  | do_getMagneticFieldSetPoint => getMagneticFieldSetPoint
  | do_getSampleTemperature => getSampleTemperature
  | do_getUserTemperature => getUserTemperature
  | do_setUserMagneticField magnetic_field =>
      setUserMagneticField magnetic_field
  | do_setUserTemperature temperature => setUserTemperature temperature
  | do_downloadSampleTemperatureSensorCalibrationCurve savepath =>
      downloadSampleTemperatureSensorCalibrationCurve savepath
  | do_downloadTemperatureSensorCalibrationCurve user_curve_number savepath =>
      downloadTemperatureSensorCalibrationCurve user_curve_number savepath
  | do_getDerivativeGain => getDerivativeGain
  | do_getIntegralGain => getIntegralGain
  | do_getProportionalGain => getProportionalGain
  | do_getSampleHeaterMaximumPower => getSampleHeaterMaximumPower
  | do_getSampleHeaterPower => getSampleHeaterPower
  | do_getSampleHeaterResistance => getSampleHeaterResistance
  | do_getSampleHeaterWireResistance => getSampleHeaterWireResistance
  | do_getVtiHeaterPower => getVtiHeaterPower
  | do_getVtiTemperature => getVtiTemperature
  | do_isGoingToBaseTemperature => isGoingToBaseTemperature
  | do_isPumping => isPumping
  | do_isSampleExchangeInProgress => isSampleExchangeInProgress
  | do_isSampleHeaterOn => isSampleHeaterOn
  | do_isSampleReadyToExchange => isSampleReadyToExchange
  | do_isSystemRunning => isSystemRunning
  | do_isZeroingField => isZeroingField
  | do_lowerError => lowerError
  | do_querySampleHeaterMaximumPower => querySampleHeaterMaximumPower
  | do_querySampleHeaterResistance => querySampleHeaterResistance
  | do_querySampleHeaterWireResistance => querySampleHeaterWireResistance
  | do_setDerivativeGain derivative_gain => setDerivativeGain derivative_gain
  | do_setIntegralGain integral_gain => setIntegralGain integral_gain
  | do_setProportionalGain proportional_gain =>
      setProportionalGain proportional_gain
  | do_setSampleHeaterMaximumPower maximum_power =>
      setSampleHeaterMaximumPower maximum_power
  | do_setSampleHeaterWireResistance wire_resistance =>
      setSampleHeaterWireResistance wire_resistance
  | do_setSampleHeaterPower heater_power_w =>
      setSampleHeaterPower heater_power_w
  | do_setSampleHeaterResistance heater_resistance =>
      setSampleHeaterResistance heater_resistance
  | do_startLogging savepath time_selection append =>
      startLogging savepath time_selection append
  | do_startSampleExchange => startSampleExchange
  | do_stopLogging => stopLogging
  | do_sweepFieldToZero => sweepFieldToZero
  | do_togglePump => togglePump
  | do_toggleStartUpShutdown => toggleStartUpShutdown
  | do_uploadSampleTemperatureCalibrationCurve loadpath =>
      uploadSampleTemperatureCalibrationCurve loadpath
  | do_uploadTemperatureCalibrationCurve loadpath user_curve_number =>
      uploadTemperatureCalibrationCurve loadpath user_curve_number
  | do_setVTIHeaterPower vti_heater_power_w =>
      setVTIHeaterPower vti_heater_power_w
  | do_queryReservoirTsetColdSample => queryReservoirTsetColdSample
  | do_getReservoirTsetColdSample => getReservoirTsetColdSample
  | do_setReservoirTsetWarmMagnet reservoir_tset_warm_magnet_w =>
      setReservoirTsetWarmMagnet reservoir_tset_warm_magnet_w
  | do_setReservoirTsetColdSample set_reservoir_tset_cold_sample_k =>
      setReservoirTsetColdSample set_reservoir_tset_cold_sample_k
  | do_setReservoirTsetWarmSample ReservoirTsetWarmSampleW =>
      setReservoirTsetWarmSample ReservoirTsetWarmSampleW
  | do_queryReservoirTsetWarmSample => queryReservoirTsetWarmSample
  | do_queryReservoirTsetWarmMagnet => queryReservoirTsetWarmMagnet
  | do_getReservoirTsetWarmSample => getReservoirTsetWarmSample
  | do_getReservoirTsetWarmMagnet => getReservoirTsetWarmMagnet
  | do_getCryostatInPressure => getCryostatInPressure
  | do_getCryostatInValve => getCryostatInValve
  | do_getCryostatOutPressure => getCryostatOutPressure
  | do_getCryostatOutValve => getCryostatOutValve
  | do_getDumpInValve => getDumpInValve
  | do_getDumpOutValve => getDumpOutValve
  | do_getDumpPressure => getDumpPressure
  | do_getReservoirHeaterPower => getReservoirHeaterPower
  | do_getReservoirTemperature => getReservoirTemperature
  | do_toggleCryostatInValve => toggleCryostatInValve
  | do_toggleCryostatOutValve => toggleCryostatOutValve
  | do_toggleDumpInValve => toggleDumpInValve
  | do_toggleDumpOutValve => toggleDumpOutValve
  | do_get40KStageTemperature => get40KStageTemperature
  | do_getHeliumValve => getHeliumValve
  | do_getInnerVolumeValve => getInnerVolumeValve
  | do_getOuterVolumeValve => getOuterVolumeValve
  | do_getPressure => getPressure
  | do_getPumpValve => getPumpValve
  | do_getTurbopumpFrequency => getTurbopumpFrequency
  | do_isExchangeHeaterOn => isExchangeHeaterOn
  | do_toggleExchangeHeaterControl => toggleExchangeHeaterControl
  | do_toggleHeliumValve => toggleHeliumValve
  | do_toggleInnerVolumeValve => toggleInnerVolumeValve
  | do_toggleOuterVolumeValve => toggleOuterVolumeValve
  | do_togglePumpValve => togglePumpValve
  | do_getBreakVac800Valve => getBreakVac800Valve
  | do_toggleSampleSpace800Valve => toggleSampleSpace800Valve
  | do_getPump800Valve => getPump800Valve
  | do_getSampleSpace800Valve => getSampleSpace800Valve
  | do_togglePump800Valve => togglePump800Valve
  | do_toggleBreakVac800Valve => toggleBreakVac800Valve
  | do_getPressure800 => getPressure800
  | do_GetTurbopumpFrequ800 => GetTurbopumpFrequ800
  end.

(** The telemetry getters: the methods that read one [float] from the
    driver, each with the entry point it reads. *)
Definition telemetry_entry (i : invocation) : option adryLib.reader :=
  match i with
  | do_get4KStageTemperature => Some adryLib.get4KStageTemperature
  | do_getMagneticField => Some adryLib.getMagneticField
  | do_getMagneticFieldSetPoint => Some adryLib.getMagneticFieldSetPoint
  | do_getSampleTemperature => Some adryLib.getSampleTemperature
  | do_getUserTemperature => Some adryLib.getUserTemperature
  | do_getDerivativeGain => Some adryLib.getDerivativeGain
  | do_getIntegralGain => Some adryLib.getIntegralGain
  | do_getProportionalGain => Some adryLib.getProportionalGain
  | do_getSampleHeaterMaximumPower => Some adryLib.getSampleHeaterMaximumPower
  | do_getSampleHeaterPower => Some adryLib.getSampleHeaterPower
  | do_getSampleHeaterResistance => Some adryLib.getSampleHeaterResistance
  | do_getSampleHeaterWireResistance =>
      Some adryLib.getSampleHeaterWireResistance
  | do_getVtiHeaterPower => Some adryLib.getVtiHeaterPower
  | do_getVtiTemperature => Some adryLib.getVtiTemperature
  | do_getReservoirTsetColdSample => Some adryLib.getReservoirTsetColdSample
  | do_getReservoirTsetWarmSample => Some adryLib.getReservoirTsetWarmSample
  | do_getReservoirTsetWarmMagnet => Some adryLib.getReservoirTsetWarmMagnet
  | do_getCryostatInPressure => Some adryLib.getCryostatInPressure
  | do_getCryostatOutPressure => Some adryLib.getCryostatOutPressure
  | do_getDumpPressure => Some adryLib.getDumpPressure
  | do_getReservoirHeaterPower => Some adryLib.getReservoirHeaterPower
  | do_getReservoirTemperature => Some adryLib.getReservoirTemperature
  | do_get40KStageTemperature => Some adryLib.get40KStageTemperature
  | do_getPressure => Some adryLib.getPressure
  | do_getTurbopumpFrequency => Some adryLib.getTurbopumpFrequency
  | do_getPressure800 => Some adryLib.getPressure800
  | do_GetTurbopumpFrequ800 => Some adryLib.GetTurbopumpFrequ800
  | _ => None
  end.

(** The variant a method is documented for, when its docstring starts with
    "ATTODRY1100 ONLY", "ATTODRY2100 ONLY" or "ATTODRY800 ONLY". *)
Definition restricted_to (i : invocation) : option Devices :=
  match i with
  | do_getCryostatInPressure | do_getCryostatInValve | do_getCryostatOutValve
  | do_getDumpInValve | do_getDumpOutValve | do_getDumpPressure
  | do_getReservoirHeaterPower | do_getReservoirTemperature
  | do_toggleCryostatInValve | do_toggleCryostatOutValve
  | do_toggleDumpInValve | do_toggleDumpOutValve =>
      Some ATTODRY2100
  | do_get40KStageTemperature | do_getHeliumValve | do_getInnerVolumeValve
  | do_getOuterVolumeValve | do_getPressure | do_getPumpValve
  | do_getTurbopumpFrequency | do_toggleHeliumValve
  | do_toggleInnerVolumeValve | do_toggleOuterVolumeValve
  | do_togglePumpValve =>
      Some ATTODRY1100
  | do_getBreakVac800Valve | do_toggleSampleSpace800Valve | do_getPump800Valve
  | do_getSampleSpace800Valve | do_togglePump800Valve
  | do_toggleBreakVac800Valve | do_getPressure800
  | do_GetTurbopumpFrequ800 =>
      Some ATTODRY800
  | _ => None
  end.

End AttoDRY.

(** ** A test double for the driver *)

(** The double keeps the lifecycle flags, the two messages, and the few
    quantities the examples below read back. A setter stores the 32 bits it
    receives; the matching getter writes them into the cell it is given. *)
Record mock := {
  begun : bool;
  connected : bool;
  action_message : list byte;
  error_message : list byte;
  user_temperature : Z;
  field_set_point : Z;
  sample_temperature : Z;
  turbopump_frequency : Z
}.

(** Copy a C string into a buffer: the bytes, then NUL up to the length of
    the buffer. *)
Definition fill (buffer text : list byte) : list byte :=
  take (length buffer) (text ++ replicate (length buffer) Byte.x00).

Definition mock_handle (c : adryLib.call) (d : mock)
  : adryLib.reply c * mock :=
  match c as c' return adryLib.reply c' * mock with
  | adryLib.call_begin _ =>
      (tt, {| begun := true; connected := connected d;
              action_message := action_message d;
              error_message := error_message d;
              user_temperature := user_temperature d;
              field_set_point := field_set_point d;
              sample_temperature := sample_temperature d;
              turbopump_frequency := turbopump_frequency d |})
  | adryLib.call_Connect _ =>
      (tt, {| begun := begun d; connected := true;
              action_message := action_message d;
              error_message := error_message d;
              user_temperature := user_temperature d;
              field_set_point := field_set_point d;
              sample_temperature := sample_temperature d;
              turbopump_frequency := turbopump_frequency d |})
  | adryLib.call_command f =>
      (tt, match f with
           | adryLib.Disconnect =>
               {| begun := begun d; connected := false;
                  action_message := action_message d;
                  error_message := error_message d;
                  user_temperature := user_temperature d;
                  field_set_point := field_set_point d;
                  sample_temperature := sample_temperature d;
                  turbopump_frequency := turbopump_frequency d |}
           | adryLib.end_ =>
               {| begun := false; connected := connected d;
                  action_message := action_message d;
                  error_message := error_message d;
                  user_temperature := user_temperature d;
                  field_set_point := field_set_point d;
                  sample_temperature := sample_temperature d;
                  turbopump_frequency := turbopump_frequency d |}
           | _ => d
           end)
  | adryLib.call_reader f _ cell =>
      (match f with
       | adryLib.isDeviceConnected => Z.b2z (connected d)
       | adryLib.isDeviceInitialised => Z.b2z (begun d)
       | adryLib.getUserTemperature => user_temperature d
       | adryLib.getMagneticFieldSetPoint => field_set_point d
       | adryLib.getSampleTemperature => sample_temperature d
       | adryLib.getTurbopumpFrequency => turbopump_frequency d
       | _ => cell
       end, d)
  | adryLib.call_setter f x =>
      (tt, match f with
           | adryLib.setUserTemperature =>
               {| begun := begun d; connected := connected d;
                  action_message := action_message d;
                  error_message := error_message d;
                  user_temperature := x;
                  field_set_point := field_set_point d;
                  sample_temperature := sample_temperature d;
                  turbopump_frequency := turbopump_frequency d |}
           | adryLib.setUserMagneticField =>
               {| begun := begun d; connected := connected d;
                  action_message := action_message d;
                  error_message := error_message d;
                  user_temperature := user_temperature d;
                  field_set_point := x;
                  sample_temperature := sample_temperature d;
                  turbopump_frequency := turbopump_frequency d |}
           | _ => d
           end)
  | adryLib.call_message f buffer _ =>
      (match f with
       | adryLib.getAttodryErrorMessage => fill buffer (error_message d)
       | adryLib.getActionMessage => fill buffer (action_message d)
       end, d)
  | adryLib.call_transfer _ _ => (tt, d)
  | adryLib.call_downloadTemperatureSensorCalibrationCurve _ _ => (tt, d)
  | adryLib.call_uploadTemperatureCalibrationCurve _ _ => (tt, d)
  | adryLib.call_startLogging _ _ _ => (tt, d)
  end.

(** The double runs in a process that can obtain 16 GiB. *)
Definition mock_driver : adryLib.Driver :=
  {| adryLib.dstate := mock; adryLib.handle := mock_handle;
     adryLib.heap := 17179869184 |}.

(** ASCII text as code points and as bytes. *)
Definition text (s : string) : pystr :=
  (λ a, Z.of_N (Ascii.N_of_ascii a)) <$> String.list_ascii_of_string s.

Definition ascii_bytes (s : string) : list byte :=
  Ascii.byte_of_ascii <$> String.list_ascii_of_string s.

(** A driver that was never started: 4.25 K at the sample, a turbopump at
    1000 Hz, and two different messages. *)
Definition idle : mock :=
  {| begun := false; connected := false;
     action_message := ascii_bytes "Cooling down";
     error_message := ascii_bytes "No error";
     user_temperature := 0;
     field_set_point := 0;
     sample_temperature := 1082654720;
     turbopump_frequency := 1148846080 |}.

(** The attributes of a facade right after construction. *)
Definition constructed (setup_version : Devices) (com_port : pystr)
  : gmap string pyval :=
  <["com_port" := PyStr com_port]>
    (<["setup_version" := PyInt (Devices_value setup_version)]> ∅).

(** ** Clients *)

Section Client.
Variable drv : adryLib.Driver.

(** A client calls methods one after the other on the same object and the
    same driver, whether a call returned or raised. *)
Fixpoint session (ops : list AttoDRY.invocation) (self : gmap string pyval)
    (d : adryLib.dstate drv) : gmap string pyval * adryLib.dstate drv :=
  match ops with
  | [] => (self, d)
  | i :: rest =>
      let s := run drv (AttoDRY.invoke i) self d in
      session rest (object s) (driver s)
  end.
End Client.

(** [setUserTemperature(V)] followed by [getUserTemperature()]. *)
Definition set_then_get_user_temperature (V : pyval) : prog pyval :=
  _ ← AttoDRY.setUserTemperature V; AttoDRY.getUserTemperature.

(** A driver is a pass-through store for the user temperature when the getter
    leaves in the cell the 32 bits the setter received last. *)
Definition pass_through (drv : adryLib.Driver) : Prop :=
  ∀ (d : adryLib.dstate drv) (x cell : Z),
    (adryLib.handle drv
       (adryLib.call_reader adryLib.getUserTemperature adryLib.float_cell
          cell)
       (adryLib.handle drv
          (adryLib.call_setter adryLib.setUserTemperature x) d).2).1 = x.

Definition is_Disconnect (c : adryLib.call) : bool :=
  match c with
  | adryLib.call_command adryLib.Disconnect => true
  | _ => false
  end.

(** Programs that never assign an attribute of [self]. *)
Inductive reads_only {A : Type} : prog A → Prop :=
| ro_Ret a : reads_only (Ret a)
| ro_Raise e : reads_only (Raise e)
| ro_GetAttr name k : (∀ v, reads_only (k v)) → reads_only (GetAttr name k)
| ro_Alloc n k : (∀ b, reads_only (k b)) → reads_only (Alloc n k)
| ro_Invoke c k : (∀ r, reads_only (k r)) → reads_only (Invoke c k).

(** The 64 bits of the Python float 0.1, and the binary32 number 0.5. *)
Definition tenth : Z := 4591870180066957722.
Definition half_single : spec_float := S754_finite false 8388608 (-24).

(** ** The exported enumeration *)

(** [Cryostats.py] declares the device variants a second time, for the
    clients of the package. *)
Inductive Cryostats :=
| Cryostats_ATTODRY1100 | Cryostats_ATTODRY2100 | Cryostats_ATTODRY800.

Definition Cryostats_value (c : Cryostats) : Z :=
  match c with
  | Cryostats_ATTODRY1100 => 0
  | Cryostats_ATTODRY2100 => 1
  | Cryostats_ATTODRY800 => 2
  end.

(** The member of [Devices] with the same name. *)
Definition Devices_of_Cryostats (c : Cryostats) : Devices :=
  match c with
  | Cryostats_ATTODRY1100 => ATTODRY1100
  | Cryostats_ATTODRY2100 => ATTODRY2100
  | Cryostats_ATTODRY800 => ATTODRY800
  end.

(** ** Shapes of method bodies *)

(** The status getters: the methods that read one [int] from the driver,
    each with the entry point it reads. *)
Definition status_entry (i : AttoDRY.invocation) : option adryLib.reader :=
  match i with
  | AttoDRY.do_getAttodryErrorStatus => Some adryLib.getAttodryErrorStatus
  | AttoDRY.do_isControllingField => Some adryLib.isControllingField
  | AttoDRY.do_isControllingTemperature => Some adryLib.isControllingTemperature
  | AttoDRY.do_isPersistentModeSet => Some adryLib.isPersistentModeSet
  | AttoDRY.do_isDeviceInitialised => Some adryLib.isDeviceInitialised
  | AttoDRY.do_isDeviceConnected => Some adryLib.isDeviceConnected
  | AttoDRY.do_isGoingToBaseTemperature => Some adryLib.isGoingToBaseTemperature
  | AttoDRY.do_isPumping => Some adryLib.isPumping
  | AttoDRY.do_isSampleExchangeInProgress =>
      Some adryLib.isSampleExchangeInProgress
  | AttoDRY.do_isSampleHeaterOn => Some adryLib.isSampleHeaterOn
  | AttoDRY.do_isSampleReadyToExchange => Some adryLib.isSampleReadyToExchange
  | AttoDRY.do_isSystemRunning => Some adryLib.isSystemRunning
  | AttoDRY.do_isZeroingField => Some adryLib.isZeroingField
  | AttoDRY.do_getCryostatInValve => Some adryLib.getCryostatInValve
  | AttoDRY.do_getCryostatOutValve => Some adryLib.getCryostatOutValve
  | AttoDRY.do_getDumpInValve => Some adryLib.getDumpInValve
  | AttoDRY.do_getDumpOutValve => Some adryLib.getDumpOutValve
  | AttoDRY.do_getHeliumValve => Some adryLib.getHeliumValve
  | AttoDRY.do_getInnerVolumeValve => Some adryLib.getInnerVolumeValve
  | AttoDRY.do_getOuterVolumeValve => Some adryLib.getOuterVolumeValve
  | AttoDRY.do_getPumpValve => Some adryLib.getPumpValve
  | AttoDRY.do_isExchangeHeaterOn => Some adryLib.isExchangeHeaterOn
  | AttoDRY.do_getBreakVac800Valve => Some adryLib.getTurbopumpFrequency
  | AttoDRY.do_getPump800Valve => Some adryLib.getPump800Valve
  | AttoDRY.do_getSampleSpace800Valve => Some adryLib.getSampleSpace800Valve
  | _ => None
  end.

(** The commands: the methods without argument or result that only call
    the driver, each with the entry point it calls. *)
Definition command_entry (i : AttoDRY.invocation)
  : option adryLib.command :=
  match i with
  | AttoDRY.do_Disconnect => Some adryLib.Disconnect
  | AttoDRY.do_Cancel => Some adryLib.Cancel
  | AttoDRY.do_Confirm => Some adryLib.Confirm
  | AttoDRY.do_toggleMagneticFieldControl =>
      Some adryLib.toggleMagneticFieldControl
  | AttoDRY.do_togglePersistentMode => Some adryLib.togglePersistentMode
  | AttoDRY.do_toggleSampleTemperatureControl =>
      Some adryLib.toggleSampleTemperatureControl
  | AttoDRY.do_toggleFullTemperatureControl =>
      Some adryLib.toggleFullTemperatureControl
  | AttoDRY.do_goToBaseTemperature => Some adryLib.goToBaseTemperature
  | AttoDRY.do_lowerError => Some adryLib.lowerError
  | AttoDRY.do_querySampleHeaterMaximumPower =>
      Some adryLib.querySampleHeaterMaximumPower
  | AttoDRY.do_querySampleHeaterResistance =>
      Some adryLib.querySampleHeaterResistance
  | AttoDRY.do_querySampleHeaterWireResistance =>
      Some adryLib.querySampleHeaterWireResistance
  | AttoDRY.do_startSampleExchange => Some adryLib.startSampleExchange
  | AttoDRY.do_stopLogging => Some adryLib.stopLogging
  | AttoDRY.do_sweepFieldToZero => Some adryLib.sweepFieldToZero
  | AttoDRY.do_togglePump => Some adryLib.togglePump
  | AttoDRY.do_toggleStartUpShutdown => Some adryLib.toggleStartUpShutdown
  | AttoDRY.do_queryReservoirTsetColdSample =>
      Some adryLib.queryReservoirTsetColdSample
  | AttoDRY.do_queryReservoirTsetWarmSample =>
      Some adryLib.queryReservoirTsetWarmSample
  | AttoDRY.do_queryReservoirTsetWarmMagnet =>
      Some adryLib.queryReservoirTsetWarmMagnet
  | AttoDRY.do_toggleCryostatInValve => Some adryLib.toggleCryostatInValve
  | AttoDRY.do_toggleCryostatOutValve => Some adryLib.toggleCryostatOutValve
  | AttoDRY.do_toggleDumpInValve => Some adryLib.toggleDumpInValve
  | AttoDRY.do_toggleDumpOutValve => Some adryLib.toggleDumpOutValve
  | AttoDRY.do_toggleExchangeHeaterControl =>
      Some adryLib.toggleExchangeHeaterControl
  | AttoDRY.do_toggleHeliumValve => Some adryLib.toggleHeliumValve
  | AttoDRY.do_toggleInnerVolumeValve => Some adryLib.toggleInnerVolumeValve
  | AttoDRY.do_toggleOuterVolumeValve => Some adryLib.toggleOuterVolumeValve
  | AttoDRY.do_togglePumpValve => Some adryLib.togglePumpValve
  | AttoDRY.do_toggleSampleSpace800Valve =>
      Some adryLib.toggleSampleSpace800Valve
  | AttoDRY.do_togglePump800Valve => Some adryLib.togglePump800Valve
  | AttoDRY.do_toggleBreakVac800Valve => Some adryLib.toggleBreakVac800Valve
  | _ => None
  end.

(** The float setters: the methods that pass one [float] to the driver, each
    with the entry point it calls and the argument it was given. *)
Definition setter_entry (i : AttoDRY.invocation)
  : option (adryLib.setter * pyval) :=
  match i with
  | AttoDRY.do_setUserMagneticField v => Some (adryLib.setUserMagneticField, v)
  | AttoDRY.do_setUserTemperature v => Some (adryLib.setUserTemperature, v)
  | AttoDRY.do_setDerivativeGain v => Some (adryLib.setDerivativeGain, v)
  | AttoDRY.do_setIntegralGain v => Some (adryLib.setIntegralGain, v)
  | AttoDRY.do_setProportionalGain v => Some (adryLib.setProportionalGain, v)
  | AttoDRY.do_setSampleHeaterMaximumPower v =>
      Some (adryLib.setSampleHeaterMaximumPower, v)
  | AttoDRY.do_setSampleHeaterWireResistance v =>
      Some (adryLib.setSampleHeaterWireResistance, v)
  | AttoDRY.do_setSampleHeaterPower v => Some (adryLib.setSampleHeaterPower, v)
  | AttoDRY.do_setSampleHeaterResistance v =>
      Some (adryLib.setSampleHeaterResistance, v)
  | AttoDRY.do_setVTIHeaterPower v => Some (adryLib.setVTIHeaterPower, v)
  | AttoDRY.do_setReservoirTsetWarmMagnet v =>
      Some (adryLib.setReservoirTsetWarmMagnet, v)
  | AttoDRY.do_setReservoirTsetColdSample v =>
      Some (adryLib.setReservoirTsetColdSample, v)
  | AttoDRY.do_setReservoirTsetWarmSample v =>
      Some (adryLib.setReservoirTsetWarmSample, v)
  | _ => None
  end.

(** The exceptions raised while arguments are marshaled. *)
Definition marshaling_error (e : exn) : bool :=
  match e with
  | TypeError | AttributeError | ValueError | OverflowError | MemoryError
  | UnicodeEncodeError => true
  | _ => false
  end.

(** What a method does once the driver has answered: return, or fail to
    decode the answer. *)
Inductive finishing {A : Type} : prog A → Prop :=
| fin_Ret a : finishing (Ret a)
| fin_Decode : finishing (Raise UnicodeDecodeError).

(** A forwarding body: it reads attributes and marshals, which may fail, then
    calls the driver once and finishes. *)
Inductive forwarding {A : Type} : prog A → Prop :=
| fw_Ret a : forwarding (Ret a)
| fw_Raise e : marshaling_error e = true → forwarding (Raise e)
| fw_GetAttr name k : (∀ v, forwarding (k v)) → forwarding (GetAttr name k)
| fw_Alloc n k : (∀ b, forwarding (k b)) → forwarding (Alloc n k)
| fw_Invoke c k : (∀ r, finishing (k r)) → forwarding (Invoke c k).

(** Programs that do not touch the attributes of [self] at all. *)
Inductive attribute_free {A : Type} : prog A → Prop :=
| af_Ret a : attribute_free (Ret a)
| af_Raise e : attribute_free (Raise e)
| af_Alloc n k : (∀ b, attribute_free (k b)) → attribute_free (Alloc n k)
| af_Invoke c k : (∀ r, attribute_free (k r)) → attribute_free (Invoke c k).

(** Read the user temperature, set it to the value read, read it again. *)
Definition get_set_get_user_temperature : prog pyval :=
  v ← AttoDRY.getUserTemperature;
  _ ← AttoDRY.setUserTemperature v;
  AttoDRY.getUserTemperature.

Definition no_nul (b : list byte) : Prop := Forall (λ x, is_nul x = false) b.

(** * Properties *)

(** ** Bits and bytes *)

(** A field placed above [n] low bits that hold [b]. *)
Lemma lor_shiftl_low (a b n : Z) :
  0 ≤ n → 0 ≤ b < 2 ^ n → Z.lor (Z.shiftl a n) b = a * 2 ^ n + b.
Proof.
  intros Hn Hb. rewrite Z.shiftl_mul_pow2 by lia.
  symmetry. apply Z.add_nocarry_lor.
  apply Z.bits_inj'. intros i Hi.
  rewrite Z.land_spec, Z.bits_0.
  destruct (Z.lt_ge_cases i n) as [Hlt|Hge].
  - rewrite Z.mul_pow2_bits_low by lia. reflexivity.
  - rewrite <- (Z.mod_small b (2 ^ n)) by lia.
    rewrite Z.mod_pow2_bits_high by lia. apply andb_false_r.
Qed.

Lemma Z_of_byte_range (b : byte) : 0 ≤ Z_of_byte b < 256.
Proof. destruct b; vm_compute; split; congruence. Qed.

Lemma Z_of_byte_of_Z (z : Z) : 0 ≤ z < 256 → Z_of_byte (byte_of_Z z) = z.
Proof.
  intros Hz. unfold byte_of_Z, Z_of_byte.
  change 255 with (Z.ones 8). rewrite Z.land_ones by lia.
  rewrite Z.mod_small by (change (2 ^ 8) with 256; lia).
  destruct (Byte.of_N (Z.to_N z)) as [b|] eqn:Hb.
  - apply Byte.to_of_N in Hb. rewrite Hb. lia.
  - apply Byte.of_N_None_iff in Hb. lia.
Qed.

(** [c_int_value] reads a word as a signed 32-bit integer. *)
Lemma c_int_value_signed (w : Z) :
  c_int_value w = (w + 2147483648) mod 4294967296 - 2147483648.
Proof.
  unfold c_int_value.
  change 4294967295 with (Z.ones 32).
  rewrite Z.land_ones by lia.
  change (2 ^ 32) with 4294967296.
  destruct (Z.testbit (w mod 4294967296) 31) eqn:Hb.
  - apply Z.testbit_true in Hb; [|lia].
    change (2 ^ 31) with 2147483648 in Hb.
    Z.div_mod_to_equations. lia.
  - apply Z.testbit_false in Hb; [|lia].
    change (2 ^ 31) with 2147483648 in Hb.
    Z.div_mod_to_equations. lia.
Qed.

(** What fits a C [int] goes through [c_int] unchanged. *)
Lemma c_int_value_in_range (n : Z) :
  -2147483648 ≤ n < 2147483648 →
  c_int_value (Z.land n 4294967295) = n.
Proof.
  intros Hn. rewrite c_int_value_signed.
  change 4294967295 with (Z.ones 32).
  rewrite Z.land_ones by lia.
  change (2 ^ 32) with 4294967296.
  Z.div_mod_to_equations. lia.
Qed.

(** It is the identity on what fits a C [int]. *)
Lemma c_int_value_id (w : Z) :
  -2147483648 ≤ w < 2147483648 → c_int_value w = w.
Proof.
  intros Hw. rewrite c_int_value_signed. Z.div_mod_to_equations. lia.
Qed.

Lemma c_int_value_range (w : Z) :
  -2147483648 ≤ c_int_value w < 2147483648.
Proof. rewrite c_int_value_signed. Z.div_mod_to_equations. lia. Qed.

Lemma c_int_value_congruent (w : Z) :
  (c_int_value w - w) mod 4294967296 = 0.
Proof. rewrite c_int_value_signed. Z.div_mod_to_equations. lia. Qed.

(** ** UTF-8: decoding undoes encoding *)

(** Bit tests on one byte, by cases on the byte. *)
Lemma payload_spec (b : byte) :
  payload b =
    if (128 <=? Z_of_byte b) && (Z_of_byte b <? 192)
    then Some (Z_of_byte b - 128) else None.
Proof. destruct b; reflexivity. Qed.

Lemma lead_bits (b : byte) :
  let z := Z_of_byte b in
  (192 ≤ z < 224 → Z.land z 31 = z - 192) ∧
  (224 ≤ z < 240 → Z.land z 15 = z - 224) ∧
  (240 ≤ z < 248 → Z.land z 7 = z - 240).
Proof. destruct b; vm_compute; repeat split; intros [H1 H2]; congruence. Qed.

Lemma push_spec (acc p : Z) : 0 ≤ p < 64 → push acc p = acc * 64 + p.
Proof.
  intros Hp. unfold push.
  rewrite lor_shiftl_low by (change (2 ^ 6) with 64; lia). reflexivity.
Qed.

Lemma Z_of_trail (c k : Z) :
  0 ≤ k → Z_of_byte (trail c k) = 128 + (c / 2 ^ (6 * k)) mod 64.
Proof.
  intros Hk. unfold trail.
  rewrite Z.shiftr_div_pow2 by lia.
  change 63 with (Z.ones 6). rewrite Z.land_ones by lia.
  change (2 ^ 6) with 64.
  pose proof (Z.mod_pos_bound (c / 2 ^ (6 * k)) 64 ltac:(lia)) as Hm.
  change 128 with (Z.shiftl 1 7) at 1.
  rewrite lor_shiftl_low by (change (2 ^ 7) with 128; lia).
  change (2 ^ 7) with 128.
  rewrite Z_of_byte_of_Z by lia. lia.
Qed.

Lemma Z_of_lead (tag c n sh : Z) :
  0 ≤ n → 0 ≤ sh → 0 ≤ c → c / 2 ^ sh < 2 ^ n →
  0 ≤ tag → tag * 2 ^ n + c / 2 ^ sh < 256 →
  Z_of_byte (byte_of_Z (Z.lor (Z.shiftl tag n) (Z.shiftr c sh)))
  = tag * 2 ^ n + c / 2 ^ sh.
Proof.
  intros Hn Hsh Hc Hlt Htag Hmax.
  rewrite Z.shiftr_div_pow2 by lia.
  assert (0 ≤ c / 2 ^ sh) by (apply Z.div_pos; lia).
  rewrite lor_shiftl_low by lia.
  apply Z_of_byte_of_Z. nia.
Qed.

Lemma between (a z b : Z) : a ≤ z ≤ b → (a <=? z) && (z <=? b) = true.
Proof. intros H. apply andb_true_intro. split; apply Z.leb_le; lia. Qed.

Lemma not_below (z a : Z) : a ≤ z → (z <? a) = false.
Proof. apply Z.ltb_ge. Qed.

Lemma not_between (a z b : Z) : b < z → (a <=? z) && (z <=? b) = false.
Proof. intros H. apply andb_false_intro2. apply Z.leb_gt. lia. Qed.

Lemma payload_trailing (b : byte) :
  128 ≤ Z_of_byte b < 192 → payload b = Some (Z_of_byte b - 128).
Proof.
  intros H. rewrite payload_spec.
  rewrite (proj2 (Z.leb_le _ _)) by lia.
  rewrite (proj2 (Z.ltb_lt _ _)) by lia. reflexivity.
Qed.

(** The decoder on each of the four forms of a sequence. *)
Lemma utf8_decode_1 (b0 : byte) (r : list byte) :
  Z_of_byte b0 < 128 →
  utf8_decode (b0 :: r) = cons (Z_of_byte b0) <$> utf8_decode r.
Proof.
  intros H0. cbn [utf8_decode]. cbv zeta.
  rewrite (proj2 (Z.ltb_lt _ _) H0). reflexivity.
Qed.

Lemma utf8_decode_2 (b0 b1 : byte) (r : list byte) :
  194 ≤ Z_of_byte b0 ≤ 223 →
  128 ≤ Z_of_byte b1 < 192 →
  utf8_decode (b0 :: b1 :: r) =
    cons ((Z_of_byte b0 - 192) * 64 + (Z_of_byte b1 - 128)) <$> utf8_decode r.
Proof.
  intros H0 H1.
  pose proof (lead_bits b0) as (Hl & _ & _). cbv zeta in Hl.
  cbn [utf8_decode]. cbv zeta.
  rewrite (not_below (Z_of_byte b0) 128) by lia.
  rewrite (between 194 (Z_of_byte b0) 223) by lia.
  rewrite (payload_trailing b1 H1), Hl by lia.
  rewrite push_spec by lia. reflexivity.
Qed.

Lemma utf8_decode_3 (b0 b1 b2 : byte) (r : list byte) :
  224 ≤ Z_of_byte b0 ≤ 239 →
  128 ≤ Z_of_byte b1 < 192 →
  128 ≤ Z_of_byte b2 < 192 →
  let c := ((Z_of_byte b0 - 224) * 64 + (Z_of_byte b1 - 128)) * 64
           + (Z_of_byte b2 - 128) in
  2048 ≤ c →
  is_surrogate c = false →
  utf8_decode (b0 :: b1 :: b2 :: r) = cons c <$> utf8_decode r.
Proof.
  intros H0 H1 H2 c Hc Hs.
  pose proof (lead_bits b0) as (_ & Hl & _). cbv zeta in Hl.
  cbn [utf8_decode]. cbv zeta.
  rewrite (not_below (Z_of_byte b0) 128) by lia.
  rewrite (not_between 194 (Z_of_byte b0) 223) by lia.
  rewrite (between 224 (Z_of_byte b0) 239) by lia.
  rewrite (payload_trailing b1 H1), (payload_trailing b2 H2), Hl by lia.
  rewrite !push_spec by lia. fold c.
  rewrite Hs, (proj2 (Z.leb_le _ _) Hc). reflexivity.
Qed.

Lemma utf8_decode_4 (b0 b1 b2 b3 : byte) (r : list byte) :
  240 ≤ Z_of_byte b0 ≤ 244 →
  128 ≤ Z_of_byte b1 < 192 →
  128 ≤ Z_of_byte b2 < 192 →
  128 ≤ Z_of_byte b3 < 192 →
  let c := (((Z_of_byte b0 - 240) * 64 + (Z_of_byte b1 - 128)) * 64
            + (Z_of_byte b2 - 128)) * 64 + (Z_of_byte b3 - 128) in
  65536 ≤ c < 1114112 →
  utf8_decode (b0 :: b1 :: b2 :: b3 :: r) = cons c <$> utf8_decode r.
Proof.
  intros H0 H1 H2 H3 c Hc.
  pose proof (lead_bits b0) as (_ & _ & Hl). cbv zeta in Hl.
  cbn [utf8_decode]. cbv zeta.
  rewrite (not_below (Z_of_byte b0) 128) by lia.
  rewrite (not_between 194 (Z_of_byte b0) 223) by lia.
  rewrite (not_between 224 (Z_of_byte b0) 239) by lia.
  rewrite (between 240 (Z_of_byte b0) 244) by lia.
  rewrite (payload_trailing b1 H1), (payload_trailing b2 H2),
    (payload_trailing b3 H3), Hl by lia.
  rewrite !push_spec by lia. fold c.
  rewrite (proj2 (Z.leb_le _ _) (proj1 Hc)).
  rewrite (proj2 (Z.ltb_lt _ _) (proj2 Hc)). reflexivity.
Qed.

Lemma utf8_decode_cp (c : Z) (bs rest : list byte) :
  utf8_encode_cp c = Some bs →
  utf8_decode (bs ++ rest) = cons c <$> utf8_decode rest.
Proof.
  unfold utf8_encode_cp.
  destruct (Z.ltb_spec c 0); [discriminate|].
  destruct (Z.ltb_spec c 128).
  { intros [= <-]. cbn [app].
    rewrite utf8_decode_1; rewrite Z_of_byte_of_Z by lia; [reflexivity|lia]. }
  pose proof (Z.mod_pos_bound c 64 ltac:(lia)).
  pose proof (Z.mod_pos_bound (c / 64) 64 ltac:(lia)).
  pose proof (Z.mod_pos_bound (c / 4096) 64 ltac:(lia)).
  assert (Ht0 : Z_of_byte (trail c 0) = 128 + c mod 64).
  { rewrite Z_of_trail by lia. change (2 ^ (6 * 0)) with 1.
    rewrite Z.div_1_r. reflexivity. }
  assert (Ht1 : Z_of_byte (trail c 1) = 128 + (c / 64) mod 64).
  { rewrite Z_of_trail by lia. reflexivity. }
  assert (Ht2 : Z_of_byte (trail c 2) = 128 + (c / 4096) mod 64).
  { rewrite Z_of_trail by lia. reflexivity. }
  destruct (Z.ltb_spec c 2048).
  { intros [= <-]. cbn [app].
    assert (2 ≤ c / 64 < 32) by (Z.div_mod_to_equations; lia).
    assert (Hb0 : Z_of_byte (byte_of_Z (Z.lor 192 (Z.shiftr c 6)))
                  = 192 + c / 64).
    { change 192 with (Z.shiftl 3 6) at 1.
      rewrite (Z_of_lead 3 c 6 6) by (change (2 ^ 6) with 64; lia).
      reflexivity. }
    rewrite utf8_decode_2; rewrite ?Hb0, ?Ht0; try lia.
    do 2 f_equal. Z.div_mod_to_equations. lia. }
  destruct (Z.ltb_spec c 65536).
  { destruct (is_surrogate c) eqn:Hsur; [discriminate|].
    intros [= <-]. cbn [app].
    assert (0 ≤ c / 4096 < 16) by (Z.div_mod_to_equations; lia).
    assert (Hb0 : Z_of_byte (byte_of_Z (Z.lor 224 (Z.shiftr c 12)))
                  = 224 + c / 4096).
    { change 224 with (Z.shiftl 7 5) at 1.
      rewrite (Z_of_lead 7 c 5 12)
        by (change (2 ^ 5) with 32; change (2 ^ 12) with 4096; lia).
      reflexivity. }
    assert (Hc : ((224 + c / 4096 - 224) * 64 + (128 + (c / 64) mod 64 - 128))
                 * 64 + (128 + c mod 64 - 128) = c)
      by (Z.div_mod_to_equations; lia).
    rewrite utf8_decode_3; rewrite ?Hb0, ?Ht0, ?Ht1, ?Hc; try lia;
      [reflexivity|exact Hsur]. }
  destruct (Z.ltb_spec c 1114112); [|discriminate].
  intros [= <-]. cbn [app].
  assert (0 ≤ c / 262144 < 5) by (Z.div_mod_to_equations; lia).
  assert (Hb0 : Z_of_byte (byte_of_Z (Z.lor 240 (Z.shiftr c 18)))
                = 240 + c / 262144).
  { change 240 with (Z.shiftl 15 4) at 1.
    rewrite (Z_of_lead 15 c 4 18)
      by (change (2 ^ 4) with 16; change (2 ^ 18) with 262144; lia).
    reflexivity. }
  assert (Hc : (((240 + c / 262144 - 240) * 64
                 + (128 + (c / 4096) mod 64 - 128)) * 64
                + (128 + (c / 64) mod 64 - 128)) * 64
               + (128 + c mod 64 - 128) = c)
    by (Z.div_mod_to_equations; lia).
  rewrite utf8_decode_4; rewrite ?Hb0, ?Ht0, ?Ht1, ?Ht2, ?Hc; try lia.
  reflexivity.
Qed.

Lemma utf8_decode_encode (s : pystr) (b : list byte) :
  utf8_encode s = Some b → utf8_decode b = Some s.
Proof.
  revert b. induction s as [|c s IH]; intros b; cbn [utf8_encode].
  - intros [= <-]. reflexivity.
  - destruct (utf8_encode_cp c) as [bc|] eqn:Hc; [|discriminate].
    destruct (utf8_encode s) as [bs|]; [|discriminate].
    intros [= <-]. rewrite (utf8_decode_cp c bc bs Hc).
    rewrite (IH bs eq_refl). reflexivity.
Qed.

(** *** Encoding undoes decoding *)

Lemma byte_of_Z_of_byte (b : byte) : byte_of_Z (Z_of_byte b) = b.
Proof. destruct b; reflexivity. Qed.

Lemma Z_of_byte_inj (a b : byte) : Z_of_byte a = Z_of_byte b → a = b.
Proof.
  intros H. rewrite <- (byte_of_Z_of_byte a), <- (byte_of_Z_of_byte b), H.
  reflexivity.
Qed.

Lemma payload_inv (b : byte) (p : Z) :
  payload b = Some p → 0 ≤ p < 64 ∧ Z_of_byte b = 128 + p.
Proof.
  rewrite payload_spec.
  destruct (Z.leb_spec 128 (Z_of_byte b)); simpl; [|discriminate].
  destruct (Z.ltb_spec (Z_of_byte b) 192); intros [= <-]; lia.
Qed.

Lemma trail_0 (c : Z) (b : byte) :
  Z_of_byte b = 128 + c mod 64 → trail c 0 = b.
Proof.
  intros H. apply Z_of_byte_inj. rewrite Z_of_trail by lia.
  change (2 ^ (6 * 0)) with 1. rewrite Z.div_1_r. lia.
Qed.

Lemma trail_1 (c : Z) (b : byte) :
  Z_of_byte b = 128 + (c / 64) mod 64 → trail c 1 = b.
Proof.
  intros H. apply Z_of_byte_inj. rewrite Z_of_trail by lia.
  change (2 ^ (6 * 1)) with 64. lia.
Qed.

Lemma trail_2 (c : Z) (b : byte) :
  Z_of_byte b = 128 + (c / 4096) mod 64 → trail c 2 = b.
Proof.
  intros H. apply Z_of_byte_inj. rewrite Z_of_trail by lia.
  change (2 ^ (6 * 2)) with 4096. lia.
Qed.

(** The encoder on what the decoder accepts, form by form. *)
Lemma utf8_encode_cp_1 (b0 : byte) :
  Z_of_byte b0 < 128 → utf8_encode_cp (Z_of_byte b0) = Some [b0].
Proof.
  intros H. pose proof (Z_of_byte_range b0). unfold utf8_encode_cp.
  destruct (Z.ltb_spec (Z_of_byte b0) 0); [lia|].
  destruct (Z.ltb_spec (Z_of_byte b0) 128); [|lia].
  rewrite byte_of_Z_of_byte. reflexivity.
Qed.

Lemma utf8_encode_cp_2 (b0 b1 : byte) (p1 : Z) :
  194 ≤ Z_of_byte b0 ≤ 223 → payload b1 = Some p1 →
  utf8_encode_cp (push (Z.land (Z_of_byte b0) 31) p1) = Some [b0; b1].
Proof.
  intros H0 [Hp1 H1]%payload_inv.
  pose proof (lead_bits b0) as (Hl & _ & _). cbv zeta in Hl.
  rewrite push_spec, Hl by lia.
  set (c := (Z_of_byte b0 - 192) * 64 + p1).
  assert (Hc : 128 ≤ c < 2048) by (subst c; lia).
  unfold utf8_encode_cp.
  destruct (Z.ltb_spec c 0); [lia|].
  destruct (Z.ltb_spec c 128); [lia|].
  destruct (Z.ltb_spec c 2048); [|lia].
  do 2 f_equal; [|f_equal].
  - apply Z_of_byte_inj. change 192 with (Z.shiftl 3 6) at 1.
    rewrite (Z_of_lead 3 c 6 6);
      change (2 ^ 6) with 64; subst c; try lia;
      Z.div_mod_to_equations; lia.
  - apply trail_0. subst c. Z.div_mod_to_equations. lia.
Qed.

Lemma utf8_encode_cp_3 (b0 b1 b2 : byte) (p1 p2 : Z) :
  224 ≤ Z_of_byte b0 ≤ 239 →
  payload b1 = Some p1 → payload b2 = Some p2 →
  let c := push (push (Z.land (Z_of_byte b0) 15) p1) p2 in
  2048 ≤ c → is_surrogate c = false →
  utf8_encode_cp c = Some [b0; b1; b2].
Proof.
  intros H0 [Hp1 H1]%payload_inv [Hp2 H2]%payload_inv.
  pose proof (lead_bits b0) as (_ & Hl & _). cbv zeta in Hl.
  rewrite !push_spec, Hl by lia.
  set (c := ((Z_of_byte b0 - 224) * 64 + p1) * 64 + p2).
  cbv zeta. intros Hc Hsur.
  assert (Hc' : c < 65536) by (subst c; lia).
  unfold utf8_encode_cp. rewrite Hsur.
  destruct (Z.ltb_spec c 0); [lia|].
  destruct (Z.ltb_spec c 128); [lia|].
  destruct (Z.ltb_spec c 2048); [lia|].
  destruct (Z.ltb_spec c 65536); [|lia].
  do 2 f_equal; [|f_equal; [|f_equal]].
  - apply Z_of_byte_inj. change 224 with (Z.shiftl 7 5) at 1.
    rewrite (Z_of_lead 7 c 5 12);
      change (2 ^ 5) with 32; change (2 ^ 12) with 4096; subst c; try lia;
      Z.div_mod_to_equations; lia.
  - apply trail_1. subst c. Z.div_mod_to_equations. lia.
  - apply trail_0. subst c. Z.div_mod_to_equations. lia.
Qed.

Lemma utf8_encode_cp_4 (b0 b1 b2 b3 : byte) (p1 p2 p3 : Z) :
  240 ≤ Z_of_byte b0 ≤ 244 →
  payload b1 = Some p1 → payload b2 = Some p2 → payload b3 = Some p3 →
  let c := push (push (push (Z.land (Z_of_byte b0) 7) p1) p2) p3 in
  65536 ≤ c < 1114112 →
  utf8_encode_cp c = Some [b0; b1; b2; b3].
Proof.
  intros H0 [Hp1 H1]%payload_inv [Hp2 H2]%payload_inv [Hp3 H3]%payload_inv.
  pose proof (lead_bits b0) as (_ & _ & Hl). cbv zeta in Hl.
  rewrite !push_spec, Hl by lia.
  set (c := (((Z_of_byte b0 - 240) * 64 + p1) * 64 + p2) * 64 + p3).
  cbv zeta. intros Hc.
  unfold utf8_encode_cp.
  destruct (Z.ltb_spec c 0); [lia|].
  destruct (Z.ltb_spec c 128); [lia|].
  destruct (Z.ltb_spec c 2048); [lia|].
  destruct (Z.ltb_spec c 65536); [lia|].
  destruct (Z.ltb_spec c 1114112); [|lia].
  do 2 f_equal; [|f_equal; [|f_equal; [|f_equal]]].
  - apply Z_of_byte_inj. change 240 with (Z.shiftl 15 4) at 1.
    rewrite (Z_of_lead 15 c 4 18);
      change (2 ^ 4) with 16; change (2 ^ 18) with 262144; subst c; try lia;
      Z.div_mod_to_equations; lia.
  - apply trail_2. subst c. Z.div_mod_to_equations. lia.
  - apply trail_1. subst c. Z.div_mod_to_equations. lia.
  - apply trail_0. subst c. Z.div_mod_to_equations. lia.
Qed.

Lemma fmap_cons_Some (c : Z) (o : option pystr) (s : pystr) :
  cons c <$> o = Some s → ∃ s', o = Some s' ∧ s = c :: s'.
Proof. destruct o as [s'|]; simpl; intros [= <-]; eauto. Qed.

Lemma utf8_encode_cons (c : Z) (s : pystr) (bc bs : list byte) :
  utf8_encode_cp c = Some bc → utf8_encode s = Some bs →
  utf8_encode (c :: s) = Some (bc ++ bs).
Proof. intros Hc Hs. cbn [utf8_encode]. rewrite Hc, Hs. reflexivity. Qed.

Lemma utf8_encode_decode_aux (n : nat) :
  ∀ (b : list byte) (s : pystr),
    (length b ≤ n)%nat → utf8_decode b = Some s → utf8_encode s = Some b.
Proof.
  induction n as [n IH] using lt_wf_ind. intros b s Hn.
  destruct b as [|b0 r].
  { intros [= <-]. reflexivity. }
  cbn [utf8_decode]. cbv zeta. cbn [length] in Hn.
  destruct (Z.ltb_spec (Z_of_byte b0) 128) as [H0|H0].
  { intros (s' & Hs' & ->)%fmap_cons_Some.
    exact (utf8_encode_cons _ s' [b0] r (utf8_encode_cp_1 b0 H0)
             (IH (length r) ltac:(lia) r s' ltac:(lia) Hs')). }
  destruct ((194 <=? Z_of_byte b0) && (Z_of_byte b0 <=? 223)) eqn:H2.
  { apply andb_prop in H2 as [Ha Hb]. apply Z.leb_le in Ha, Hb.
    destruct r as [|b1 r1]; [discriminate|].
    destruct (payload b1) as [p1|] eqn:Hp1; [|discriminate].
    intros (s' & Hs' & ->)%fmap_cons_Some. cbn [length] in Hn.
    exact (utf8_encode_cons _ s' [b0; b1] r1
             (utf8_encode_cp_2 b0 b1 p1 (conj Ha Hb) Hp1)
             (IH (length r1) ltac:(lia) r1 s' ltac:(lia) Hs')). }
  destruct ((224 <=? Z_of_byte b0) && (Z_of_byte b0 <=? 239)) eqn:H3.
  { apply andb_prop in H3 as [Ha Hb]. apply Z.leb_le in Ha, Hb.
    destruct r as [|b1 [|b2 r2]]; try discriminate.
    destruct (payload b1) as [p1|] eqn:Hp1; [|discriminate].
    destruct (payload b2) as [p2|] eqn:Hp2; [|discriminate].
    destruct ((2048 <=? push (push (Z.land (Z_of_byte b0) 15) p1) p2)
              && negb (is_surrogate
                         (push (push (Z.land (Z_of_byte b0) 15) p1) p2)))
      eqn:Hc; [|discriminate].
    apply andb_prop in Hc as [Hc Hsur]. apply Z.leb_le in Hc.
    apply negb_true_iff in Hsur.
    intros (s' & Hs' & ->)%fmap_cons_Some. cbn [length] in Hn.
    exact (utf8_encode_cons _ s' [b0; b1; b2] r2
             (utf8_encode_cp_3 b0 b1 b2 p1 p2 (conj Ha Hb) Hp1 Hp2 Hc Hsur)
             (IH (length r2) ltac:(lia) r2 s' ltac:(lia) Hs')). }
  destruct ((240 <=? Z_of_byte b0) && (Z_of_byte b0 <=? 244)) eqn:H4;
    [|discriminate].
  apply andb_prop in H4 as [Ha Hb]. apply Z.leb_le in Ha, Hb.
  destruct r as [|b1 [|b2 [|b3 r3]]]; try discriminate.
  destruct (payload b1) as [p1|] eqn:Hp1; [|discriminate].
  destruct (payload b2) as [p2|] eqn:Hp2; [|discriminate].
  destruct (payload b3) as [p3|] eqn:Hp3; [|discriminate].
  destruct ((65536 <=? push (push (push (Z.land (Z_of_byte b0) 7) p1) p2) p3)
            && (push (push (push (Z.land (Z_of_byte b0) 7) p1) p2) p3
                <? 1114112))
    eqn:Hc; [|discriminate].
  apply andb_prop in Hc as [Hc1 Hc2].
  apply Z.leb_le in Hc1. apply Z.ltb_lt in Hc2.
  intros (s' & Hs' & ->)%fmap_cons_Some. cbn [length] in Hn.
  exact (utf8_encode_cons _ s' [b0; b1; b2; b3] r3
           (utf8_encode_cp_4 b0 b1 b2 b3 p1 p2 p3 (conj Ha Hb) Hp1 Hp2 Hp3
              (conj Hc1 Hc2))
           (IH (length r3) ltac:(lia) r3 s' ltac:(lia) Hs')).
Qed.

(** Only the UTF-8 encoding of [s] decodes to [s]. *)
Lemma utf8_encode_decode (b : list byte) (s : pystr) :
  utf8_decode b = Some s → utf8_encode s = Some b.
Proof. apply (utf8_encode_decode_aux (length b)). lia. Qed.

(** ** C strings *)

Lemma is_nul_false (b : byte) : is_nul b = false ↔ Z_of_byte b ≠ 0.
Proof. unfold is_nul. apply Z.eqb_neq. Qed.

Lemma c_string_no_nul (b : list byte) : no_nul b → c_string b = b.
Proof.
  induction 1 as [|x b Hx Hb IH]; cbn [c_string]; [reflexivity|].
  rewrite Hx, IH. reflexivity.
Qed.

Lemma utf8_encode_cp_no_nul (c : Z) (bs : list byte) :
  utf8_encode_cp c = Some bs → c ≠ 0 → no_nul bs.
Proof.
  unfold utf8_encode_cp, no_nul. intros Hbs Hc.
  destruct (Z.ltb_spec c 0); [discriminate|].
  assert (Ht : ∀ k, 0 ≤ k → is_nul (trail c k) = false).
  { intros k Hk. apply is_nul_false. rewrite Z_of_trail by lia.
    pose proof (Z.mod_pos_bound (c / 2 ^ (6 * k)) 64 ltac:(lia)). lia. }
  destruct (Z.ltb_spec c 128).
  { injection Hbs as <-. repeat constructor.
    apply is_nul_false. rewrite Z_of_byte_of_Z by lia. exact Hc. }
  destruct (Z.ltb_spec c 2048).
  { injection Hbs as <-.
    assert (2 ≤ c / 64 < 32) by (Z.div_mod_to_equations; lia).
    repeat constructor; try (apply Ht; lia).
    apply is_nul_false. change 192 with (Z.shiftl 3 6) at 1.
    rewrite (Z_of_lead 3 c 6 6) by (change (2 ^ 6) with 64; lia).
    change (2 ^ 6) with 64. lia. }
  destruct (Z.ltb_spec c 65536).
  { destruct (is_surrogate c); [discriminate|]. injection Hbs as <-.
    assert (0 ≤ c / 4096 < 16) by (Z.div_mod_to_equations; lia).
    repeat constructor; try (apply Ht; lia).
    apply is_nul_false. change 224 with (Z.shiftl 7 5) at 1.
    rewrite (Z_of_lead 7 c 5 12)
      by (change (2 ^ 5) with 32; change (2 ^ 12) with 4096; lia).
    change (2 ^ 5) with 32. change (2 ^ 12) with 4096. lia. }
  destruct (Z.ltb_spec c 1114112); [|discriminate]. injection Hbs as <-.
  assert (0 ≤ c / 262144 < 5) by (Z.div_mod_to_equations; lia).
  repeat constructor; try (apply Ht; lia).
  apply is_nul_false. change 240 with (Z.shiftl 15 4) at 1.
  rewrite (Z_of_lead 15 c 4 18)
    by (change (2 ^ 4) with 16; change (2 ^ 18) with 262144; lia).
  change (2 ^ 4) with 16. change (2 ^ 18) with 262144. lia.
Qed.

Lemma utf8_encode_no_nul (s : pystr) (b : list byte) :
  utf8_encode s = Some b → Forall (λ c, c ≠ 0) s → no_nul b.
Proof.
  revert b. induction s as [|c s IH]; intros b; cbn [utf8_encode].
  - intros [= <-] _. constructor.
  - destruct (utf8_encode_cp c) as [bc|] eqn:Hc; [|discriminate].
    destruct (utf8_encode s) as [bs|]; [|discriminate].
    intros [= <-] Hs. inversion Hs as [|? ? Hc0 Hs0]; subst.
    apply Forall_app. split.
    + exact (utf8_encode_cp_no_nul c bc Hc Hc0).
    + apply IH; [reflexivity|assumption].
Qed.

Lemma utf8_encode_app (s1 s2 : pystr) (b1 b2 : list byte) :
  utf8_encode s1 = Some b1 → utf8_encode s2 = Some b2 →
  utf8_encode (s1 ++ s2) = Some (b1 ++ b2).
Proof.
  revert b1. induction s1 as [|c s1 IH]; intros b1; cbn [utf8_encode app].
  - intros [= <-] H2. exact H2.
  - destruct (utf8_encode_cp c) as [bc|]; [|discriminate].
    destruct (utf8_encode s1) as [bs|]; [|discriminate].
    intros [= <-] H2. rewrite (IH bs eq_refl H2).
    rewrite <- app_assoc. reflexivity.
Qed.

Lemma c_string_text (b junk : list byte) :
  Forall (λ x, is_nul x = false) b →
  c_string (b ++ Byte.x00 :: junk) = b.
Proof.
  induction 1 as [|x b Hx Hb IH]; cbn [app c_string].
  - reflexivity.
  - rewrite Hx, IH. reflexivity.
Qed.


(** ** Marshaling of floats

    Widening a binary32 number to binary64 and rounding it back is the
    identity, and so is encoding it in 32 bits and decoding it. *)

Lemma digits2_pos_shift (m d : positive) :
  digits2_pos (Pos.iter xO m d) = (digits2_pos m + d)%positive.
Proof.
  induction d as [|d IH] using Pos.peano_ind.
  - simpl. lia.
  - rewrite Pos.iter_succ. simpl. rewrite IH. lia.
Qed.

Lemma iter_pos_iter {A : Type} (f : A → A) (n : positive) (x : A) :
  SpecFloat.iter_pos f n x = Pos.iter f x n.
Proof.
  revert x. induction n as [n IH|n IH|]; intros x; simpl; auto.
  - rewrite !IH. rewrite <- Pos.iter_swap. rewrite <- Pos.iter_swap.
    reflexivity.
  - rewrite !IH. reflexivity.
Qed.

Lemma shr_exact (m d : positive) (e : Z) :
  shr {| shr_m := Z.pos (Pos.iter xO m d); shr_r := false; shr_s := false |}
    e (Z.pos d)
  = ({| shr_m := Z.pos m; shr_r := false; shr_s := false |}, e + Z.pos d).
Proof.
  unfold shr. f_equal. rewrite iter_pos_iter.
  induction d as [|d IH] using Pos.peano_ind.
  - reflexivity.
  - rewrite !Pos.iter_succ. rewrite <- Pos.iter_swap.
    change (shr_1 {| shr_m := Z.pos (Pos.iter xO m d)~0;
                     shr_r := false; shr_s := false |})
      with {| shr_m := Z.pos (Pos.iter xO m d);
              shr_r := false; shr_s := false |}.
    exact IH.
Qed.

Section Round.
Variables prec emax : Z.

Lemma shl_align_left (m : positive) (e e' : Z) :
  e' < e →
  shl_align m e e' = (Pos.iter xO m (Z.to_pos (e - e')), e').
Proof.
  intros H. unfold shl_align.
  destruct (e' - e) as [|p|p] eqn:Hd; try lia.
  replace (Z.to_pos (e - e')) with p by lia. reflexivity.
Qed.

Lemma shl_align_none (m : positive) (e e' : Z) :
  e ≤ e' → shl_align m e e' = (m, e).
Proof.
  intros H. unfold shl_align.
  destruct (e' - e) as [|p|p] eqn:Hd; try lia; reflexivity.
Qed.

Lemma binary_round_aux_canonical (s : bool) (m : positive) (e : Z) :
  fexp prec emax (Z.pos (digits2_pos m) + e) = e →
  e ≤ emax - prec →
  binary_round_aux prec emax s (Z.pos m) e loc_Exact = S754_finite s m e.
Proof.
  intros Hc He. unfold binary_round_aux, shr_fexp. simpl Zdigits2.
  rewrite Hc, Z.sub_diag. simpl.
  rewrite Hc, Z.sub_diag. simpl.
  destruct (Z.leb_spec e (emax - prec)); [reflexivity|lia].
Qed.

Lemma binary_round_widen (s : bool) (m : positive) (e : Z) :
  let e' := fexp prec emax (Z.pos (digits2_pos m) + e) in
  e' < e →
  e' ≤ emax - prec →
  binary_round prec emax s m e =
    S754_finite s (Pos.iter xO m (Z.to_pos (e - e'))) e'.
Proof.
  intros e' Hlt Hmax. unfold binary_round. fold e'.
  rewrite shl_align_left by exact Hlt.
  apply binary_round_aux_canonical; [|exact Hmax].
  rewrite digits2_pos_shift. rewrite Pos2Z.inj_add.
  rewrite Z2Pos.id by lia.
  replace (Z.pos (digits2_pos m) + (e - e') + e')
    with (Z.pos (digits2_pos m) + e) by lia.
  reflexivity.
Qed.

Lemma binary_round_narrow (s : bool) (m d : positive) (e : Z) :
  fexp prec emax (Z.pos (digits2_pos m) + e) = e →
  e ≤ emax - prec →
  binary_round prec emax s (Pos.iter xO m d) (e - Z.pos d) =
    S754_finite s m e.
Proof.
  intros Hc Hmax. unfold binary_round.
  assert (Hd : Z.pos (digits2_pos (Pos.iter xO m d)) + (e - Z.pos d)
               = Z.pos (digits2_pos m) + e).
  { rewrite digits2_pos_shift. lia. }
  rewrite Hd, Hc.
  rewrite shl_align_none by lia.
  unfold binary_round_aux, shr_fexp. simpl Zdigits2.
  rewrite Hd, Hc.
  replace (e - (e - Z.pos d)) with (Z.pos d) by lia.
  cbn [shr_record_of_loc]. rewrite shr_exact.
  cbn [shr_m loc_of_shr_record round_nearest_even Zdigits2].
  replace (e - Z.pos d + Z.pos d) with e by lia.
  rewrite Hc, Z.sub_diag. simpl.
  destruct (Z.leb_spec e (emax - prec)); [reflexivity|lia].
Qed.
End Round.

Lemma single_double_single (x : spec_float) :
  valid_binary 24 128 x = true → to_single (to_double x) = x.
Proof.
  destruct x as [s|s| |s m e]; try reflexivity.
  cbn [valid_binary]. unfold bounded, canonical_mantissa.
  intros [Hc He]%andb_prop.
  apply Z.eqb_eq in Hc. apply Z.leb_le in He.
  assert (Hm : Z.pos (digits2_pos m) ≤ 24 ∧ -149 ≤ e).
  { unfold fexp, emin in Hc. lia. }
  cbn [to_double].
  pose proof (binary_round_widen 53 1024 s m e) as Hw. cbv zeta in Hw.
  assert (He' : fexp 53 1024 (Z.pos (digits2_pos m) + e)
                = Z.pos (digits2_pos m) + e - 53).
  { unfold fexp, emin. lia. }
  rewrite He' in Hw. rewrite Hw by lia.
  cbn [to_single].
  replace (Z.pos (digits2_pos m) + e - 53)
    with (e - Z.pos (Z.to_pos (e - (Z.pos (digits2_pos m) + e - 53))))
    at 2 by lia.
  apply binary_round_narrow; [exact Hc|exact He].
Qed.

Lemma digits2_pos_bounds (m : positive) :
  2 ^ (Z.pos (digits2_pos m) - 1) ≤ Z.pos m < 2 ^ Z.pos (digits2_pos m).
Proof.
  induction m as [m IH|m IH|]; cbn [digits2_pos]; [| |simpl; lia].
  - rewrite Pos2Z.inj_succ.
    replace (Z.succ (Z.pos (digits2_pos m)) - 1)
      with (Z.succ (Z.pos (digits2_pos m) - 1)) by lia.
    rewrite !Z.pow_succ_r by lia. lia.
  - rewrite Pos2Z.inj_succ.
    replace (Z.succ (Z.pos (digits2_pos m)) - 1)
      with (Z.succ (Z.pos (digits2_pos m) - 1)) by lia.
    rewrite !Z.pow_succ_r by lia. lia.
Qed.

Lemma small_mantissa (m : positive) :
  Z.pos m < 8388608 ↔ Z.pos (digits2_pos m) ≤ 23.
Proof.
  pose proof (digits2_pos_bounds m) as [Hlo Hhi].
  split; intros H.
  - destruct (Z.le_gt_cases (Z.pos (digits2_pos m)) 23) as [|Hgt]; [done|].
    pose proof (Z.pow_le_mono_r 2 23 (Z.pos (digits2_pos m) - 1)
                  ltac:(lia) ltac:(lia)) as Hp.
    change (2 ^ 23) with 8388608 in Hp. lia.
  - pose proof (Z.pow_le_mono_r 2 (Z.pos (digits2_pos m)) 23
                  ltac:(lia) H) as Hp.
    change (2 ^ 23) with 8388608 in Hp. lia.
Qed.

Lemma word_fields (s : bool) (ex fr : Z) :
  0 ≤ ex < 256 → 0 ≤ fr < 8388608 →
  let w := Z.lor (sign_bit s) (Z.lor (Z.shiftl ex 23) fr) in
  Z.testbit w 31 = s ∧
  Z.land (Z.shiftr w 23) 255 = ex ∧
  Z.land w 8388607 = fr.
Proof.
  intros Hex Hfr w.
  assert (Hw : w = Z.b2z s * 2147483648 + ex * 8388608 + fr).
  { subst w. unfold sign_bit.
    rewrite (lor_shiftl_low ex fr 23) by (change (2 ^ 23) with 8388608; lia).
    change (2 ^ 23) with 8388608.
    rewrite lor_shiftl_low by (change (2 ^ 31) with 2147483648; lia).
    change (2 ^ 31) with 2147483648. lia. }
  clearbody w.
  assert (Hs : 0 ≤ Z.b2z s ≤ 1) by (destruct s; simpl; lia).
  split; [|split].
  - apply Z.b2z_inj. rewrite Z.testbit_spec' by lia.
    change (2 ^ 31) with 2147483648.
    Z.div_mod_to_equations. lia.
  - change 255 with (Z.ones 8). rewrite Z.land_ones by lia.
    rewrite Z.shiftr_div_pow2 by lia.
    change (2 ^ 8) with 256. change (2 ^ 23) with 8388608.
    Z.div_mod_to_equations. lia.
  - change 8388607 with (Z.ones 23). rewrite Z.land_ones by lia.
    change (2 ^ 23) with 8388608.
    Z.div_mod_to_equations. lia.
Qed.

Lemma bits_single_bits (x : spec_float) :
  valid_binary 24 128 x = true → single_of_bits (bits_of_single x) = x.
Proof.
  destruct x as [s|s| |s m e]; try (intros _; destruct s; reflexivity).
  - reflexivity.
  - cbn [valid_binary]. unfold bounded, canonical_mantissa.
    intros [Hc He]%andb_prop.
    apply Z.eqb_eq in Hc. apply Z.leb_le in He.
    unfold fexp, emin in Hc.
    pose proof (small_mantissa m) as Hsm.
    pose proof (digits2_pos_bounds m) as Hdm.
    unfold bits_of_single.
    destruct (Z.ltb_spec (Z.pos m) 8388608) as [Hlt|Hge].
    + assert (e = -149) as -> by lia.
      pose proof (word_fields s 0 (Z.pos m) ltac:(lia) ltac:(lia)) as Hf.
      cbv zeta in Hf. change (Z.shiftl 0 23) with 0 in Hf.
      rewrite Z.lor_0_l in Hf. destruct Hf as (Hf1 & Hf2 & Hf3).
      unfold single_of_bits. rewrite Hf1, Hf2, Hf3. reflexivity.
    + assert (Hd : Z.pos (digits2_pos m) = 24) by lia.
      rewrite Hd in Hdm. change (2 ^ (24 - 1)) with 8388608 in Hdm.
      change (2 ^ 24) with 16777216 in Hdm.
      assert (Hfr : Z.land (Z.pos m) 8388607 = Z.pos m - 8388608).
      { change 8388607 with (Z.ones 23). rewrite Z.land_ones by lia.
        change (2 ^ 23) with 8388608. Z.div_mod_to_equations. lia. }
      rewrite Hfr.
      pose proof (word_fields s (e + 150) (Z.pos m - 8388608)
                    ltac:(lia) ltac:(lia)) as Hf.
      cbv zeta in Hf. destruct Hf as (Hf1 & Hf2 & Hf3).
      unfold single_of_bits. rewrite Hf1, Hf2, Hf3.
      destruct (Z.eqb_spec (e + 150) 0); [lia|].
      destruct (Z.eqb_spec (e + 150) 255); [lia|].
      rewrite Z.lor_comm.
      change 8388608 with (Z.shiftl 1 23) at 1.
      rewrite lor_shiftl_low by (change (2 ^ 23) with 8388608; lia).
      change (2 ^ 23) with 8388608.
      replace (1 * 8388608 + (Z.pos m - 8388608)) with (Z.pos m) by lia.
      replace (e + 150 - 150) with e by lia. reflexivity.
Qed.

(** *** Binary32 words *)

Lemma canonical_24 (m : positive) :
  8388608 ≤ Z.pos m < 16777216 → Z.pos (digits2_pos m) = 24.
Proof.
  intros Hm. pose proof (digits2_pos_bounds m) as [Hlo Hhi].
  pose proof (small_mantissa m) as Hsm.
  destruct (Z.le_gt_cases (Z.pos (digits2_pos m)) 24) as [Hle|Hgt]; [lia|].
  pose proof (Z.pow_le_mono_r 2 24 (Z.pos (digits2_pos m) - 1)
                ltac:(lia) ltac:(lia)) as Hp.
  change (2 ^ 24) with 16777216 in Hp. lia.
Qed.

Lemma exponent_field_range (w : Z) : 0 ≤ Z.land (Z.shiftr w 23) 255 < 256.
Proof.
  change 255 with (Z.ones 8). rewrite Z.land_ones by lia.
  apply Z.mod_pos_bound. reflexivity.
Qed.

Lemma fraction_field_range (w : Z) : 0 ≤ Z.land w 8388607 < 8388608.
Proof.
  change 8388607 with (Z.ones 23). rewrite Z.land_ones by lia.
  apply Z.mod_pos_bound. reflexivity.
Qed.

Lemma implicit_bit (fr : Z) :
  0 ≤ fr < 8388608 → Z.lor fr 8388608 = 8388608 + fr.
Proof.
  intros Hfr. rewrite Z.lor_comm. change 8388608 with (Z.shiftl 1 23) at 1.
  rewrite lor_shiftl_low by (change (2 ^ 23) with 8388608; lia).
  change (2 ^ 23) with 8388608. lia.
Qed.

(** Every 32-bit word is a binary32 value. *)
Lemma single_of_bits_valid (w : Z) :
  valid_binary 24 128 (single_of_bits w) = true.
Proof.
  unfold single_of_bits.
  pose proof (exponent_field_range w) as Hex.
  pose proof (fraction_field_range w) as Hfr.
  set (ex := Z.land (Z.shiftr w 23) 255) in *.
  set (fr := Z.land w 8388607) in *.
  destruct (Z.eqb_spec ex 0) as [He0|He0].
  { destruct fr as [|m|m] eqn:Hm; try reflexivity.
    cbn [valid_binary]. unfold bounded, canonical_mantissa, fexp, emin.
    pose proof (proj1 (small_mantissa m) ltac:(lia)).
    apply andb_true_intro. split; [apply Z.eqb_eq|apply Z.leb_le]; lia. }
  destruct (Z.eqb_spec ex 255) as [He1|He1].
  { destruct (fr =? 0); reflexivity. }
  rewrite (implicit_bit fr Hfr).
  destruct (8388608 + fr) as [|m|m] eqn:Hm; try reflexivity.
  cbn [valid_binary]. unfold bounded, canonical_mantissa, fexp, emin.
  rewrite (canonical_24 m) by lia.
  apply andb_true_intro. split; [apply Z.eqb_eq|apply Z.leb_le]; lia.
Qed.

(** The words that hold a NaN: exponent field all ones, fraction not 0. *)
Lemma single_nan_fields (w : Z) :
  single_of_bits w = S754_nan ↔
  Z.land (Z.shiftr w 23) 255 = 255 ∧ Z.land w 8388607 ≠ 0.
Proof.
  unfold single_of_bits.
  pose proof (exponent_field_range w) as Hex.
  pose proof (fraction_field_range w) as Hfr.
  set (ex := Z.land (Z.shiftr w 23) 255) in *.
  set (fr := Z.land w 8388607) in *.
  destruct (Z.eqb_spec ex 0) as [He0|He0].
  { split; [|lia]. destruct fr; discriminate. }
  destruct (Z.eqb_spec ex 255) as [He1|He1].
  { destruct (Z.eqb_spec fr 0); split; try discriminate; try lia; auto. }
  rewrite (implicit_bit fr Hfr).
  split; [|lia].
  destruct (8388608 + fr) eqn:E; try discriminate; lia.
Qed.

Lemma word32_split (w : Z) :
  Z.land w 4294967295 =
    Z.b2z (Z.testbit w 31) * 2147483648
    + Z.land (Z.shiftr w 23) 255 * 8388608 + Z.land w 8388607.
Proof.
  rewrite Z.testbit_spec' by lia.
  change 4294967295 with (Z.ones 32). change 255 with (Z.ones 8).
  change 8388607 with (Z.ones 23).
  rewrite !Z.land_ones, Z.shiftr_div_pow2 by lia.
  change (2 ^ 32) with 4294967296. change (2 ^ 31) with 2147483648.
  change (2 ^ 23) with 8388608. change (2 ^ 8) with 256.
  Z.div_mod_to_equations. lia.
Qed.

Lemma word32_join (s : bool) (ex fr : Z) :
  0 ≤ ex < 256 → 0 ≤ fr < 8388608 →
  Z.lor (sign_bit s) (Z.lor (Z.shiftl ex 23) fr)
    = Z.b2z s * 2147483648 + ex * 8388608 + fr.
Proof.
  intros Hex Hfr. unfold sign_bit.
  rewrite (lor_shiftl_low ex fr 23) by (change (2 ^ 23) with 8388608; lia).
  change (2 ^ 23) with 8388608.
  assert (Hs : 0 ≤ Z.b2z s ≤ 1) by (destruct s; simpl; lia).
  rewrite lor_shiftl_low by (change (2 ^ 31) with 2147483648; lia).
  change (2 ^ 31) with 2147483648. lia.
Qed.

(** Encoding undoes decoding, on the low 32 bits of a word that holds a
    number. *)
Lemma bits_of_single_of_bits (w : Z) :
  single_of_bits w ≠ S754_nan →
  bits_of_single (single_of_bits w) = Z.land w 4294967295.
Proof.
  intros Hn. rewrite word32_split.
  pose proof (exponent_field_range w) as Hex.
  pose proof (fraction_field_range w) as Hfr.
  revert Hn. unfold single_of_bits.
  set (s := Z.testbit w 31).
  set (ex := Z.land (Z.shiftr w 23) 255) in *.
  set (fr := Z.land w 8388607) in *.
  assert (Hsign : sign_bit s = Z.b2z s * 2147483648).
  { unfold sign_bit. rewrite Z.shiftl_mul_pow2 by lia. reflexivity. }
  destruct (Z.eqb_spec ex 0) as [He0|He0].
  { intros _. rewrite He0. destruct fr as [|m|m] eqn:Hm; try lia.
    - cbn [bits_of_single]. lia.
    - cbn [bits_of_single].
      destruct (Z.ltb_spec (Z.pos m) 8388608); [|lia].
      pose proof (word32_join s 0 (Z.pos m) ltac:(lia) ltac:(lia)) as Hj.
      change (Z.shiftl 0 23) with 0 in Hj. rewrite Z.lor_0_l in Hj.
      rewrite Hj. lia. }
  destruct (Z.eqb_spec ex 255) as [He1|He1].
  { destruct (Z.eqb_spec fr 0) as [Hf|Hf]; [|congruence].
    intros _. cbn [bits_of_single]. rewrite He1, Hf.
    pose proof (word32_join s 255 0 ltac:(lia) ltac:(lia)) as Hj.
    rewrite Z.lor_0_r in Hj. exact Hj. }
  intros _. rewrite (implicit_bit fr Hfr).
  destruct (8388608 + fr) as [|m|m] eqn:Hm; try lia.
  cbn [bits_of_single].
  destruct (Z.ltb_spec (Z.pos m) 8388608); [lia|].
  replace (ex - 150 + 150) with ex by lia.
  assert (Hl : Z.land (Z.pos m) 8388607 = fr).
  { change 8388607 with (Z.ones 23). rewrite Z.land_ones by lia.
    change (2 ^ 23) with 8388608. Z.div_mod_to_equations. lia. }
  rewrite Hl. apply word32_join; lia.
Qed.

(** The bits above the 32nd do not count. *)
Lemma fields_congruent (w w' : Z) :
  (w' - w) mod 4294967296 = 0 →
  Z.testbit w' 31 = Z.testbit w 31 ∧
  Z.land (Z.shiftr w' 23) 255 = Z.land (Z.shiftr w 23) 255 ∧
  Z.land w' 8388607 = Z.land w 8388607.
Proof.
  intros Hc.
  split; [|split].
  - apply Z.b2z_inj. rewrite !Z.testbit_spec' by lia.
    change (2 ^ 31) with 2147483648. Z.div_mod_to_equations. lia.
  - change 255 with (Z.ones 8). rewrite !Z.land_ones by lia.
    rewrite !Z.shiftr_div_pow2 by lia.
    change (2 ^ 8) with 256. change (2 ^ 23) with 8388608.
    Z.div_mod_to_equations. lia.
  - change 8388607 with (Z.ones 23). rewrite !Z.land_ones by lia.
    change (2 ^ 23) with 8388608. Z.div_mod_to_equations. lia.
Qed.

Lemma c_float_value_congruent (w w' : Z) :
  (w' - w) mod 4294967296 = 0 → c_float_value w' = c_float_value w.
Proof.
  intros Hc. destruct (fields_congruent w w' Hc) as (H1 & H2 & H3).
  unfold c_float_value, single_of_bits, widen_nan.
  rewrite H1, H2, H3. reflexivity.
Qed.

(** *** Binary64 words *)

Lemma small_mantissa64 (m : positive) :
  Z.pos m < 4503599627370496 ↔ Z.pos (digits2_pos m) ≤ 52.
Proof.
  pose proof (digits2_pos_bounds m) as [Hlo Hhi].
  split; intros H.
  - destruct (Z.le_gt_cases (Z.pos (digits2_pos m)) 52) as [|Hgt]; [done|].
    pose proof (Z.pow_le_mono_r 2 52 (Z.pos (digits2_pos m) - 1)
                  ltac:(lia) ltac:(lia)) as Hp.
    change (2 ^ 52) with 4503599627370496 in Hp. lia.
  - pose proof (Z.pow_le_mono_r 2 (Z.pos (digits2_pos m)) 52
                  ltac:(lia) H) as Hp.
    change (2 ^ 52) with 4503599627370496 in Hp. lia.
Qed.

Lemma word_fields64 (s : bool) (ex fr : Z) :
  0 ≤ ex < 2048 → 0 ≤ fr < 4503599627370496 →
  let d := Z.lor (sign_bit64 s) (Z.lor (Z.shiftl ex 52) fr) in
  Z.testbit d 63 = s ∧
  Z.land (Z.shiftr d 52) 2047 = ex ∧
  Z.land d 4503599627370495 = fr.
Proof.
  intros Hex Hfr d.
  assert (Hd : d = Z.b2z s * 9223372036854775808
                   + ex * 4503599627370496 + fr).
  { subst d. unfold sign_bit64.
    rewrite (lor_shiftl_low ex fr 52)
      by (change (2 ^ 52) with 4503599627370496; lia).
    change (2 ^ 52) with 4503599627370496.
    rewrite lor_shiftl_low
      by (change (2 ^ 63) with 9223372036854775808; lia).
    change (2 ^ 63) with 9223372036854775808. lia. }
  clearbody d.
  assert (Hs : 0 ≤ Z.b2z s ≤ 1) by (destruct s; simpl; lia).
  split; [|split].
  - apply Z.b2z_inj. rewrite Z.testbit_spec' by lia.
    change (2 ^ 63) with 9223372036854775808.
    Z.div_mod_to_equations. lia.
  - change 2047 with (Z.ones 11). rewrite Z.land_ones by lia.
    rewrite Z.shiftr_div_pow2 by lia.
    change (2 ^ 11) with 2048. change (2 ^ 52) with 4503599627370496.
    Z.div_mod_to_equations. lia.
  - change 4503599627370495 with (Z.ones 52). rewrite Z.land_ones by lia.
    change (2 ^ 52) with 4503599627370496.
    Z.div_mod_to_equations. lia.
Qed.

Lemma bits_double_bits (x : spec_float) :
  valid_binary 53 1024 x = true → double_of_bits (bits_of_double x) = x.
Proof.
  destruct x as [s|s| |s m e]; try (intros _; destruct s; reflexivity).
  - reflexivity.
  - cbn [valid_binary]. unfold bounded, canonical_mantissa.
    intros [Hc He]%andb_prop.
    apply Z.eqb_eq in Hc. apply Z.leb_le in He.
    unfold fexp, emin in Hc.
    pose proof (small_mantissa64 m) as Hsm.
    pose proof (digits2_pos_bounds m) as Hdm.
    unfold bits_of_double.
    destruct (Z.ltb_spec (Z.pos m) 4503599627370496) as [Hlt|Hge].
    + assert (e = -1074) as -> by lia.
      pose proof (word_fields64 s 0 (Z.pos m) ltac:(lia) ltac:(lia)) as Hf.
      cbv zeta in Hf. change (Z.shiftl 0 52) with 0 in Hf.
      rewrite Z.lor_0_l in Hf. destruct Hf as (Hf1 & Hf2 & Hf3).
      unfold double_of_bits. rewrite Hf1, Hf2, Hf3. reflexivity.
    + assert (Hd : Z.pos (digits2_pos m) = 53) by lia.
      rewrite Hd in Hdm. change (2 ^ (53 - 1)) with 4503599627370496 in Hdm.
      change (2 ^ 53) with 9007199254740992 in Hdm.
      assert (Hfr : Z.land (Z.pos m) 4503599627370495
                    = Z.pos m - 4503599627370496).
      { change 4503599627370495 with (Z.ones 52).
        rewrite Z.land_ones by lia.
        change (2 ^ 52) with 4503599627370496.
        Z.div_mod_to_equations. lia. }
      rewrite Hfr.
      pose proof (word_fields64 s (e + 1075) (Z.pos m - 4503599627370496)
                    ltac:(lia) ltac:(lia)) as Hf.
      cbv zeta in Hf. destruct Hf as (Hf1 & Hf2 & Hf3).
      unfold double_of_bits. rewrite Hf1, Hf2, Hf3.
      destruct (Z.eqb_spec (e + 1075) 0); [lia|].
      destruct (Z.eqb_spec (e + 1075) 2047); [lia|].
      rewrite Z.lor_comm.
      change 4503599627370496 with (Z.shiftl 1 52) at 1.
      rewrite lor_shiftl_low
        by (change (2 ^ 52) with 4503599627370496; lia).
      change (2 ^ 52) with 4503599627370496.
      replace (1 * 4503599627370496 + (Z.pos m - 4503599627370496))
        with (Z.pos m) by lia.
      replace (e + 1075 - 1075) with e by lia. reflexivity.
Qed.

(** *** Widening is exact *)

Lemma to_double_finite (s : bool) (m : positive) (e : Z) :
  valid_binary 24 128 (S754_finite s m e) = true →
  to_double (S754_finite s m e) =
    S754_finite s (Pos.iter xO m (Z.to_pos (53 - Z.pos (digits2_pos m))))
      (Z.pos (digits2_pos m) + e - 53) ∧
  Z.pos (digits2_pos m) ≤ 24 ∧ -149 ≤ e ≤ 104.
Proof.
  cbn [valid_binary]. unfold bounded, canonical_mantissa.
  intros [Hc He]%andb_prop.
  apply Z.eqb_eq in Hc. apply Z.leb_le in He.
  assert (Hm : Z.pos (digits2_pos m) ≤ 24 ∧ -149 ≤ e).
  { unfold fexp, emin in Hc. lia. }
  split; [|lia].
  cbn [to_double].
  pose proof (binary_round_widen 53 1024 s m e) as Hw. cbv zeta in Hw.
  assert (He' : fexp 53 1024 (Z.pos (digits2_pos m) + e)
                = Z.pos (digits2_pos m) + e - 53).
  { unfold fexp, emin. lia. }
  rewrite He' in Hw. rewrite Hw by lia.
  f_equal. f_equal. lia.
Qed.

Lemma to_double_valid (x : spec_float) :
  valid_binary 24 128 x = true → valid_binary 53 1024 (to_double x) = true.
Proof.
  destruct x as [s|s| |s m e]; try reflexivity.
  intros Hx. destruct (to_double_finite s m e Hx) as (-> & Hm & He).
  cbn [valid_binary]. unfold bounded, canonical_mantissa, fexp, emin.
  rewrite digits2_pos_shift. rewrite Pos2Z.inj_add.
  rewrite Z2Pos.id by lia.
  apply andb_true_intro. split; [apply Z.eqb_eq|apply Z.leb_le]; lia.
Qed.

Lemma to_double_not_nan (x : spec_float) :
  valid_binary 24 128 x = true → x ≠ S754_nan → to_double x ≠ S754_nan.
Proof.
  destruct x as [s|s| |s m e]; try discriminate; [congruence|].
  intros Hx _. destruct (to_double_finite s m e Hx) as (-> & _).
  discriminate.
Qed.

(** What [c_float] stores for the Python float that holds a binary32
    number, and what [.value] reads back from those bits. *)
Lemma narrow_of_single (x : spec_float) :
  valid_binary 24 128 x = true → x ≠ S754_nan →
  narrow (bits_of_double (to_double x)) = bits_of_single x.
Proof.
  intros Hx Hn. unfold narrow.
  rewrite (bits_double_bits _ (to_double_valid x Hx)).
  pose proof (to_double_not_nan x Hx Hn) as Hd.
  destruct (to_double x) eqn:E; try congruence;
    rewrite <- E, (single_double_single x Hx); reflexivity.
Qed.

Lemma c_float_value_of_single (x : spec_float) :
  valid_binary 24 128 x = true → x ≠ S754_nan →
  c_float_value (bits_of_single x) = bits_of_double (to_double x).
Proof.
  intros Hx Hn. unfold c_float_value.
  rewrite (bits_single_bits x Hx).
  destruct x; first [reflexivity | congruence].
Qed.

(** *** NaN words *)

(** Setting the quiet bit of a 23-bit fraction. *)
Lemma quiet_bit (fr : Z) :
  0 ≤ fr < 8388608 → Z.lor 4194304 fr = 4194304 + fr mod 4194304.
Proof.
  intros Hfr.
  assert (Hh : 0 ≤ fr / 4194304 ≤ 1) by (Z.div_mod_to_equations; lia).
  pose proof (Z.mod_pos_bound fr 4194304 ltac:(lia)) as Hl.
  assert (Hsplit : fr = Z.lor (Z.shiftl (fr / 4194304) 22) (fr mod 4194304)).
  { rewrite lor_shiftl_low by (change (2 ^ 22) with 4194304; lia).
    change (2 ^ 22) with 4194304. Z.div_mod_to_equations. lia. }
  rewrite Hsplit at 1.
  change 4194304 with (Z.shiftl 1 22) at 1.
  rewrite Z.lor_assoc, <- Z.shiftl_lor.
  assert (Z.lor 1 (fr / 4194304) = 1) as ->.
  { assert (fr / 4194304 = 0 ∨ fr / 4194304 = 1) as [-> | ->] by lia;
      reflexivity. }
  rewrite lor_shiftl_low by (change (2 ^ 22) with 4194304; lia).
  change (2 ^ 22) with 4194304. lia.
Qed.

Lemma nan_round_trip (w : Z) :
  single_of_bits w = S754_nan →
  double_of_bits (c_float_value w) = S754_nan ∧
  narrow (c_float_value w) = Z.lor (Z.land w 4294967295) 4194304 ∧
  single_of_bits (narrow (c_float_value w)) = S754_nan ∧
  c_float_value (narrow (c_float_value w)) = c_float_value w.
Proof.
  intros Hnan.
  pose proof (proj1 (single_nan_fields w) Hnan) as [Hex Hfr0].
  pose proof (fraction_field_range w) as Hfr.
  assert (Hd : c_float_value w = widen_nan w).
  { unfold c_float_value. rewrite Hnan. reflexivity. }
  rewrite Hd.
  set (s := Z.testbit w 31).
  set (fr := Z.land w 8388607) in *.
  pose proof (quiet_bit fr Hfr) as Hq.
  pose proof (Z.mod_pos_bound fr 4194304 ltac:(lia)) as Hl.
  set (q := Z.lor 4194304 fr) in *.
  assert (Hqq : Z.lor 4194304 q = q).
  { rewrite quiet_bit by lia. rewrite Hq. Z.div_mod_to_equations. lia. }
  assert (Hsh : Z.shiftl q 29 = q * 536870912).
  { rewrite Z.shiftl_mul_pow2 by lia. reflexivity. }
  assert (Hw : widen_nan w
               = Z.lor (sign_bit64 s) (Z.lor (Z.shiftl 2047 52) (q * 536870912))).
  { unfold widen_nan. fold s fr q. rewrite Hsh. reflexivity. }
  destruct (word_fields64 s 2047 (q * 536870912) ltac:(lia) ltac:(lia))
    as (F1 & F2 & F3).
  rewrite <- Hw in F1, F2, F3.
  assert (Hdn : double_of_bits (widen_nan w) = S754_nan).
  { unfold double_of_bits. rewrite F2, F3. cbn [Z.eqb Pos.eqb].
    destruct (Z.eqb_spec (q * 536870912) 0); [lia|reflexivity]. }
  assert (Hn : narrow (widen_nan w)
               = Z.lor (sign_bit s) (Z.lor (Z.shiftl 255 23) q)).
  { unfold narrow. rewrite Hdn. unfold narrow_nan. rewrite F1, F3.
    rewrite Z.shiftr_div_pow2 by lia. change (2 ^ 29) with 536870912.
    rewrite Z.div_mul by lia. rewrite Hqq. reflexivity. }
  destruct (word_fields s 255 q ltac:(lia) ltac:(lia)) as (G1 & G2 & G3).
  rewrite <- Hn in G1, G2, G3.
  assert (Hsn : single_of_bits (narrow (widen_nan w)) = S754_nan).
  { apply single_nan_fields. rewrite G2, G3. split; [reflexivity|lia]. }
  split; [exact Hdn|]. split; [|split; [exact Hsn|]].
  - rewrite Hn.
    pose proof (word32_split w) as Hs. fold s fr in Hs. rewrite Hex in Hs.
    rewrite <- (word32_join s 255 fr ltac:(lia) Hfr) in Hs.
    rewrite Hs. subst q.
    rewrite <- !Z.lor_assoc. rewrite (Z.lor_comm fr 4194304). reflexivity.
  - assert (Hc : c_float_value (narrow (widen_nan w))
                 = widen_nan (narrow (widen_nan w)))
      by (unfold c_float_value; rewrite Hsn; reflexivity).
    rewrite Hc. unfold widen_nan at 1. rewrite G1, G3, Hqq.
    unfold widen_nan. reflexivity.
Qed.

(** What a getter returns is stored again as the same 32 bits, apart from
    the quiet bit of a NaN, and read again as the same float. *)
Lemma narrow_c_float_value (w : Z) :
  narrow (c_float_value w) =
    (match single_of_bits w with
     | S754_nan => Z.lor (Z.land w 4294967295) 4194304
     | _ => Z.land w 4294967295
     end) ∧
  c_float_value (narrow (c_float_value w)) = c_float_value w.
Proof.
  destruct (single_of_bits w) eqn:Hw;
    try (assert (Hn : single_of_bits w ≠ S754_nan) by congruence;
         pose proof (single_of_bits_valid w) as Hv;
         assert (Hc : c_float_value w
                      = bits_of_double (to_double (single_of_bits w)))
           by (unfold c_float_value; rewrite Hw; reflexivity);
         rewrite Hc, (narrow_of_single _ Hv Hn),
           (bits_of_single_of_bits w Hn);
         split; [reflexivity|];
         rewrite <- (bits_of_single_of_bits w Hn);
         apply (c_float_value_of_single _ Hv Hn)).
  destruct (nan_round_trip w Hw) as (_ & H1 & _ & H2). auto.
Qed.

(** ** Programs that leave [self] alone *)

Create HintDb facade.
#[local] Hint Constructors reads_only : facade.

Lemma reads_only_bind {A B : Type} (p : prog A) (f : A → prog B) :
  reads_only p → (∀ a, reads_only (f a)) → reads_only (bind p f).
Proof.
  intros Hp Hf. induction Hp; simpl; auto with facade.
Qed.

Lemma reads_only_lift {A : Type} (r : result A) : reads_only (lift r).
Proof. destruct r; constructor. Qed.

Lemma reads_only_encode v : reads_only (AttoDRY.encode v).
Proof.
  destruct v; simpl; try constructor.
  destruct (utf8_encode s); constructor.
Qed.

Lemma reads_only_decode b : reads_only (AttoDRY.decode b).
Proof. unfold AttoDRY.decode. destruct (utf8_decode b); constructor. Qed.

Lemma reads_only_create_string_buffer v :
  reads_only (create_string_buffer v).
Proof.
  unfold create_string_buffer.
  destruct v; simpl; repeat constructor.
  - destruct ((_ <? _) || (_ <=? _)); [constructor|].
    destruct (_ <? 0); repeat constructor.
  - destruct ((_ <? _) || (_ <=? _)); [constructor|].
    destruct (_ <? 0); repeat constructor.
Qed.

#[local] Hint Resolve reads_only_lift reads_only_encode reads_only_decode
  : facade.

Ltac reads_only_steps :=
  repeat first
    [ apply reads_only_bind
    | apply reads_only_create_string_buffer
    | apply reads_only_lift
    | apply reads_only_encode
    | apply reads_only_decode
    | constructor
    | intro ].

(** No method other than the constructor assigns an attribute. *)
Lemma invoke_reads_only (i : AttoDRY.invocation) :
  reads_only (AttoDRY.invoke i).
Proof.
  destruct i; cbv [AttoDRY.invoke];
    try (constructor; intros; constructor);
    cbv [AttoDRY.begin AttoDRY.Connect AttoDRY.end_ AttoDRY.getActionMessage
         AttoDRY.getAttodryErrorMessage AttoDRY.write_c_float
         AttoDRY.isDeviceConnected AttoDRY.Disconnect AttoDRY.forward
         AttoDRY.read_c_int
         AttoDRY.setUserMagneticField AttoDRY.setUserTemperature
         AttoDRY.setDerivativeGain AttoDRY.setIntegralGain
         AttoDRY.setProportionalGain AttoDRY.setSampleHeaterMaximumPower
         AttoDRY.setSampleHeaterWireResistance AttoDRY.setSampleHeaterPower
         AttoDRY.setSampleHeaterResistance AttoDRY.setVTIHeaterPower
         AttoDRY.setReservoirTsetWarmMagnet
         AttoDRY.setReservoirTsetColdSample
         AttoDRY.setReservoirTsetWarmSample
         AttoDRY.downloadSampleTemperatureSensorCalibrationCurve
         AttoDRY.downloadTemperatureSensorCalibrationCurve
         AttoDRY.startLogging
         AttoDRY.uploadSampleTemperatureCalibrationCurve
         AttoDRY.uploadTemperatureCalibrationCurve
         mbind prog_bind];
    reads_only_steps.
  destruct (truthy a); reads_only_steps.
Qed.

Section Frame.
Variable drv : adryLib.Driver.

Lemma run_reads_only {A : Type} (p : prog A) :
  reads_only p →
  ∀ self d, object (run drv p self d) = self.
Proof.
  induction 1 as [a|e|name k Hk IH|n k Hk IH|c k Hk IH];
    intros self d; simpl; auto.
  - destruct (self !! name); auto.
  - destruct (adryLib.fits drv n); auto.
  - destruct (adryLib.handle drv c d) as [r d']. simpl. apply IH.
Qed.

Lemma invoke_keeps_self (i : AttoDRY.invocation) self d :
  object (run drv (AttoDRY.invoke i) self d) = self.
Proof. apply run_reads_only, invoke_reads_only. Qed.

Lemma session_keeps_self (ops : list AttoDRY.invocation) :
  ∀ self d, (session drv ops self d).1 = self.
Proof.
  induction ops as [|i rest IH]; intros self d; simpl; [done|].
  rewrite IH. apply invoke_keeps_self.
Qed.
End Frame.

(** Name what the driver answers to the next call of the goal. *)
Ltac ask_driver :=
  match goal with
  | |- context [adryLib.handle ?drv ?c ?d] =>
      let r := fresh "r" in
      let d' := fresh "d" in
      destruct (adryLib.handle drv c d) as [r d']; simpl in r; simpl
  end.

(** ** Lifecycle *)

(** C1. Whatever the driver and the object: when [isDeviceConnected()]
    reports a true value, [end()] asks the driver for the connection state,
    calls [Disconnect] exactly once and then the driver's [end]; when it
    reports a false value, [end()] goes to the driver's [end] without any
    [Disconnect]. In both cases [end()] returns [None]. *)
Theorem end_disconnects_iff_connected (drv : adryLib.Driver)
    (self : gmap string pyval) (d : adryLib.dstate drv) (v : pyval) :
  outcome (run drv AttoDRY.isDeviceConnected self d) = Returns v →
  let s := run drv AttoDRY.end_ self d in
  outcome s = Returns PyNone ∧
  calls s =
    (if truthy v
     then [adryLib.call_reader adryLib.isDeviceConnected adryLib.int_cell 0;
           adryLib.call_command adryLib.Disconnect;
           adryLib.call_command adryLib.end_]
     else [adryLib.call_reader adryLib.isDeviceConnected adryLib.int_cell 0;
           adryLib.call_command adryLib.end_]) ∧
  length (filter (λ c, is_Disconnect c = true) (calls s)) =
    (if truthy v then 1%nat else 0%nat).
Proof.
  cbv [AttoDRY.isDeviceConnected AttoDRY.end_ AttoDRY.read_c_int
       AttoDRY.Disconnect AttoDRY.forward mbind prog_bind].
  simpl.
  ask_driver. intros [= <-].
  unfold truthy. destruct (c_int_value r =? 0); simpl; repeat ask_driver;
    repeat split; reflexivity.
Qed.

Lemma end_disconnects_iff_connected_witness :
  let d := snd (mock_handle (adryLib.call_Connect []) idle) in
  let s := run mock_driver AttoDRY.end_ ∅ d in
  outcome (run mock_driver AttoDRY.isDeviceConnected ∅ d)
    = Returns (PyInt 1) ∧
  outcome s = Returns PyNone ∧
  calls s = [adryLib.call_reader adryLib.isDeviceConnected adryLib.int_cell 0;
             adryLib.call_command adryLib.Disconnect;
             adryLib.call_command adryLib.end_] ∧
  length (filter (λ c, is_Disconnect c = true) (calls s)) = 1%nat.
Proof.
  split; [reflexivity|].
  exact (end_disconnects_iff_connected mock_driver ∅
           (snd (mock_handle (adryLib.call_Connect []) idle)) (PyInt 1)
           eq_refl).
Defined.

(** ** Telemetry getters *)

(** C2, as the code has it. A telemetry getter never looks at the lifecycle:
    in every state of the object and of the driver it calls its own entry
    point once, with a cell whose 32 bits are clear, and returns the float
    the driver left in the cell. *)
Theorem telemetry_getter_forwards (drv : adryLib.Driver)
    (i : AttoDRY.invocation) (f : adryLib.reader)
    (self : gmap string pyval) (d : adryLib.dstate drv) :
  AttoDRY.telemetry_entry i = Some f →
  let r :=
    adryLib.handle drv (adryLib.call_reader f adryLib.float_cell 0) d in
  run drv (AttoDRY.invoke i) self d =
    {| outcome := Returns (PyFloat (c_float_value r.1));
       object := self;
       driver := r.2;
       calls := [adryLib.call_reader f adryLib.float_cell 0] |}.
Proof.
  destruct i; simpl; intros [= <-]; ask_driver; reflexivity.
Qed.

Lemma telemetry_getter_forwards_witness :
  AttoDRY.telemetry_entry AttoDRY.do_getSampleTemperature
    = Some adryLib.getSampleTemperature ∧
  run mock_driver AttoDRY.getSampleTemperature ∅ idle =
    {| outcome := Returns (PyFloat 4616471093031469056);
       object := ∅;
       driver := idle;
       calls := [adryLib.call_reader adryLib.getSampleTemperature
                   adryLib.float_cell 0] |}.
Proof.
  split; [reflexivity|].
  exact (telemetry_getter_forwards mock_driver AttoDRY.do_getSampleTemperature
           adryLib.getSampleTemperature ∅ idle eq_refl).
Defined.

(** C2, as stated, fails. On a facade that was only constructed, and again
    after [begin()] alone, [getSampleTemperature()] reaches the driver and
    returns 4.25 instead of raising [NotInitialized] or [NotConnected]. *)
Lemma telemetry_getter_ignores_lifecycle :
  let self := constructed ATTODRY2100 (text "COM5") in
  let fresh := run mock_driver AttoDRY.getSampleTemperature self idle in
  let started := run mock_driver AttoDRY.begin self idle in
  let later :=
    run mock_driver AttoDRY.getSampleTemperature
      (object started) (driver started) in
  ¬ (outcome fresh = Raises NotInitialized ∧ calls fresh = []) ∧
  ¬ (outcome later = Raises NotConnected ∧ calls later = []) ∧
  begun (driver started) = true ∧
  connected (driver started) = false ∧
  calls fresh = [adryLib.call_reader adryLib.getSampleTemperature
                   adryLib.float_cell 0] ∧
  calls later = [adryLib.call_reader adryLib.getSampleTemperature
                   adryLib.float_cell 0].
Proof.
  repeat split; try reflexivity; intros [H _]; discriminate H.
Qed.

(** ** Diagnostics *)

(** C9. [getActionMessage(length)] and [getAttodryErrorMessage(length)] are
    the same program: for every driver, every state and every [length]
    (given or defaulted) they make the same call and end in the same state
    with the same result. *)
Theorem getActionMessage_is_getAttodryErrorMessage (drv : adryLib.Driver)
    (length : option pyval) (self : gmap string pyval)
    (d : adryLib.dstate drv) :
  run drv (AttoDRY.getActionMessage length) self d =
  run drv (AttoDRY.getAttodryErrorMessage length) self d.
Proof. reflexivity. Qed.

Lemma fits_small (drv : adryLib.Driver) (n : Z) :
  n < 2147483648 → adryLib.fits drv n = true.
Proof. unfold adryLib.fits. intros Hn. apply Z.ltb_lt. lia. Qed.

(** With a length the host grants, a diagnostic makes one call, with the
    zeroed buffer and the length as a C [int], and decodes the value of the
    buffer. *)
Lemma run_message (drv : adryLib.Driver) (n : Z)
    (self : gmap string pyval) (d : adryLib.dstate drv) :
  0 ≤ n < 9223372036854775808 →
  adryLib.fits drv n = true →
  let buffer := replicate (Z.to_nat n) Byte.x00 in
  let c :=
    adryLib.call_message adryLib.getAttodryErrorMessage buffer
      (c_int_value (Z.land n 4294967295)) in
  let r := adryLib.handle drv c d in
  run drv (AttoDRY.getAttodryErrorMessage (Some (PyInt n))) self d =
    {| outcome :=
         match utf8_decode (array_value buffer r.1) with
         | Some s => Returns (PyStr s)
         | None => Raises UnicodeDecodeError
         end;
       object := self;
       driver := r.2;
       calls := [c] |}.
Proof.
  intros Hn Hfits.
  cbv [AttoDRY.getAttodryErrorMessage create_string_buffer c_int as_int
       default id mbind prog_bind lift].
  destruct (Z.ltb_spec n (-9223372036854775808)); [lia|].
  destruct (Z.leb_spec 9223372036854775808 n); [lia|].
  destruct (Z.ltb_spec n 0); [lia|].
  cbn [orb bind run]. rewrite Hfits. cbn [bind run].
  ask_driver. unfold AttoDRY.decode.
  destruct (utf8_decode _); reflexivity.
Qed.

(** The value of a character array: when the array holds [b ++ junk] after
    the call, where [b] has no NUL and [junk] is empty or starts with NUL,
    the value is [b]. *)
Lemma array_value_prefix (buffer written b junk : list byte) :
  take (length buffer) written = b ++ junk →
  no_nul b →
  junk = [] ∨ head junk = Some Byte.x00 →
  array_value buffer written = b.
Proof.
  unfold array_value. intros -> Hb [->|Hj].
  - rewrite app_nil_r. apply c_string_no_nul, Hb.
  - destruct junk as [|x junk]; [discriminate|].
    injection Hj as ->. apply c_string_text, Hb.
Qed.

(** C7, as the code has it. Without a length argument, both text-returning
    diagnostics hand the driver a buffer of 500 NUL bytes together with the
    length 500. What they return is the C string the buffer holds after the
    call, decoded as UTF-8: the bytes [b] before the first NUL, or all 500
    bytes when none is NUL. Whatever follows the first NUL is dropped. When
    [b] is the UTF-8 encoding of [s] the result is [s]; bytes that are not
    UTF-8 raise [UnicodeDecodeError]: a string is returned exactly when [b]
    is its UTF-8 encoding, and the exception is raised exactly when [b] is
    the encoding of no string. *)
Theorem diagnostics_use_500_byte_buffer (drv : adryLib.Driver)
    (self : gmap string pyval) (d : adryLib.dstate drv)
    (b junk : list byte) :
  let buffer := replicate 500 Byte.x00 in
  let c :=
    adryLib.call_message adryLib.getAttodryErrorMessage buffer 500 in
  let r := adryLib.handle drv c d in
  take 500 r.1 = b ++ junk →
  no_nul b →
  junk = [] ∨ head junk = Some Byte.x00 →
  let expected :=
    {| outcome :=
         match utf8_decode b with
         | Some s => Returns (PyStr s)
         | None => Raises UnicodeDecodeError
         end;
       object := self;
       driver := r.2;
       calls := [c] |} in
  length buffer = 500%nat ∧
  run drv (AttoDRY.getActionMessage None) self d = expected ∧
  run drv (AttoDRY.getAttodryErrorMessage None) self d = expected ∧
  (∀ s, outcome expected = Returns (PyStr s) ↔ utf8_encode s = Some b) ∧
  (outcome expected = Raises UnicodeDecodeError ↔
   ∀ s, utf8_encode s ≠ Some b).
Proof.
  intros buffer c r Hr Hb Hj expected.
  assert (Hrun : run drv (AttoDRY.getAttodryErrorMessage None) self d
                 = expected).
  { pose proof (run_message drv 500 self d ltac:(lia)
                  (fits_small drv 500 ltac:(lia))) as H.
    cbv zeta in H. change (Z.to_nat 500) with 500%nat in H.
    change (c_int_value (Z.land 500 4294967295)) with 500 in H.
    fold buffer in H. fold c in H. fold r in H.
    rewrite (array_value_prefix buffer r.1 b junk Hr Hb Hj) in H.
    exact H. }
  split; [reflexivity|].
  split; [exact Hrun|]. split; [exact Hrun|].
  cbn [outcome expected].
  destruct (utf8_decode b) as [s0|] eqn:Hd.
  - apply utf8_encode_decode in Hd. split.
    + intros s. split.
      * intros [= <-]. exact Hd.
      * intros Hs. apply utf8_decode_encode in Hs.
        pose proof (utf8_decode_encode s0 b Hd) as Hd'.
        congruence.
    + split; [discriminate|]. intros H. destruct (H s0 Hd).
  - split.
    + intros s. split; [discriminate|].
      intros Hs. apply utf8_decode_encode in Hs. congruence.
    + split; [|reflexivity].
      intros _ s Hs. apply utf8_decode_encode in Hs. congruence.
Qed.

Lemma diagnostics_use_500_byte_buffer_witness :
  let buffer := replicate 500 Byte.x00 in
  let c :=
    adryLib.call_message adryLib.getAttodryErrorMessage buffer 500 in
  let b := ascii_bytes "No error" in
  take 500 (adryLib.handle mock_driver c idle).1
    = b ++ replicate 492 Byte.x00 ∧
  no_nul b ∧
  utf8_encode (text "No error") = Some b ∧
  run mock_driver (AttoDRY.getActionMessage None) ∅ idle =
    {| outcome := Returns (PyStr (text "No error"));
       object := ∅; driver := idle; calls := [c] |}.
Proof.
  pose proof (diagnostics_use_500_byte_buffer mock_driver ∅ idle
                (ascii_bytes "No error") (replicate 492 Byte.x00)
                eq_refl ltac:(repeat constructor) (or_intror eq_refl))
    as (_ & H & _).
  split; [reflexivity|]. split; [repeat constructor|].
  split; [reflexivity|]. exact H.
Defined.

(** C7, as stated, fails. After the call the 500 bytes of the buffer are
    "No error" and 492 NUL bytes; decoded as UTF-8 they are a string of 500
    characters. The diagnostic returns the 8 characters before the first
    NUL. *)
Lemma diagnostic_stops_at_first_NUL :
  let buffer := replicate 500 Byte.x00 in
  let c :=
    adryLib.call_message adryLib.getAttodryErrorMessage buffer 500 in
  let content := (adryLib.handle mock_driver c idle).1 in
  let s := run mock_driver (AttoDRY.getAttodryErrorMessage None) ∅ idle in
  length content = 500%nat ∧
  utf8_decode content = Some (text "No error" ++ replicate 492 0) ∧
  outcome s = Returns (PyStr (text "No error")) ∧
  outcome s ≠ Returns (PyStr (text "No error" ++ replicate 492 0)).
Proof.
  repeat split; try reflexivity. intros H. discriminate H.
Qed.

(** C3 fails on the code. The driver is started and connected through the
    facade; its action message is "Cooling down" and its error message is
    "No error". [getActionMessage()] asks for the error message and returns
    "No error". *)
Theorem getActionMessage_returns_error_message :
  let st :=
    session mock_driver [AttoDRY.do_begin; AttoDRY.do_Connect]
      (constructed ATTODRY2100 (text "COM5")) idle in
  let s := run mock_driver (AttoDRY.getActionMessage None) st.1 st.2 in
  begun st.2 = true ∧
  connected st.2 = true ∧
  outcome (run mock_driver AttoDRY.isDeviceConnected st.1 st.2)
    = Returns (PyInt 1) ∧
  action_message st.2 = ascii_bytes "Cooling down" ∧
  error_message st.2 = ascii_bytes "No error" ∧
  outcome s = Returns (PyStr (text "No error")) ∧
  outcome s ≠ Returns (PyStr (text "Cooling down")) ∧
  calls s = [adryLib.call_message adryLib.getAttodryErrorMessage
               (replicate 500 Byte.x00) 500].
Proof.
  vm_compute. repeat split; try reflexivity. intros H. discriminate H.
Qed.

(** C10. [getBreakVac800Valve()] makes one call, to the driver's
    [getTurbopumpFrequency], with the address of a zeroed [int] cell, and
    returns the integer [v] the driver left there: the word read as a signed
    32-bit number, so [v] is the word itself when that fits a C [int], and
    congruent to it modulo 2^32 in any case. [getTurbopumpFrequency()] calls
    the same entry point with a zeroed [float] cell and returns its content
    as a float. The driver sees an address, not the type of the cell: when it
    answers both calls alike, the frequency read is the binary32 number
    whose 32 bits are [v]. *)
Theorem getBreakVac800Valve_reads_turbopump_frequency (drv : adryLib.Driver)
    (self : gmap string pyval) (d : adryLib.dstate drv) :
  let c :=
    adryLib.call_reader adryLib.getTurbopumpFrequency adryLib.int_cell 0 in
  let c' :=
    adryLib.call_reader adryLib.getTurbopumpFrequency adryLib.float_cell 0 in
  let r := adryLib.handle drv c d in
  let r' := adryLib.handle drv c' d in
  let v := c_int_value r.1 in
  run drv AttoDRY.getBreakVac800Valve self d =
    {| outcome := Returns (PyInt v);
       object := self; driver := r.2; calls := [c] |} ∧
  -2147483648 ≤ v < 2147483648 ∧
  (v - r.1) mod 4294967296 = 0 ∧
  (-2147483648 ≤ r.1 < 2147483648 → v = r.1) ∧
  run drv AttoDRY.getTurbopumpFrequency self d =
    {| outcome := Returns (PyFloat (c_float_value r'.1));
       object := self; driver := r'.2; calls := [c'] |} ∧
  (r' = r →
   run drv AttoDRY.getTurbopumpFrequency self d =
     {| outcome := Returns (PyFloat (c_float_value v));
        object := self; driver := r.2; calls := [c'] |}).
Proof.
  intros c c' r r' v.
  assert (Hf : run drv AttoDRY.getTurbopumpFrequency self d =
               {| outcome := Returns (PyFloat (c_float_value r'.1));
                  object := self; driver := r'.2; calls := [c'] |}).
  { cbv [AttoDRY.getTurbopumpFrequency AttoDRY.read_c_float].
    cbn [bind run]. subst r' c'. ask_driver. reflexivity. }
  split.
  { cbv [AttoDRY.getBreakVac800Valve AttoDRY.read_c_int].
    cbn [bind run]. subst v r c. ask_driver. reflexivity. }
  split; [apply c_int_value_range|].
  split; [apply c_int_value_congruent|].
  split; [apply c_int_value_id|].
  split; [exact Hf|].
  intros Hr. rewrite Hf, Hr. f_equal. f_equal. f_equal.
  symmetry. apply c_float_value_congruent, c_int_value_congruent.
Qed.

Lemma getBreakVac800Valve_reads_turbopump_frequency_witness :
  let c :=
    adryLib.call_reader adryLib.getTurbopumpFrequency adryLib.int_cell 0 in
  let c' :=
    adryLib.call_reader adryLib.getTurbopumpFrequency adryLib.float_cell 0 in
  adryLib.handle mock_driver c' idle = adryLib.handle mock_driver c idle ∧
  run mock_driver AttoDRY.getBreakVac800Valve ∅ idle =
    {| outcome := Returns (PyInt 1148846080);
       object := ∅; driver := idle; calls := [c] |} ∧
  run mock_driver AttoDRY.getTurbopumpFrequency ∅ idle =
    {| outcome := Returns (PyFloat 4652007308841189376);
       object := ∅; driver := idle; calls := [c'] |}.
Proof.
  pose proof (getBreakVac800Valve_reads_turbopump_frequency
                mock_driver ∅ idle) as (Hv & _ & _ & _ & _ & Hf).
  split; [reflexivity|]. split; [exact Hv|]. exact (Hf eq_refl).
Defined.

(** ** Device variants *)

(** C4, as the code has it. An operation documented for one variant only is
    forwarded on a facade of any variant: the run does not depend on the
    variant, makes exactly one driver call and returns normally. *)
Theorem restricted_operation_is_forwarded (drv : adryLib.Driver)
    (i : AttoDRY.invocation) (only : Devices) (v : Devices)
    (com_port : pystr) (d : adryLib.dstate drv) :
  AttoDRY.restricted_to i = Some only →
  let s := run drv (AttoDRY.invoke i) (constructed v com_port) d in
  (∃ c x, calls s = [c] ∧ outcome s = Returns x) ∧
  outcome s ≠ Raises UnsupportedForVariant ∧
  (outcome s, driver s, calls s) =
    (let s' := run drv (AttoDRY.invoke i) (constructed only com_port) d in
     (outcome s', driver s', calls s')).
Proof.
  destruct i; simpl; intros [= <-];
    cbv [AttoDRY.forward AttoDRY.read_c_int AttoDRY.read_c_float
         AttoDRY.getCryostatInPressure AttoDRY.getCryostatInValve
         AttoDRY.getCryostatOutValve AttoDRY.getDumpInValve
         AttoDRY.getDumpOutValve AttoDRY.getDumpPressure
         AttoDRY.getReservoirHeaterPower AttoDRY.getReservoirTemperature
         AttoDRY.toggleCryostatInValve AttoDRY.toggleCryostatOutValve
         AttoDRY.toggleDumpInValve AttoDRY.toggleDumpOutValve
         AttoDRY.get40KStageTemperature AttoDRY.getHeliumValve
         AttoDRY.getInnerVolumeValve AttoDRY.getOuterVolumeValve
         AttoDRY.getPressure AttoDRY.getPumpValve
         AttoDRY.getTurbopumpFrequency AttoDRY.toggleHeliumValve
         AttoDRY.toggleInnerVolumeValve AttoDRY.toggleOuterVolumeValve
         AttoDRY.togglePumpValve AttoDRY.getBreakVac800Valve
         AttoDRY.toggleSampleSpace800Valve AttoDRY.getPump800Valve
         AttoDRY.getSampleSpace800Valve AttoDRY.togglePump800Valve
         AttoDRY.toggleBreakVac800Valve AttoDRY.getPressure800
         AttoDRY.GetTurbopumpFrequ800];
    simpl; ask_driver; (split; [eauto|split; [discriminate|reflexivity]]).
Qed.

Lemma restricted_operation_is_forwarded_witness :
  AttoDRY.restricted_to AttoDRY.do_toggleHeliumValve = Some ATTODRY1100 ∧
  let s := run mock_driver AttoDRY.toggleHeliumValve
             (constructed ATTODRY2100 (text "COM5")) idle in
  (∃ c x, calls s = [c] ∧ outcome s = Returns x) ∧
  outcome s ≠ Raises UnsupportedForVariant.
Proof.
  split; [reflexivity|].
  pose proof (restricted_operation_is_forwarded mock_driver
                AttoDRY.do_toggleHeliumValve ATTODRY1100 ATTODRY2100
                (text "COM5") idle eq_refl) as H.
  split; apply H.
Defined.

(** C4, as stated, fails. [toggleHeliumValve()] is documented for the
    attoDRY1100 only; on a facade constructed for the attoDRY2100 it returns
    [None] after the driver received the call. *)
Lemma toggleHeliumValve_on_other_variant :
  let s := run mock_driver AttoDRY.toggleHeliumValve
             (constructed ATTODRY2100 (text "COM5")) idle in
  AttoDRY.restricted_to AttoDRY.do_toggleHeliumValve = Some ATTODRY1100 ∧
  ¬ (outcome s = Raises UnsupportedForVariant ∧ calls s = []) ∧
  outcome s = Returns PyNone ∧
  calls s = [adryLib.call_command adryLib.toggleHeliumValve].
Proof.
  repeat split; try reflexivity. intros [H _]. discriminate H.
Qed.

(** ** Calibration curves *)

Lemma run_upload (drv : adryLib.Driver) (self : gmap string pyval)
    (d : adryLib.dstate drv) (loadpath : pystr) (path : list byte) (n : Z) :
  utf8_encode loadpath = Some path →
  let c :=
    adryLib.call_uploadTemperatureCalibrationCurve
      (c_int_value (Z.land n 4294967295)) (c_string path) in
  run drv
    (AttoDRY.uploadTemperatureCalibrationCurve (PyStr loadpath) (PyInt n))
    self d =
    {| outcome := Returns PyNone; object := self;
       driver := (adryLib.handle drv c d).2; calls := [c] |}.
Proof.
  intros Hp.
  cbv [AttoDRY.uploadTemperatureCalibrationCurve AttoDRY.encode c_int as_int
       mbind prog_bind lift].
  rewrite Hp. simpl. ask_driver. reflexivity.
Qed.

(** C6, as the code has it. For every curve number that fits a C [int],
    inside or outside 1..8, and every path that can be encoded,
    [uploadTemperatureCalibrationCurve] makes one driver call and returns
    [None]. The call carries that number and the C string of the encoded
    path: its UTF-8 bytes before the first NUL, which are all its UTF-8
    bytes when the path has no NUL character. *)
Theorem upload_forwards_any_curve_number (drv : adryLib.Driver)
    (self : gmap string pyval) (d : adryLib.dstate drv)
    (loadpath : pystr) (path : list byte) (n : Z) :
  utf8_encode loadpath = Some path →
  -2147483648 ≤ n < 2147483648 →
  let c :=
    adryLib.call_uploadTemperatureCalibrationCurve n (c_string path) in
  run drv
    (AttoDRY.uploadTemperatureCalibrationCurve (PyStr loadpath) (PyInt n))
    self d =
    {| outcome := Returns PyNone; object := self;
       driver := (adryLib.handle drv c d).2; calls := [c] |} ∧
  (Forall (λ c, c ≠ 0) loadpath → c_string path = path) ∧
  (∀ before after : pystr, ∀ b : list byte,
     loadpath = before ++ 0 :: after →
     Forall (λ c, c ≠ 0) before →
     utf8_encode before = Some b →
     c_string path = b).
Proof.
  intros Hp Hn. split; [|split].
  - rewrite (run_upload drv self d loadpath path n Hp).
    rewrite (c_int_value_in_range n Hn). reflexivity.
  - intros Hs. apply c_string_no_nul.
    exact (utf8_encode_no_nul loadpath path Hp Hs).
  - intros before after b -> Hbefore Hb.
    destruct (utf8_encode (0 :: after)) as [rest|] eqn:Hrest.
    + rewrite (utf8_encode_app before (0 :: after) b rest Hb Hrest) in Hp.
      injection Hp as <-.
      cbn [utf8_encode] in Hrest.
      change (utf8_encode_cp 0) with (Some [Byte.x00]) in Hrest.
      destruct (utf8_encode after) as [ba|]; [|discriminate].
      injection Hrest as <-. cbn [app].
      apply c_string_text. exact (utf8_encode_no_nul before b Hb Hbefore).
    + exfalso. revert Hp Hrest Hb. clear. revert b path.
      induction before as [|c0 s IH]; intros b path; cbn [app].
      * intros Hp Hrest. rewrite Hp in Hrest. discriminate.
      * cbn [utf8_encode].
        destruct (utf8_encode_cp c0); [|discriminate].
        destruct (utf8_encode (s ++ 0 :: after)) as [x|] eqn:Hx;
          [|discriminate].
        destruct (utf8_encode s) as [y|] eqn:Hy; [|discriminate].
        intros _ Hrest _. exact (IH y x eq_refl Hrest eq_refl).
Qed.

Lemma upload_forwards_any_curve_number_witness :
  utf8_encode (text "a.crv") = Some (ascii_bytes "a.crv") ∧
  -2147483648 ≤ 9 < 2147483648 ∧
  run mock_driver
    (AttoDRY.uploadTemperatureCalibrationCurve
       (PyStr (text "a.crv")) (PyInt 9)) ∅ idle =
    {| outcome := Returns PyNone; object := ∅; driver := idle;
       calls := [adryLib.call_uploadTemperatureCalibrationCurve 9
                   (ascii_bytes "a.crv")] |}.
Proof.
  split; [reflexivity|]. split; [lia|].
  apply (upload_forwards_any_curve_number mock_driver ∅ idle
           (text "a.crv") (ascii_bytes "a.crv") 9); [reflexivity|lia].
Defined.

(** C6, as stated, fails. The curve numbers 9 and 0 are outside 1..8 and both
    are passed on to the driver; the method returns [None]. *)
Lemma upload_accepts_curve_number_out_of_range :
  let upload n :=
    run mock_driver
      (AttoDRY.uploadTemperatureCalibrationCurve
         (PyStr (text "a.crv")) (PyInt n)) ∅ idle in
  ¬ (1 ≤ 9 ≤ 8) ∧ ¬ (1 ≤ 0 ≤ 8) ∧
  outcome (upload 9) = Returns PyNone ∧
  calls (upload 9) =
    [adryLib.call_uploadTemperatureCalibrationCurve 9 (ascii_bytes "a.crv")] ∧
  outcome (upload 0) = Returns PyNone ∧
  calls (upload 0) =
    [adryLib.call_uploadTemperatureCalibrationCurve 0 (ascii_bytes "a.crv")].
Proof.
  repeat split; try reflexivity; lia.
Qed.

(** ** The attributes of the facade *)

(** C8. After construction the object has the two attributes
    [setup_version] and [com_port] and no other. Whatever methods a client
    then calls, in whatever order, with whatever arguments and against
    whatever driver, the attributes of the object stay exactly those, with
    the values given at construction. *)
Theorem facade_attributes_are_frozen (drv : adryLib.Driver)
    (setup_version com_port : pyval) (ops : list AttoDRY.invocation)
    (d0 d : adryLib.dstate drv) :
  let self :=
    object (run drv (AttoDRY.__init__ setup_version com_port) ∅ d0) in
  let self' := (session drv ops self d).1 in
  self' = self ∧
  self' !! "setup_version" = Some setup_version ∧
  self' !! "com_port" = Some com_port ∧
  dom self' = ({["setup_version"; "com_port"]} : gset string).
Proof.
  intros self self'. subst self'.
  rewrite session_keeps_self. subst self. simpl.
  split; [reflexivity|].
  split; [by simplify_map_eq|].
  split; [by simplify_map_eq|].
  rewrite !dom_insert_L, dom_empty_L. set_solver.
Qed.

(** ** The user temperature *)

Lemma mock_pass_through : pass_through mock_driver.
Proof. intros d x cell. reflexivity. Qed.

(** C5, as the code has it. Against a driver that is a pass-through store,
    for every binary32 number [x] (a finite number, a zero or an infinity),
    setting the user temperature to the Python float that holds [x] and
    reading it back returns that same float; the driver receives the 32 bits
    of [x] and is asked once for them. *)
Theorem user_temperature_round_trip (drv : adryLib.Driver)
    (self : gmap string pyval) (d : adryLib.dstate drv) (x : spec_float) :
  pass_through drv →
  valid_binary 24 128 x = true →
  x ≠ S754_nan →
  let V := PyFloat (bits_of_double (to_double x)) in
  let s := run drv (set_then_get_user_temperature V) self d in
  outcome s = Returns V ∧
  calls s = [adryLib.call_setter adryLib.setUserTemperature (bits_of_single x);
             adryLib.call_reader adryLib.getUserTemperature
               adryLib.float_cell 0].
Proof.
  intros Hpass Hx Hnan.
  cbv [set_then_get_user_temperature AttoDRY.setUserTemperature
       AttoDRY.getUserTemperature AttoDRY.write_c_float AttoDRY.read_c_float
       c_float mbind prog_bind lift].
  rewrite (narrow_of_single x Hx Hnan). cbn [bind run].
  pose proof (Hpass d (bits_of_single x) 0) as Hget.
  destruct (adryLib.handle drv
              (adryLib.call_setter adryLib.setUserTemperature
                 (bits_of_single x)) d) as [r d1].
  cbn [fst snd] in Hget. cbn [bind run outcome calls driver object].
  destruct (adryLib.handle drv
              (adryLib.call_reader adryLib.getUserTemperature
                 adryLib.float_cell 0) d1)
    as [w d2].
  cbn [fst snd] in Hget. subst w.
  cbn [bind run outcome calls driver object app].
  rewrite (c_float_value_of_single x Hx Hnan). split; reflexivity.
Qed.

Lemma user_temperature_round_trip_witness :
  pass_through mock_driver ∧
  valid_binary 24 128 half_single = true ∧
  half_single ≠ S754_nan ∧
  let V := PyFloat 4602678819172646912 in
  let s := run mock_driver (set_then_get_user_temperature V) ∅ idle in
  outcome s = Returns V ∧
  calls s = [adryLib.call_setter adryLib.setUserTemperature 1056964608;
             adryLib.call_reader adryLib.getUserTemperature
               adryLib.float_cell 0].
Proof.
  split; [exact mock_pass_through|]. split; [reflexivity|].
  split; [discriminate|].
  exact (user_temperature_round_trip mock_driver ∅ idle half_single
           mock_pass_through eq_refl ltac:(discriminate)).
Defined.

(** C5, as stated, fails. 0.1 is a Python float; against the pass-through
    double, setting the user temperature to 0.1 and reading it back returns
    0.100000001490116..., the binary32 number nearest to 0.1. *)
Lemma user_temperature_round_trip_loses_precision :
  let s := run mock_driver (set_then_get_user_temperature (PyFloat tenth))
             ∅ idle in
  pass_through mock_driver ∧
  double_of_bits tenth = S754_finite false 7205759403792794 (-56) ∧
  outcome s = Returns (PyFloat 4591870180174331904) ∧
  double_of_bits 4591870180174331904 =
    S754_finite false 7205759511166976 (-56) ∧
  outcome s ≠ Returns (PyFloat tenth).
Proof.
  split; [exact mock_pass_through|].
  repeat split; try reflexivity. discriminate.
Qed.

(** * Further properties of the facade *)

(** ** One call, and errors before it *)

Lemma run_forwarding (drv : adryLib.Driver) {A : Type} (p : prog A) :
  forwarding p →
  ∀ self d,
    let s := run drv p self d in
    (length (calls s) ≤ 1)%nat ∧
    ∀ e, outcome s = Raises e →
      (marshaling_error e = true ∧ calls s = [] ∧ driver s = d) ∨
      (e = UnicodeDecodeError ∧ length (calls s) = 1%nat).
Proof.
  induction 1 as [a|e He|name k Hk IH|n k Hk IH|c k Hk];
    intros self d; simpl.
  - split; [lia|]. intros e [=].
  - split; [lia|]. intros e' [= <-]. left. auto.
  - destruct (self !! name) as [v|]; [apply IH|].
    simpl. split; [lia|]. intros e [= <-]. left. auto.
  - destruct (adryLib.fits drv n); [apply IH|].
    simpl. split; [lia|]. intros e [= <-]. left. auto.
  - destruct (adryLib.handle drv c d) as [r d']. simpl.
    destruct (Hk r); simpl; (split; [lia|]); intros e [=]; subst.
    right. auto.
Qed.

Lemma forwarding_lift {A B : Type} (r : result A) (f : A → prog B) :
  (∀ e, r = Raises e → marshaling_error e = true) →
  (∀ a, forwarding (f a)) →
  forwarding (bind (lift r) f).
Proof.
  intros Hr Hf. destruct r as [a|e]; simpl; [apply Hf|].
  constructor. apply Hr. reflexivity.
Qed.

Lemma c_uint16_error v e : c_uint16 v = Raises e → marshaling_error e = true.
Proof. unfold c_uint16. destruct (as_int v); intros [= <-]. reflexivity. Qed.

Lemma c_int_error v e : c_int v = Raises e → marshaling_error e = true.
Proof. unfold c_int. destruct (as_int v); intros [= <-]. reflexivity. Qed.

Lemma c_float_error v e : c_float v = Raises e → marshaling_error e = true.
Proof.
  destruct v as [|b|z|x|s|b]; cbn [c_float as_int];
    try (intros [= <-]; reflexivity).
  - destruct (binary_normalize 53 1024 (Z.b2z b) 0 false);
      intros [= <-]; reflexivity.
  - destruct (binary_normalize 53 1024 z 0 false);
      intros [= <-]; reflexivity.
Qed.

Lemma forwarding_create_string_buffer {B : Type} (v : pyval)
    (f : list byte → prog B) :
  (∀ a, forwarding (f a)) →
  forwarding (bind (create_string_buffer v) f).
Proof.
  intros Hf. unfold create_string_buffer.
  destruct v as [|b|z|x|s|b]; cbn [as_int bind];
    try (constructor; reflexivity);
    try (constructor; intros; apply Hf);
    repeat match goal with
           | |- context [if ?c then _ else _] => destruct c; cbn [bind]
           end;
    first [ constructor; reflexivity | constructor; intros; apply Hf ].
Qed.

Lemma forwarding_encode {B : Type} (v : pyval) (f : list byte → prog B) :
  (∀ a, forwarding (f a)) → forwarding (bind (AttoDRY.encode v) f).
Proof.
  intros Hf. destruct v as [|b|z|x|s|b]; simpl;
    try (constructor; reflexivity).
  destruct (utf8_encode s); simpl; [apply Hf|constructor; reflexivity].
Qed.

Lemma finishing_decode b : finishing (AttoDRY.decode b).
Proof. unfold AttoDRY.decode. destruct (utf8_decode b); constructor. Qed.

Ltac forwarding_steps :=
  repeat first
    [ apply forwarding_encode
    | apply forwarding_create_string_buffer
    | apply forwarding_lift;
      [ first [ apply c_uint16_error | apply c_int_error
              | apply c_float_error ] | ]
    | apply finishing_decode
    | apply fw_GetAttr
    | apply fw_Invoke
    | apply fin_Ret
    | intro ].

(** Every method but [end] has a forwarding body. *)
Lemma invoke_forwarding (i : AttoDRY.invocation) :
  i ≠ AttoDRY.do_end → forwarding (AttoDRY.invoke i).
Proof.
  intros Hi.
  destruct i; try (exfalso; apply Hi; reflexivity); cbv [AttoDRY.invoke];
    try (apply fw_Invoke; intros; apply fin_Ret);
    cbv [AttoDRY.begin AttoDRY.Connect AttoDRY.getActionMessage
         AttoDRY.getAttodryErrorMessage AttoDRY.write_c_float
         AttoDRY.setUserMagneticField AttoDRY.setUserTemperature
         AttoDRY.setDerivativeGain AttoDRY.setIntegralGain
         AttoDRY.setProportionalGain AttoDRY.setSampleHeaterMaximumPower
         AttoDRY.setSampleHeaterWireResistance AttoDRY.setSampleHeaterPower
         AttoDRY.setSampleHeaterResistance AttoDRY.setVTIHeaterPower
         AttoDRY.setReservoirTsetWarmMagnet
         AttoDRY.setReservoirTsetColdSample
         AttoDRY.setReservoirTsetWarmSample
         AttoDRY.downloadSampleTemperatureSensorCalibrationCurve
         AttoDRY.downloadTemperatureSensorCalibrationCurve
         AttoDRY.startLogging
         AttoDRY.uploadSampleTemperatureCalibrationCurve
         AttoDRY.uploadTemperatureCalibrationCurve
         mbind prog_bind];
    forwarding_steps.
Qed.

(** What [end] does against any driver: two or three calls, no exception. *)
Lemma run_end (drv : adryLib.Driver) self d :
  let s := run drv AttoDRY.end_ self d in
  outcome s = Returns PyNone ∧ (2 ≤ length (calls s) ≤ 3)%nat.
Proof.
  cbv [AttoDRY.end_ AttoDRY.isDeviceConnected AttoDRY.read_c_int
       AttoDRY.Disconnect AttoDRY.forward mbind prog_bind].
  simpl. ask_driver. unfold truthy.
  destruct (c_int_value r =? 0); simpl; repeat ask_driver;
    (split; [reflexivity|lia]).
Qed.

Lemma end_or_not (i : AttoDRY.invocation) :
  i = AttoDRY.do_end ∨ i ≠ AttoDRY.do_end.
Proof. destruct i; first [left; reflexivity | right; discriminate]. Qed.

(** X1. An exception leaves a method in one of two ways only. Either it is
    raised while the arguments are prepared ([TypeError], [AttributeError],
    [ValueError], [OverflowError], [UnicodeEncodeError], or [MemoryError]
    when the host refuses the buffer of a diagnostic), and then the driver
    was not called and its state is untouched; or it is
    [UnicodeDecodeError], raised after the one call whose answer could not
    be decoded. No method raises anything else. *)
Theorem exceptions_are_marshaling_errors (drv : adryLib.Driver)
    (i : AttoDRY.invocation) (self : gmap string pyval)
    (d : adryLib.dstate drv) (e : exn) :
  let s := run drv (AttoDRY.invoke i) self d in
  outcome s = Raises e →
  (marshaling_error e = true ∧ calls s = [] ∧ driver s = d) ∨
  (e = UnicodeDecodeError ∧ length (calls s) = 1%nat).
Proof.
  intros s He. subst s.
  destruct (end_or_not i) as [->|Hi].
  - destruct (run_end drv self d) as [Hout _].
    change (outcome (run drv AttoDRY.end_ self d) = Raises e) in He.
    rewrite Hout in He. discriminate He.
  - exact (proj2 (run_forwarding drv _ (invoke_forwarding i Hi) self d) e He).
Qed.

Lemma exceptions_are_marshaling_errors_witness :
  let s :=
    run mock_driver
      (AttoDRY.invoke (AttoDRY.do_getAttodryErrorMessage (Some (PyInt (-1)))))
      ∅ idle in
  outcome s = Raises ValueError ∧
  ((marshaling_error ValueError = true ∧ calls s = [] ∧ driver s = idle) ∨
   (ValueError = UnicodeDecodeError ∧ length (calls s) = 1%nat)).
Proof.
  split; [reflexivity|].
  exact (exceptions_are_marshaling_errors mock_driver
           (AttoDRY.do_getAttodryErrorMessage (Some (PyInt (-1))))
           ∅ idle ValueError eq_refl).
Defined.

(** X2. Every method reaches the driver at most once per call, except
    [end], which reaches it two or three times. *)
Theorem methods_call_driver_once (drv : adryLib.Driver)
    (i : AttoDRY.invocation) (self : gmap string pyval)
    (d : adryLib.dstate drv) :
  let n := length (calls (run drv (AttoDRY.invoke i) self d)) in
  match i with
  | AttoDRY.do_end => (2 ≤ n ≤ 3)%nat
  | _ => (n ≤ 1)%nat
  end.
Proof.
  destruct (end_or_not i) as [->|Hi].
  - exact (proj2 (run_end drv self d)).
  - pose proof (proj1 (run_forwarding drv _ (invoke_forwarding i Hi) self d))
      as Hn.
    destruct i; try exact Hn. exfalso. apply Hi. reflexivity.
Qed.

(** ** Attributes are read by [begin] and [Connect] only *)

Lemma run_attribute_free (drv : adryLib.Driver) {A : Type} (p : prog A) :
  attribute_free p →
  ∀ self self' d,
    let s := run drv p self d in
    let s' := run drv p self' d in
    outcome s = outcome s' ∧ driver s = driver s' ∧ calls s = calls s'.
Proof.
  induction 1 as [a|e|n k Hk IH|c k Hk IH]; intros self self' d; simpl;
    auto.
  - destruct (adryLib.fits drv n); [apply IH|]. simpl. auto.
  - destruct (adryLib.handle drv c d) as [r d']. simpl.
    destruct (IH r self self' d') as (H1 & H2 & H3).
    rewrite H1, H2, H3. auto.
Qed.

Lemma attribute_free_bind {A B : Type} (p : prog A) (f : A → prog B) :
  attribute_free p → (∀ a, attribute_free (f a)) →
  attribute_free (bind p f).
Proof. intros Hp Hf. induction Hp; simpl; auto; constructor; auto. Qed.

Lemma attribute_free_lift {A : Type} (r : result A) :
  attribute_free (lift r).
Proof. destruct r; constructor. Qed.

Lemma attribute_free_create_string_buffer v :
  attribute_free (create_string_buffer v).
Proof.
  unfold create_string_buffer.
  destruct v as [|b|z|x|s|b]; cbn [as_int];
    repeat match goal with
           | |- context [if ?c then _ else _] => destruct c
           end;
    repeat (constructor; intros).
Qed.

Lemma attribute_free_encode v : attribute_free (AttoDRY.encode v).
Proof.
  destruct v; simpl; try constructor.
  destruct (utf8_encode s); constructor.
Qed.

Lemma attribute_free_decode b : attribute_free (AttoDRY.decode b).
Proof. unfold AttoDRY.decode. destruct (utf8_decode b); constructor. Qed.

Ltac attribute_free_steps :=
  repeat first
    [ apply attribute_free_bind
    | apply attribute_free_lift
    | apply attribute_free_create_string_buffer
    | apply attribute_free_encode
    | apply attribute_free_decode
    | constructor
    | intro ].

Lemma invoke_attribute_free (i : AttoDRY.invocation) :
  i ≠ AttoDRY.do_begin → i ≠ AttoDRY.do_Connect →
  attribute_free (AttoDRY.invoke i).
Proof.
  intros Hb Hc.
  destruct i;
    try (exfalso; first [apply Hb; reflexivity | apply Hc; reflexivity]);
    cbv [AttoDRY.invoke];
    try (constructor; intros; constructor);
    cbv [AttoDRY.end_ AttoDRY.getActionMessage
         AttoDRY.getAttodryErrorMessage AttoDRY.write_c_float
         AttoDRY.isDeviceConnected AttoDRY.Disconnect AttoDRY.forward
         AttoDRY.read_c_int
         AttoDRY.setUserMagneticField AttoDRY.setUserTemperature
         AttoDRY.setDerivativeGain AttoDRY.setIntegralGain
         AttoDRY.setProportionalGain AttoDRY.setSampleHeaterMaximumPower
         AttoDRY.setSampleHeaterWireResistance AttoDRY.setSampleHeaterPower
         AttoDRY.setSampleHeaterResistance AttoDRY.setVTIHeaterPower
         AttoDRY.setReservoirTsetWarmMagnet
         AttoDRY.setReservoirTsetColdSample
         AttoDRY.setReservoirTsetWarmSample
         AttoDRY.downloadSampleTemperatureSensorCalibrationCurve
         AttoDRY.downloadTemperatureSensorCalibrationCurve
         AttoDRY.startLogging
         AttoDRY.uploadSampleTemperatureCalibrationCurve
         AttoDRY.uploadTemperatureCalibrationCurve
         mbind prog_bind];
    attribute_free_steps.
  destruct (truthy a); attribute_free_steps.
Qed.

(** X3. Only [begin] and [Connect] look at the attributes of the object.
    Every other method behaves the same on any two objects, even one without
    attributes: same result, same calls, same effect on the driver. *)
Theorem methods_ignore_attributes (drv : adryLib.Driver)
    (i : AttoDRY.invocation) (self self' : gmap string pyval)
    (d : adryLib.dstate drv) :
  i ≠ AttoDRY.do_begin → i ≠ AttoDRY.do_Connect →
  let s := run drv (AttoDRY.invoke i) self d in
  let s' := run drv (AttoDRY.invoke i) self' d in
  outcome s = outcome s' ∧ driver s = driver s' ∧ calls s = calls s'.
Proof.
  intros Hb Hc. apply run_attribute_free, invoke_attribute_free; assumption.
Qed.

Lemma methods_ignore_attributes_witness :
  AttoDRY.do_setUserTemperature (PyInt 4) ≠ AttoDRY.do_begin ∧
  AttoDRY.do_setUserTemperature (PyInt 4) ≠ AttoDRY.do_Connect ∧
  let p := AttoDRY.invoke (AttoDRY.do_setUserTemperature (PyInt 4)) in
  let s := run mock_driver p (constructed ATTODRY800 (text "COM3")) idle in
  let s' := run mock_driver p ∅ idle in
  outcome s = outcome s' ∧ driver s = driver s' ∧ calls s = calls s'.
Proof.
  split; [discriminate|]. split; [discriminate|].
  apply (methods_ignore_attributes mock_driver
           (AttoDRY.do_setUserTemperature (PyInt 4))); discriminate.
Defined.

(** ** Starting the driver *)

(** X4. [begin()] hands the driver the stored [setup_version] reduced modulo
    65536: [c_uint16] keeps the low 16 bits of any integer without
    complaint, so 65537 starts the device numbered 1. The object is left as
    constructed and [begin()] returns [None]. *)
Theorem begin_passes_low_16_bits (drv : adryLib.Driver) (z : Z)
    (com_port : pyval) (d0 d : adryLib.dstate drv) :
  let self := object (run drv (AttoDRY.__init__ (PyInt z) com_port) ∅ d0) in
  let c := adryLib.call_begin (z mod 65536) in
  run drv AttoDRY.begin self d =
    {| outcome := Returns PyNone; object := self;
       driver := (adryLib.handle drv c d).2; calls := [c] |}.
Proof.
  simpl. rewrite lookup_insert_ne by done. rewrite lookup_insert_eq.
  cbv [c_uint16 as_int mbind prog_bind lift]. simpl.
  change 65535 with (Z.ones 16). rewrite Z.land_ones by lia.
  change (2 ^ 16) with 65536.
  ask_driver. reflexivity.
Qed.

(** X5. A facade constructed with a member of [Cryostats] starts the driver
    exactly as one constructed with the member of [Devices] of the same
    name: [begin()] passes the number of the variant, 0, 1 or 2, and
    different variants pass different numbers. *)
Theorem begin_passes_variant_number (drv : adryLib.Driver) (c : Cryostats)
    (com_port : pystr) (d0 d : adryLib.dstate drv) :
  let v := Devices_of_Cryostats c in
  let self :=
    object (run drv (AttoDRY.__init__ (PyInt (Cryostats_value c))
                       (PyStr com_port)) ∅ d0) in
  self = constructed v com_port ∧
  calls (run drv AttoDRY.begin self d)
    = [adryLib.call_begin (Devices_value v)] ∧
  outcome (run drv AttoDRY.begin self d) = Returns PyNone ∧
  0 ≤ Devices_value v ≤ 2 ∧
  ∀ c', Cryostats_value c' = Cryostats_value c → c' = c.
Proof.
  destruct c; simpl;
    (split; [reflexivity|]);
    rewrite lookup_insert_ne by done; rewrite lookup_insert_eq; simpl;
    ask_driver;
    (split; [reflexivity|]); (split; [reflexivity|]); (split; [lia|]);
    intros []; simpl; intros; congruence.
Qed.

(** ** Status getters *)

(** X6. A status getter ([isDeviceConnected], the valve getters, the error
    status, ...) calls its entry point once with a zeroed cell and returns
    the word the driver left there read as a signed 32-bit integer: always
    within -2^31 .. 2^31-1, congruent to the word modulo 2^32, and equal to
    it when the word is in that range. *)
Theorem status_getter_returns_signed_word (drv : adryLib.Driver)
    (i : AttoDRY.invocation) (f : adryLib.reader)
    (self : gmap string pyval) (d : adryLib.dstate drv) :
  status_entry i = Some f →
  let r :=
    adryLib.handle drv (adryLib.call_reader f adryLib.int_cell 0) d in
  let v := c_int_value r.1 in
  run drv (AttoDRY.invoke i) self d =
    {| outcome := Returns (PyInt v); object := self; driver := r.2;
       calls := [adryLib.call_reader f adryLib.int_cell 0] |} ∧
  -2147483648 ≤ v < 2147483648 ∧
  (v - r.1) mod 4294967296 = 0 ∧
  (-2147483648 ≤ r.1 < 2147483648 → v = r.1).
Proof.
  intros Hi. split.
  - destruct i; simpl in Hi |- *; try discriminate Hi;
      injection Hi as <-; ask_driver; reflexivity.
  - split; [apply c_int_value_range|].
    split; [apply c_int_value_congruent|apply c_int_value_id].
Qed.

Lemma status_getter_returns_signed_word_witness :
  status_entry AttoDRY.do_isDeviceInitialised
    = Some adryLib.isDeviceInitialised ∧
  run mock_driver AttoDRY.isDeviceInitialised ∅ idle =
    {| outcome := Returns (PyInt 0); object := ∅; driver := idle;
       calls := [adryLib.call_reader adryLib.isDeviceInitialised
                   adryLib.int_cell 0] |}.
Proof.
  split; [reflexivity|].
  exact (proj1 (status_getter_returns_signed_word mock_driver
                  AttoDRY.do_isDeviceInitialised adryLib.isDeviceInitialised
                  ∅ idle eq_refl)).
Defined.

(** ** Float setters *)

(** X7. Each of the thirteen float setters, given a Python float that holds
    a binary32 number [x] (finite, zero or infinite, not a NaN), makes one
    driver call with exactly the 32 bits of [x] (bits from which [x] is
    recovered) and returns [None]. *)
Theorem setter_passes_exact_bits (drv : adryLib.Driver)
    (i : AttoDRY.invocation) (f : adryLib.setter) (x : spec_float)
    (self : gmap string pyval) (d : adryLib.dstate drv) :
  setter_entry i = Some (f, PyFloat (bits_of_double (to_double x))) →
  valid_binary 24 128 x = true →
  x ≠ S754_nan →
  let c := adryLib.call_setter f (bits_of_single x) in
  run drv (AttoDRY.invoke i) self d =
    {| outcome := Returns PyNone; object := self;
       driver := (adryLib.handle drv c d).2; calls := [c] |} ∧
  single_of_bits (bits_of_single x) = x.
Proof.
  intros Hi Hx Hnan. split; [|apply bits_single_bits, Hx].
  destruct i; cbn [setter_entry] in Hi; try discriminate Hi;
    injection Hi as <- ->; cbn [AttoDRY.invoke];
    cbv [AttoDRY.setUserMagneticField AttoDRY.setUserTemperature
         AttoDRY.setDerivativeGain AttoDRY.setIntegralGain
         AttoDRY.setProportionalGain AttoDRY.setSampleHeaterMaximumPower
         AttoDRY.setSampleHeaterWireResistance AttoDRY.setSampleHeaterPower
         AttoDRY.setSampleHeaterResistance AttoDRY.setVTIHeaterPower
         AttoDRY.setReservoirTsetWarmMagnet
         AttoDRY.setReservoirTsetColdSample
         AttoDRY.setReservoirTsetWarmSample
         AttoDRY.write_c_float c_float mbind prog_bind lift];
    rewrite (narrow_of_single x Hx Hnan); cbn [bind run];
    ask_driver; reflexivity.
Qed.

Lemma setter_passes_exact_bits_witness :
  setter_entry (AttoDRY.do_setSampleHeaterPower (PyFloat 4602678819172646912))
    = Some (adryLib.setSampleHeaterPower,
            PyFloat (bits_of_double (to_double half_single))) ∧
  valid_binary 24 128 half_single = true ∧
  half_single ≠ S754_nan ∧
  calls (run mock_driver
           (AttoDRY.setSampleHeaterPower (PyFloat 4602678819172646912))
           ∅ idle)
    = [adryLib.call_setter adryLib.setSampleHeaterPower 1056964608].
Proof.
  split; [reflexivity|]. split; [reflexivity|]. split; [discriminate|].
  exact (f_equal calls
           (proj1 (setter_passes_exact_bits mock_driver
                     (AttoDRY.do_setSampleHeaterPower
                        (PyFloat 4602678819172646912))
                     adryLib.setSampleHeaterPower half_single ∅ idle
                     eq_refl eq_refl ltac:(discriminate)))).
Defined.

(** ** Strings handed to the driver *)






(** ** Logging and curve transfer *)



(** X11. [downloadTemperatureSensorCalibrationCurve(n, path)] never refuses
    a curve number for its size. With a path that can be encoded it makes
    one driver call and returns [None]; the call carries the C string of the
    encoded path and the number [m] in -2^31 .. 2^31-1 that is congruent to
    [n] modulo 2^32, which is [n] itself when [n] fits a C [int]. Two curve
    numbers that differ by a multiple of 2^32 therefore give the same run,
    whatever the path argument. *)
Theorem download_wraps_curve_number (drv : adryLib.Driver)
    (self : gmap string pyval) (d : adryLib.dstate drv)
    (savepath : pystr) (b : list byte) (n k : Z) :
  utf8_encode savepath = Some b →
  let m := (n + 2147483648) mod 4294967296 - 2147483648 in
  let c :=
    adryLib.call_downloadTemperatureSensorCalibrationCurve m (c_string b) in
  run drv
    (AttoDRY.downloadTemperatureSensorCalibrationCurve
       (PyInt n) (PyStr savepath)) self d =
    {| outcome := Returns PyNone; object := self;
       driver := (adryLib.handle drv c d).2; calls := [c] |} ∧
  -2147483648 ≤ m < 2147483648 ∧
  (-2147483648 ≤ n < 2147483648 → m = n) ∧
  (Forall (λ c, c ≠ 0) savepath → c_string b = b) ∧
  ∀ path : pyval,
    run drv
      (AttoDRY.downloadTemperatureSensorCalibrationCurve
         (PyInt (n + k * 4294967296)) path) self d =
    run drv
      (AttoDRY.downloadTemperatureSensorCalibrationCurve (PyInt n) path)
      self d.
Proof.
  intros Hb m c.
  assert (Hm : c_int_value (Z.land n 4294967295) = m).
  { rewrite c_int_value_signed. change 4294967295 with (Z.ones 32).
    rewrite Z.land_ones by lia. change (2 ^ 32) with 4294967296.
    subst m. Z.div_mod_to_equations. lia. }
  split.
  { cbv [AttoDRY.downloadTemperatureSensorCalibrationCurve AttoDRY.encode
         c_int as_int lift mbind prog_bind].
    rewrite Hb. cbn [bind run]. rewrite Hm. fold c.
    ask_driver. reflexivity. }
  split; [subst m; Z.div_mod_to_equations; lia|].
  split; [intros Hn; subst m; Z.div_mod_to_equations; lia|].
  split.
  { intros Hs. apply c_string_no_nul.
    exact (utf8_encode_no_nul savepath b Hb Hs). }
  intros path.
  cbv [AttoDRY.downloadTemperatureSensorCalibrationCurve c_int as_int
       lift mbind prog_bind].
  change 4294967295 with (Z.ones 32). rewrite !Z.land_ones by lia.
  change (2 ^ 32) with 4294967296.
  rewrite Z.mod_add by lia. reflexivity.
Qed.

Lemma download_wraps_curve_number_witness :
  utf8_encode (text "t.crv") = Some (ascii_bytes "t.crv") ∧
  run mock_driver
    (AttoDRY.downloadTemperatureSensorCalibrationCurve
       (PyInt 4294967299) (PyStr (text "t.crv"))) ∅ idle =
    {| outcome := Returns PyNone; object := ∅; driver := idle;
       calls := [adryLib.call_downloadTemperatureSensorCalibrationCurve 3
                   (ascii_bytes "t.crv")] |}.
Proof.
  split; [reflexivity|].
  exact (proj1 (download_wraps_curve_number mock_driver ∅ idle
                  (text "t.crv") (ascii_bytes "t.crv") 4294967299 0
                  eq_refl)).
Defined.

(** ** Messages *)

Lemma payload_range (b : byte) (p : Z) : payload b = Some p → 0 ≤ p < 64.
Proof.
  rewrite payload_spec.
  destruct (Z.leb_spec 128 (Z_of_byte b)); simpl; [|discriminate].
  destruct (Z.ltb_spec (Z_of_byte b) 192); intros [= <-]; lia.
Qed.

Lemma utf8_decode_sound_aux (n : nat) :
  ∀ (b : list byte) (s : pystr),
    (length b ≤ n)%nat → utf8_decode b = Some s →
    (length s ≤ length b)%nat ∧ (no_nul b → Forall (λ c, c ≠ 0) s).
Proof.
  induction n as [n IH] using lt_wf_ind. intros b s Hn.
  destruct b as [|b0 r].
  { intros [= <-]. split; [simpl; lia|constructor]. }
  cbn [utf8_decode]. cbv zeta. cbn [length] in Hn |- *.
  destruct (Z.ltb_spec (Z_of_byte b0) 128) as [H0|H0].
  { intros (s' & Hs' & ->)%fmap_cons_Some.
    destruct (IH (length r) ltac:(lia) r s' ltac:(lia) Hs') as [Hl Hz].
    split; [simpl; lia|].
    intros Hb. inversion Hb as [|? ? Hb0 Hr]; subst.
    constructor; [apply is_nul_false, Hb0|apply Hz, Hr]. }
  destruct ((194 <=? Z_of_byte b0) && (Z_of_byte b0 <=? 223)) eqn:H2.
  { apply andb_prop in H2 as [Ha Hb]. apply Z.leb_le in Ha, Hb.
    destruct r as [|b1 r1]; [discriminate|].
    destruct (payload b1) as [p1|] eqn:Hp1; [|discriminate].
    intros (s' & Hs' & ->)%fmap_cons_Some.
    cbn [length] in Hn |- *.
    destruct (IH (length r1) ltac:(lia) r1 s' ltac:(lia) Hs') as [Hl Hz].
    split; [simpl; lia|].
    intros Hnul. inversion Hnul as [|? ? _ Hr]; subst.
    inversion Hr as [|? ? _ Hr1]; subst.
    constructor; [|apply Hz, Hr1].
    pose proof (payload_range b1 p1 Hp1).
    pose proof (lead_bits b0) as (Hl0 & _ & _). cbv zeta in Hl0.
    rewrite push_spec, Hl0 by lia. lia. }
  destruct ((224 <=? Z_of_byte b0) && (Z_of_byte b0 <=? 239)) eqn:H3.
  { destruct r as [|b1 [|b2 r2]]; try discriminate.
    destruct (payload b1) as [p1|]; [|discriminate].
    destruct (payload b2) as [p2|]; [|discriminate].
    destruct ((2048 <=? push (push (Z.land (Z_of_byte b0) 15) p1) p2)
              && negb (is_surrogate
                         (push (push (Z.land (Z_of_byte b0) 15) p1) p2)))
      eqn:Hc; [|discriminate].
    apply andb_prop in Hc as [Hc _]. apply Z.leb_le in Hc.
    intros (s' & Hs' & ->)%fmap_cons_Some.
    cbn [length] in Hn |- *.
    destruct (IH (length r2) ltac:(lia) r2 s' ltac:(lia) Hs') as [Hl Hz].
    split; [simpl; lia|].
    intros Hnul. inversion Hnul as [|? ? _ Hr]; subst.
    inversion Hr as [|? ? _ Hr1]; subst.
    inversion Hr1 as [|? ? _ Hr2]; subst.
    constructor; [lia|apply Hz, Hr2]. }
  destruct ((240 <=? Z_of_byte b0) && (Z_of_byte b0 <=? 244)) eqn:H4;
    [|discriminate].
  destruct r as [|b1 [|b2 [|b3 r3]]]; try discriminate.
  destruct (payload b1) as [p1|]; [|discriminate].
  destruct (payload b2) as [p2|]; [|discriminate].
  destruct (payload b3) as [p3|]; [|discriminate].
  destruct ((65536 <=? push (push (push (Z.land (Z_of_byte b0) 7) p1) p2) p3)
            && (push (push (push (Z.land (Z_of_byte b0) 7) p1) p2) p3
                <? 1114112))
    eqn:Hc; [|discriminate].
  apply andb_prop in Hc as [Hc _]. apply Z.leb_le in Hc.
  intros (s' & Hs' & ->)%fmap_cons_Some.
  cbn [length] in Hn |- *.
  destruct (IH (length r3) ltac:(lia) r3 s' ltac:(lia) Hs') as [Hl Hz].
  split; [simpl; lia|].
  intros Hnul. inversion Hnul as [|? ? _ Hr]; subst.
  inversion Hr as [|? ? _ Hr1]; subst.
  inversion Hr1 as [|? ? _ Hr2]; subst.
  inversion Hr2 as [|? ? _ Hr3]; subst.
  constructor; [lia|apply Hz, Hr3].
Qed.

Lemma c_string_length (b : list byte) : (length (c_string b) ≤ length b)%nat.
Proof.
  induction b as [|x b IH]; cbn [c_string]; [lia|].
  destruct (is_nul x); simpl; lia.
Qed.

Lemma c_string_has_no_nul (b : list byte) : no_nul (c_string b).
Proof.
  induction b as [|x b IH]; cbn [c_string]; [constructor|].
  destruct (is_nul x) eqn:Hx; constructor; assumption.
Qed.

Lemma array_value_length (buffer written : list byte) :
  (length (array_value buffer written) ≤ length buffer)%nat.
Proof.
  unfold array_value.
  pose proof (c_string_length (take (length buffer) written)) as H.
  rewrite length_take in H. lia.
Qed.

(** A length that is not granted: the diagnostic raises before the driver
    is called. *)
Lemma run_message_refused (drv : adryLib.Driver) (n : Z)
    (self : gmap string pyval) (d : adryLib.dstate drv) :
  let s :=
    run drv (AttoDRY.getAttodryErrorMessage (Some (PyInt n))) self d in
  (n < -9223372036854775808 ∨ 9223372036854775808 ≤ n →
   outcome s = Raises OverflowError ∧ calls s = []) ∧
  (-9223372036854775808 ≤ n < 0 →
   outcome s = Raises ValueError ∧ calls s = []) ∧
  (0 ≤ n < 9223372036854775808 → adryLib.fits drv n = false →
   outcome s = Raises MemoryError ∧ calls s = []).
Proof.
  cbv [AttoDRY.getAttodryErrorMessage create_string_buffer c_int as_int
       default id mbind prog_bind lift].
  destruct (Z.ltb_spec n (-9223372036854775808));
    destruct (Z.leb_spec 9223372036854775808 n);
    destruct (Z.ltb_spec n 0); cbn [orb bind run outcome calls];
    repeat split; intros; try lia; try reflexivity;
    match goal with
    | H : adryLib.fits _ _ = false |- _ => rewrite H
    end; split; reflexivity.
Qed.

(** X12. Whatever the driver writes into the buffer, a message that
    [getAttodryErrorMessage(n)] or [getActionMessage(n)] returns is a string
    of at most [n] characters (500 without argument) that contains no NUL
    character. *)
Theorem message_is_bounded_and_NUL_free (drv : adryLib.Driver)
    (i : AttoDRY.invocation) (length_arg : option pyval) (n : Z)
    (self : gmap string pyval) (d : adryLib.dstate drv) (v : pyval) :
  i = AttoDRY.do_getAttodryErrorMessage length_arg ∨
  i = AttoDRY.do_getActionMessage length_arg →
  default (PyInt 500) length_arg = PyInt n →
  outcome (run drv (AttoDRY.invoke i) self d) = Returns v →
  ∃ s, v = PyStr s ∧ Z.of_nat (length s) ≤ n ∧ Forall (λ c, c ≠ 0) s.
Proof.
  intros Hi Hn.
  assert (Hrun : run drv (AttoDRY.invoke i) self d
                 = run drv (AttoDRY.getAttodryErrorMessage (Some (PyInt n)))
                     self d).
  { destruct Hi as [-> | ->]; cbv [AttoDRY.invoke];
      [|change (AttoDRY.getActionMessage length_arg)
          with (AttoDRY.getAttodryErrorMessage length_arg)];
      cbv [AttoDRY.getAttodryErrorMessage]; rewrite Hn; reflexivity. }
  rewrite Hrun. clear Hrun.
  destruct (run_message_refused drv n self d) as (Hover & Hneg & Hmem).
  destruct (Z.lt_ge_cases n (-9223372036854775808)) as [H1|H1].
  { rewrite (proj1 (Hover (or_introl H1))). discriminate. }
  destruct (Z.le_gt_cases 9223372036854775808 n) as [H2|H2].
  { rewrite (proj1 (Hover (or_intror H2))). discriminate. }
  destruct (Z.lt_ge_cases n 0) as [H3|H3].
  { rewrite (proj1 (Hneg (conj H1 H3))). discriminate. }
  destruct (adryLib.fits drv n) eqn:Hfits.
  2: { rewrite (proj1 (Hmem (conj H3 H2) eq_refl)). discriminate. }
  clear Hover Hneg Hmem.
  rewrite (run_message drv n self d (conj H3 H2) Hfits). cbn [outcome].
  set (buffer := replicate (Z.to_nat n) Byte.x00).
  set (value := array_value buffer _).
  destruct (utf8_decode value) as [s|] eqn:Hs; [|discriminate].
  intros [= <-]. exists s. split; [reflexivity|].
  destruct (utf8_decode_sound_aux (length value) value s ltac:(lia) Hs)
    as [Hlen Hnul].
  split.
  - pose proof (array_value_length buffer
                  (adryLib.handle drv
                     (adryLib.call_message adryLib.getAttodryErrorMessage
                        buffer (c_int_value (Z.land n 4294967295))) d).1)
      as Hb.
    fold value in Hb. subst buffer. rewrite length_replicate in Hb. lia.
  - apply Hnul. apply c_string_has_no_nul.
Qed.

Lemma message_is_bounded_and_NUL_free_witness :
  default (PyInt 500) (Some (PyInt 4)) = PyInt 4 ∧
  outcome (run mock_driver
             (AttoDRY.invoke (AttoDRY.do_getActionMessage (Some (PyInt 4))))
             ∅ idle) = Returns (PyStr (text "No e")) ∧
  ∃ s, PyStr (text "No e") = PyStr s ∧
       Z.of_nat (length s) ≤ 4 ∧ Forall (λ c, c ≠ 0) s.
Proof.
  split; [reflexivity|]. split; [reflexivity|].
  apply (message_is_bounded_and_NUL_free mock_driver
           (AttoDRY.do_getActionMessage (Some (PyInt 4)))
           (Some (PyInt 4)) 4 ∅ idle (PyStr (text "No e")));
    [right; reflexivity|reflexivity|reflexivity].
Defined.



(** ** Values read from the driver *)

(** X14. What a getter returns can be written back. Against a pass-through
    driver, reading the user temperature, setting it to the value just read
    and reading it again returns the value of the first read, whatever 32
    bits the driver held. Three calls reach the driver; the setter receives
    the 32 bits that were read when they encode a number, and those bits
    with the quiet bit set when they encode a NaN. *)
Theorem get_set_get_is_stable (drv : adryLib.Driver)
    (self : gmap string pyval) (d : adryLib.dstate drv) :
  pass_through drv →
  let c :=
    adryLib.call_reader adryLib.getUserTemperature adryLib.float_cell 0 in
  let w := (adryLib.handle drv c d).1 in
  let written :=
    match single_of_bits w with
    | S754_nan => Z.lor (Z.land w 4294967295) 4194304
    | _ => Z.land w 4294967295
    end in
  let first := run drv AttoDRY.getUserTemperature self d in
  let again := run drv get_set_get_user_temperature self d in
  outcome first = Returns (PyFloat (c_float_value w)) ∧
  outcome again = outcome first ∧
  calls again =
    [c; adryLib.call_setter adryLib.setUserTemperature written; c].
Proof.
  intros Hpass c w0 written.
  cbv [get_set_get_user_temperature AttoDRY.getUserTemperature
       AttoDRY.setUserTemperature AttoDRY.write_c_float AttoDRY.read_c_float
       mbind prog_bind].
  cbn [bind run]. subst written w0. fold c.
  destruct (adryLib.handle drv c d) as [w d1].
  cbn [fst snd bind run outcome calls].
  change (c_float (PyFloat (c_float_value w)))
    with (Returns (A := Z) (narrow (c_float_value w))).
  cbn [lift bind run].
  destruct (narrow_c_float_value w) as [Hw Hv]. rewrite <- Hw.
  pose proof (Hpass d1 (narrow (c_float_value w)) 0) as Hget.
  destruct (adryLib.handle drv
              (adryLib.call_setter adryLib.setUserTemperature
                 (narrow (c_float_value w))) d1) as [r d2].
  cbn [snd] in Hget. cbn [bind run outcome calls].
  fold c in Hget |- *.
  destruct (adryLib.handle drv c d2) as [w' d3].
  cbn [fst] in Hget. cbn [bind run outcome calls app]. subst w'.
  rewrite Hv. repeat split; reflexivity.
Qed.

Lemma get_set_get_is_stable_witness :
  let d :=
    {| begun := true; connected := true;
       action_message := []; error_message := [];
       user_temperature := 2139095041;
       field_set_point := 0; sample_temperature := 0;
       turbopump_frequency := 0 |} in
  let c :=
    adryLib.call_reader adryLib.getUserTemperature adryLib.float_cell 0 in
  let again := run mock_driver get_set_get_user_temperature ∅ d in
  pass_through mock_driver ∧
  single_of_bits 2139095041 = S754_nan ∧
  outcome again = Returns (PyFloat 9221120237577961472) ∧
  outcome again = outcome (run mock_driver AttoDRY.getUserTemperature ∅ d) ∧
  calls again =
    [c; adryLib.call_setter adryLib.setUserTemperature 2143289345; c].
Proof.
  intros d c again.
  pose proof (get_set_get_is_stable mock_driver ∅ d mock_pass_through)
    as (H1 & H2 & H3).
  split; [exact mock_pass_through|]. split; [reflexivity|].
  split; [exact (eq_trans H2 H1)|]. split; [exact H2|exact H3].
Defined.

(** ** Sample curves and commands *)



(** X16. Each of the 32 commands (toggles, queries, [Cancel], [Confirm],
    [Disconnect], ...) is unconditional: in every state of the object and of
    the driver it makes exactly one call, to its own entry point, without
    asking the driver for any status first, and returns [None]. *)
Theorem command_is_unconditional (drv : adryLib.Driver)
    (i : AttoDRY.invocation) (f : adryLib.command)
    (self : gmap string pyval) (d : adryLib.dstate drv) :
  command_entry i = Some f →
  run drv (AttoDRY.invoke i) self d =
    {| outcome := Returns PyNone; object := self;
       driver := (adryLib.handle drv (adryLib.call_command f) d).2;
       calls := [adryLib.call_command f] |}.
Proof.
  destruct i; simpl; intros [= <-]; ask_driver; reflexivity.
Qed.

Lemma command_is_unconditional_witness :
  command_entry AttoDRY.do_togglePump = Some adryLib.togglePump ∧
  run mock_driver AttoDRY.togglePump ∅ idle =
    {| outcome := Returns PyNone; object := ∅; driver := idle;
       calls := [adryLib.call_command adryLib.togglePump] |}.
Proof.
  split; [reflexivity|].
  exact (command_is_unconditional mock_driver AttoDRY.do_togglePump
           adryLib.togglePump ∅ idle eq_refl).
Defined.
